(** * Inertial height estimation: the hook [useIMUHeight], peak-tracking
      variant

    A shallow embedding of the React hook that turns device-motion samples
    into a height estimate: calibration, frozen-gravity tracking, stationary
    classification, velocity/displacement integration with zero-velocity
    update, peak tracking and the confidence heuristic.

    Numbers.  A JavaScript [number] is modelled as an exact rational in
    canonical form ([Qc]): every arithmetic operation of the source is the
    corresponding exact operation, Leibniz equality is numeric equality, and
    everything computes.  Rounding error, overflow and NaN of IEEE-754
    doubles are outside this model, with two exceptions, which are
    evaluated in binary64 arithmetic (module [Double], on the kernel's
    primitive floats) because a displayed value or a branch depends on
    how a sum or a product is rounded.  One is the confidence heuristic
    of [onMotion]: it is a function of the displayed height, which has
    3001 possible values, so what binary64 does to it is settled by
    evaluation.  The other are the two time accumulators of the
    conservative hook, which are compared with 0.3 s and 0.1 s.
    [Math.sqrt] has no rational
    counterpart, so the engine is parameterised by it (Section variable
    [sqrt]); no property below depends on what [sqrt] returns.  Concrete
    runs use [Qcsqrt], which is exact on squares of rationals.

    State.  The [useRef] cells, the React state ([measurementState], [error],
    [permissionGranted]) and the listeners registered on [window] are the
    fields of one record [Engine]; every callback of the hook is a function
    [Engine -> Engine]. *)

From Stdlib Require Import QArith Qround Qabs Qreduction Qcanon Qcabs.
From Stdlib Require Import ZArith List Bool String Lia Lqa.
From Stdlib Require Floats Uint63.
Import ListNotations.

Local Open Scope Q_scope.
Local Open Scope Qc_scope.

(** ** JavaScript number primitives *)

Module JS.

(** [a < b], [a >= b] and [a > b] on numbers. *)
Definition ltb (a b : Qc) : bool := negb (Qle_bool b a).
Definition geb (a b : Qc) : bool := Qle_bool b a.
Definition gtb (a b : Qc) : bool := ltb b a.

(** Truthiness of a number: everything but zero. *)
Definition truthy (a : Qc) : bool := negb (Qc_eq_bool a 0).

(** [a ?? d] for a nullable number. *)
Definition nullish (a : option Qc) (d : Qc) : Qc :=
  match a with Some v => v | None => d end.

(** [Math.max] and [Math.min]. *)
Definition max (a b : Qc) : Qc := if Qle_bool a b then b else a.
Definition min (a b : Qc) : Qc := if Qle_bool a b then a else b.

(** [Math.abs]. *)
Definition abs (a : Qc) : Qc := Qcabs a.

(** [Math.floor]. *)
Definition floor (a : Qc) : Qc := Q2Qc (inject_Z (Qfloor a)).

(** [Math.round]: the nearest integer, ties towards plus infinity. *)
Definition round (a : Qc) : Qc :=
  Q2Qc (inject_Z (Qfloor (a + Q2Qc 0.5)%Qc)).

(** [a % b]: remainder with the sign of the dividend. *)
Definition rem (a b : Qc) : Qc :=
  let q := a / b in
  a - b * Q2Qc (inject_Z (Z.quot (Qnum q) (Zpos (Qden q)))).

(** A counter read as a number. *)
Definition ofNat (n : nat) : Qc := Q2Qc (inject_Z (Z.of_nat n)).

End JS.

(** ** IEEE-754 doubles

    Binary64 numbers with the operations the confidence heuristic uses.
    Every operation is the kernel's, correctly rounded to nearest, ties to
    even. *)

Module Double.

Definition add := PrimFloat.add.
Definition mul := PrimFloat.mul.
Definition div := PrimFloat.div.

(** [a > b]. *)
Definition gtb (a b : PrimFloat.float) : bool := PrimFloat.ltb b a.

(** A whole number from 0 to 2^53, which is a double exactly. *)
Definition ofZ (n : Z) : PrimFloat.float :=
  PrimFloat.of_uint63 (Uint63.of_Z n).

(** The double nearest to a rational whose numerator and denominator are
    at most 2^53: both are doubles exactly and their quotient is correctly
    rounded.  This is the double that a decimal literal of the source, or
    a displayed value such as 19.4, stands for. *)
Definition ofQ (q : Q) : PrimFloat.float :=
  let d := ofZ (Zpos (Qden q)) in
  if (Qnum q <? 0)%Z then PrimFloat.opp (div (ofZ (- Qnum q)) d)
  else div (ofZ (Qnum q)) d.

Definition ofQc (q : Qc) : PrimFloat.float := ofQ (this q).

(** The exact value of a finite double; an infinity or a NaN, which the
    operations below never produce from the numbers they are given, reads
    as 0. *)
Definition toQ (x : PrimFloat.float) : Q :=
  match FloatOps.Prim2SF x with
  | SpecFloat.S754_finite sign m e =>
      let v := if sign then Zneg m else Zpos m in
      if (0 <=? e)%Z then inject_Z (v * 2 ^ e)
      else (v # (2 ^ Z.to_pos (- e)))%Q
  | _ => 0%Q
  end.

(** [Math.min] on two numbers. *)
Definition min (a b : PrimFloat.float) : PrimFloat.float :=
  if PrimFloat.ltb b a then b else a.

(** [Math.round]: the nearest integer, ties towards plus infinity. *)
Definition round (x : PrimFloat.float) : Z :=
  Qfloor (toQ x + (1 # 2))%Q.

(** [Math.round(x * 10) / 10]: the quotient of the whole number by 10 is
    the double nearest to that many tenths, which is written here as the
    tenths themselves. *)
Definition round1 (x : PrimFloat.float) : Qc :=
  Q2Qc (inject_Z (round (mul x (ofZ 10)))) / Q2Qc 10.

End Double.

(** A square root that is exact on squares of rationals: in canonical form
    such a number has a square numerator and a square denominator. *)
Definition Qcsqrt (q : Qc) : Qc :=
  Q2Qc (Z.sqrt (Qnum q) # Pos.sqrt (Qden q)).

(** ** Vectors *)

Record Vec3 := mkVec3 { vx : Qc; vy : Qc; vz : Qc }.

Definition vecAdd (a b : Vec3) : Vec3 :=
  mkVec3 (vx a + vx b) (vy a + vy b) (vz a + vz b).
Definition vecScale (a : Vec3) (s : Qc) : Vec3 :=
  mkVec3 (vx a * s) (vy a * s) (vz a * s).
Definition vecSub (a b : Vec3) : Vec3 :=
  mkVec3 (vx a - vx b) (vy a - vy b) (vz a - vz b).
Definition vecDot (a b : Vec3) : Qc :=
  vx a * vx b + vy a * vy b + vz a * vz b.

(** ** Events delivered by the platform *)

(** [DeviceMotionEventAcceleration]: each component may be null. *)
Record Acceleration := mkAcc { ax : option Qc; ay : option Qc; az : option Qc }.

(** [DeviceMotionEventRotationRate]. *)
Record RotationRate :=
  mkRot { alpha : option Qc; beta : option Qc; gamma : option Qc }.

(** A [devicemotion] event.  [interval] is [None] when it is not of type
    number. *)
Record DeviceMotionEvent := mkEvent {
  accelerationIncludingGravity : option Acceleration;
  rotationRate : option RotationRate;
  interval : option Qc
}.

(** The vector [{ x: ag.x ?? 0, y: ag.y ?? 0, z: ag.z ?? 0 }]. *)
Definition accelVec (ag : Acceleration) : Vec3 :=
  mkVec3 (JS.nullish (ax ag) 0) (JS.nullish (ay ag) 0) (JS.nullish (az ag) 0).

(** ** Hook state *)

(** The [debugInfo] strings, by shape; the numbers they print are kept
    unformatted. *)
Inductive DebugInfo :=
| DebugEmpty
| DebugCalibrating
| DebugCalibrated (gLen : Qc)
| DebugMeasuring
| DebugSample (aVert v dt : Qc)
| DebugFinal (cm ft inches : Qc).

Record MeasurementState := mkMeasurementState {
  isCalibrating : bool;
  isMeasuring : bool;
  isComplete : bool;
  heightCm : Qc;
  heightFt : Qc;
  heightInches : Qc;
  confidence : Qc;
  debugInfo : DebugInfo
}.

(** The [useRef] cells. *)
Record Refs := mkRefs {
  gravityRef : Vec3;
  lastTimestampRef : Qc;
  velocityRef : Qc;
  displacementRef : Qc;
  peakDisplacementRef : Qc;
  stationarySamplesRef : nat;
  totalSamplesRef : nat;
  hasCalibratedRef : bool
}.

(** What the hook holds on [window]: the number of [onMotion] and
    [onOrientation] closures registered as listeners, and whether
    [_imu_onMotion] / [_imu_onOrientation] point to one of them. *)
Record Window := mkWindow {
  motionListeners : nat;
  orientationListeners : nat;
  imu_onMotion : bool;
  imu_onOrientation : bool
}.

Record Engine := mkEngine {
  refs : Refs;
  measurementState : MeasurementState;
  error : option string;
  permissionGranted : bool;
  window : Window
}.

Definition initialMeasurementState : MeasurementState :=
  mkMeasurementState false false false 0 0 0 0 DebugEmpty.

Definition defaultGravity : Vec3 := mkVec3 0 0 (Q2Qc 9.81).

Definition initialRefs : Refs :=
  mkRefs defaultGravity 0 0 0 0 0%nat 0%nat false.

(** The state of a freshly mounted hook; the mount effect reports a
    platform without [DeviceMotionEvent]. *)
Definition mount (hasDeviceMotion : bool) : Engine :=
  mkEngine initialRefs initialMeasurementState
           (if hasDeviceMotion then None
            else Some "Device motion sensors not available"%string)
           false (mkWindow 0 0 false false).

Definition initialEngine : Engine := mount true.

(** ** Unit conversion *)

Record FeetInches := mkFeetInches { feet : Qc; inches : Qc; cm : Qc }.

Definition toFeetInches (c : Qc) : FeetInches :=
  let totalInches := c / Q2Qc 2.54 in
  mkFeetInches (JS.floor (totalInches / Q2Qc 12))
               (JS.round (JS.rem totalInches (Q2Qc 12) * Q2Qc 10)
                / Q2Qc 10)
               (JS.round (c * Q2Qc 10) / Q2Qc 10).

(** ** The hook *)

(** Outcome of the platform's permission prompts. *)
Inductive PermissionOutcome :=
| Granted
| MotionDenied
| OrientationDenied
| RequestFailed.

Definition requestSensorPermission (o : PermissionOutcome) (s : Engine)
  : Engine :=
  match o with
  | Granted =>
      mkEngine (refs s) (measurementState s) None true (window s)
  | MotionDenied =>
      mkEngine (refs s) (measurementState s)
               (Some "Motion sensor permission denied"%string)
               (permissionGranted s) (window s)
  | OrientationDenied =>
      mkEngine (refs s) (measurementState s)
               (Some "Orientation sensor permission denied"%string)
               (permissionGranted s) (window s)
  | RequestFailed =>
      mkEngine (refs s) (measurementState s)
               (Some "Failed to request sensor permissions"%string)
               (permissionGranted s) (window s)
  end.

Section Engine.

(** [Math.sqrt]. *)
Variable sqrt : Qc -> Qc.

Definition vecLen (a : Vec3) : Qc :=
  sqrt (vx a * vx a + vy a * vy a + vz a * vz a).

(** [vecLen(a) || 1] guards the division. *)
Definition vecNorm (a : Vec3) : Vec3 :=
  let l := if JS.truthy (vecLen a) then vecLen a else 1 in
  mkVec3 (vx a / l) (vy a / l) (vz a / l).

(** LPF coefficient for gravity. *)
Definition lpf : Qc := Q2Qc 0.01.

(** *** The values [onMotion] computes for one event

    Each definition is one [const] (or [let]) of the closure, as a function
    of the event [e], the reading [tsNow] of [performance.now()] and the
    cells [r] as they are when the listener is entered. *)

(** [dt] before clamping: the reported interval when it is a positive
    number, else the wall-clock delta, else 20 ms on the first event. *)
Definition rawDt (tsNow : Qc) (e : DeviceMotionEvent) (r : Refs) : Qc :=
  let wall :=
    if JS.truthy (lastTimestampRef r)
    then (tsNow - lastTimestampRef r) / Q2Qc 1000
    else Q2Qc 0.02 in
  match interval e with
  | Some i => if JS.gtb i 0 then i / Q2Qc 1000 else wall
  | None => wall
  end.

(** [dt = Math.max(0.005, Math.min(0.05, dt))]. *)
Definition clampDt (dt : Qc) : Qc :=
  JS.max (Q2Qc 0.005) (JS.min (Q2Qc 0.05) dt).

Definition sampleDt (tsNow : Qc) (e : DeviceMotionEvent) (r : Refs) : Qc :=
  clampDt (rawDt tsNow e r).

Definition rotMag (e : DeviceMotionEvent) : Qc :=
  match rotationRate e with
  | Some rr =>
      sqrt (JS.nullish (alpha rr) 0 ^ 2 + JS.nullish (beta rr) 0 ^ 2
            + JS.nullish (gamma rr) 0 ^ 2)
  | None => 0
  end.

Definition gCandidate (gPrev gMeas : Vec3) : Vec3 :=
  vecAdd (vecScale gPrev (1 - lpf)) (vecScale gMeas lpf).

Definition aLinMagCandidate (gPrev gMeas : Vec3) : Qc :=
  vecLen (vecSub gMeas (gCandidate gPrev gMeas)).

Definition allowGUpdate (e : DeviceMotionEvent) (gPrev gMeas : Vec3) : bool :=
  JS.ltb (aLinMagCandidate gPrev gMeas) (Q2Qc 0.2)
  && JS.ltb (rotMag e) (Q2Qc 3).

Definition gNew (e : DeviceMotionEvent) (gPrev gMeas : Vec3) : Vec3 :=
  if allowGUpdate e gPrev gMeas then gCandidate gPrev gMeas else gPrev.

(** Vertical acceleration (upwards, m/s^2) against gravity [g]. *)
Definition aVert (g gMeas : Vec3) : Qc :=
  let aLin := vecSub gMeas g in
  let up := vecNorm (mkVec3 (- vx g) (- vy g) (- vz g)) in
  vecDot aLin up.

Definition aLinMag (g gMeas : Vec3) : Qc := vecLen (vecSub gMeas g).

Definition stationary (e : DeviceMotionEvent) (g gMeas : Vec3) : bool :=
  JS.ltb (JS.abs (aVert g gMeas)) (Q2Qc 0.03) && JS.ltb (rotMag e) (Q2Qc 0.7)
  && JS.ltb (aLinMag g gMeas) (Q2Qc 0.06).

(** Confidence heuristic on the reported height, in binary64 as the
    source evaluates it; [cmRounded] is a whole number of tenths. *)
Definition confBase (cmRounded : Qc) : PrimFloat.float :=
  Double.min (Double.ofZ 95)
    (Double.add (Double.ofZ 60)
       (Double.min (Double.ofZ 35)
          (Double.mul (Double.div (Double.ofQc cmRounded) (Double.ofZ 200))
                      (Double.ofZ 35)))).

Definition conf (isStationary : bool) (cmRounded : Qc) : PrimFloat.float :=
  if isStationary
  then Double.min (Double.ofQ 99.5) (Double.add (confBase cmRounded)
                                                (Double.ofZ 3))
  else confBase cmRounded.

(** *** The [devicemotion] listener of a measurement *)

Definition onMotion (tsNow : Qc) (e : DeviceMotionEvent) (s : Engine)
  : Engine :=
  let r := refs s in
  let ms := measurementState s in
  let dt0 := rawDt tsNow e r in
  match accelerationIncludingGravity e with
  | None =>
      (* lastTimestampRef is already written when [!ag] returns *)
      mkEngine
        (mkRefs (gravityRef r) tsNow (velocityRef r) (displacementRef r)
                (peakDisplacementRef r) (stationarySamplesRef r)
                (totalSamplesRef r) (hasCalibratedRef r))
        ms (error s) (permissionGranted s) (window s)
  | Some ag =>
      let dt := clampDt dt0 in
      let gPrev := gravityRef r in
      let gMeas := accelVec ag in
      let g := gNew e gPrev gMeas in
      let aV := aVert g gMeas in
      let aVertCm := aV * Q2Qc 100 in
      let still := stationary e g gMeas in
      let stationarySamples :=
        if still then S (stationarySamplesRef r) else 0%nat in
      (* integrate velocity *)
      let v1 := velocityRef r + aVertCm * dt in
      (* very light damping only when moving *)
      let v2 := if negb still then v1 * Q2Qc 0.9995 else v1 in
      (* zero velocity update *)
      let v3 :=
        if JS.geb (JS.ofNat stationarySamples * dt) (Q2Qc 0.5)
        then 0 else v2 in
      (* only integrate upwards movement and track the peak *)
      let vUp := JS.max 0 v3 in
      let d1 := displacementRef r + vUp * dt in
      let d2 := if JS.ltb d1 0 then 0 else d1 in
      let p1 := JS.max (peakDisplacementRef r) d2 in
      (* clamp to realistic human range *)
      let d3 := if JS.gtb d2 (Q2Qc 300) then Q2Qc 300 else d2 in
      let p2 := if JS.gtb p1 (Q2Qc 300) then Q2Qc 300 else p1 in
      let fi := toFeetInches (JS.round (p2 * Q2Qc 10) / Q2Qc 10) in
      let c := conf still (cm fi) in
      mkEngine
        (mkRefs g tsNow v3 d3 p2 stationarySamples
                (S (totalSamplesRef r)) (hasCalibratedRef r))
        (mkMeasurementState (isCalibrating ms) (isMeasuring ms)
                            (isComplete ms) (cm fi) (feet fi) (inches fi)
                            (Double.round1 c)
                            (DebugSample aV v3 dt))
        (error s) (permissionGranted s) (window s)
  end.

(** One [devicemotion] event reaches every registered [onMotion] closure;
    they all read the same cells. *)
Definition devicemotion (tsNow : Qc) (e : DeviceMotionEvent) (s : Engine)
  : Engine :=
  Nat.iter (motionListeners (window s)) (onMotion tsNow e) s.

(** A stream of events, each with the clock reading at its delivery,
    handled by one [onMotion] listener. *)
Definition processAll (es : list (Qc * DeviceMotionEvent)) (s : Engine)
  : Engine :=
  fold_left (fun st te => onMotion (fst te) (snd te) st) es s.

(** *** startMeasurement, stopMeasurement, resetMeasurement *)

Definition startMeasurement (s : Engine) : Engine :=
  let r := refs s in
  let ms := measurementState s in
  let w := window s in
  if negb (hasCalibratedRef r) then
    mkEngine r ms (Some "Please calibrate first"%string)
             (permissionGranted s) w
  else
    mkEngine
      (mkRefs (gravityRef r) 0 0 0 0 0%nat 0%nat (hasCalibratedRef r))
      (mkMeasurementState (isCalibrating ms) true false 0 0 0 0
                          DebugMeasuring)
      None (permissionGranted s)
      (mkWindow (S (motionListeners w)) (S (orientationListeners w))
                true true).

(** Removing the listeners that [window._imu_onMotion] and
    [window._imu_onOrientation] point to. *)
Definition detachListeners (w : Window) : Window :=
  mkWindow
    (if imu_onMotion w then Nat.pred (motionListeners w)
     else motionListeners w)
    (if imu_onOrientation w then Nat.pred (orientationListeners w)
     else orientationListeners w)
    false false.

Definition stopMeasurement (s : Engine) : Engine :=
  let ms := measurementState s in
  mkEngine (refs s)
    (mkMeasurementState (isCalibrating ms) false true (heightCm ms)
                        (heightFt ms) (heightInches ms) (confidence ms)
                        (DebugFinal (heightCm ms) (heightFt ms)
                                    (heightInches ms)))
    (error s) (permissionGranted s) (detachListeners (window s)).

Definition resetMeasurement (s : Engine) : Engine :=
  mkEngine
    (mkRefs defaultGravity 0 0 0 0 0%nat 0%nat false)
    initialMeasurementState None (permissionGranted s)
    (detachListeners (window s)).

(** *** calibrate *)

(** The listener of the calibration window. *)
Definition handler (e : DeviceMotionEvent) (samples : list Vec3)
  : list Vec3 :=
  match accelerationIncludingGravity e with
  | None => samples
  | Some ag => samples ++ [accelVec ag]
  end.

(** [samples.reduce((acc, s) => vecAdd(acc, s), {x: 0, y: 0, z: 0})]. *)
Definition sumSamples (samples : list Vec3) : Vec3 :=
  fold_left vecAdd samples (mkVec3 0 0 0).

Definition averageGravity (samples : list Vec3) : Vec3 :=
  vecScale (sumSamples samples)
           (1 / JS.ofNat (List.length samples)).

(** What [calibrate] does once the 1.5 s window has closed with [samples]
    collected. *)
Definition finishCalibration (samples : list Vec3) (s : Engine) : Engine :=
  let r := refs s in
  let ms := measurementState s in
  match samples with
  | [] =>
      mkEngine r
        (mkMeasurementState false (isMeasuring ms) (isComplete ms)
                            (heightCm ms) (heightFt ms) (heightInches ms)
                            (confidence ms) (debugInfo ms))
        (Some "No sensor data during calibration"%string)
        (permissionGranted s) (window s)
  | _ :: _ =>
      let g := averageGravity samples in
      mkEngine
        (mkRefs g (lastTimestampRef r) (velocityRef r) (displacementRef r)
                (peakDisplacementRef r) (stationarySamplesRef r)
                (totalSamplesRef r) true)
        (mkMeasurementState false false false 0 0 0 0
                            (DebugCalibrated (vecLen g)))
        (error s) (permissionGranted s) (window s)
  end.

(** What [calibrate] does before it waits. *)
Definition beginCalibration (s : Engine) : Engine :=
  let ms := measurementState s in
  mkEngine (refs s)
    (mkMeasurementState true (isMeasuring ms) (isComplete ms) (heightCm ms)
                        (heightFt ms) (heightInches ms) (confidence ms)
                        DebugCalibrating)
    None (permissionGranted s) (window s).

(** Events of the window: each one is seen by the measurement listeners
    registered earlier, then by [handler]. *)
Definition collectWindow (es : list (Qc * DeviceMotionEvent)) (s : Engine)
  : Engine * list Vec3 :=
  fold_left
    (fun acc te =>
       (devicemotion (fst te) (snd te) (fst acc), handler (snd te) (snd acc)))
    es (s, []).

(** [calibrate], with the outcome [o] of the permission prompt it may raise
    and the events [es] that arrive while it waits.  The closure reads the
    [permissionGranted] of the render that created it, so a call made
    without permission requests it and returns. *)
Definition calibrate (o : PermissionOutcome)
  (es : list (Qc * DeviceMotionEvent)) (s : Engine) : Engine :=
  if negb (permissionGranted s) then requestSensorPermission o s
  else
    let '(s', samples) := collectWindow es (beginCalibration s) in
    finishCalibration samples s'.

End Engine.

(** ** The other hooks of the repository

    The repository holds further versions of the measurement hook.  They
    share the vector helpers, [toFeetInches], the calibration and the
    session callbacks with the hook above and differ in what their
    listener does with an event.  Each is modelled from its source file
    with the cells it declares. *)

Module JSMore.

(** [a <= b] on numbers. *)
Definition leb (a b : Qc) : bool := Qle_bool a b.

(** [a || d] on a number that may be missing: zero is falsy too. *)
Definition orElse (a : option Qc) (d : Qc) : Qc :=
  match a with
  | Some v => if JS.truthy v then v else d
  | None => d
  end.

End JSMore.

(** The displayed state of a hook whose [debugInfo] strings have the shapes
    [D]. *)
Record Display (D : Type) := mkDisplay {
  dIsCalibrating : bool;
  dIsMeasuring : bool;
  dIsComplete : bool;
  dHeightCm : Qc;
  dHeightFt : Qc;
  dHeightInches : Qc;
  dConfidence : Qc;
  dDebugInfo : D
}.

Arguments mkDisplay {D}.
Arguments dIsCalibrating {D}.
Arguments dIsMeasuring {D}.
Arguments dIsComplete {D}.
Arguments dHeightCm {D}.
Arguments dHeightFt {D}.
Arguments dHeightInches {D}.
Arguments dConfidence {D}.
Arguments dDebugInfo {D}.

(** *** [hooks/useIMUHeight.ts]: signed displacement, no peak

    The hook the component imports.  Gravity is low-pass filtered on every
    sample, the velocity is damped on every sample and the signed velocity
    is integrated. *)

Module Plain.

Inductive DebugInfo :=
| DebugEmpty
| DebugCalibrating
| DebugCalibrated (gLen : Qc)
| DebugMeasuring
| DebugSample (aVert v : Qc)
| DebugFinal (cm ft inches : Qc).

Record Refs := mkRefs {
  gravityRef : Vec3;
  lastTimestampRef : Qc;
  velocityRef : Qc;
  displacementRef : Qc;
  stationarySamplesRef : nat;
  totalSamplesRef : nat;
  hasCalibratedRef : bool
}.

Record Engine := mkEngine {
  refs : Refs;
  measurementState : Display DebugInfo;
  error : option string;
  permissionGranted : bool;
  window : Window
}.

(** LPF coefficient for gravity. *)
Definition lpf : Qc := Q2Qc 0.02.

Definition startMeasurement (s : Engine) : Engine :=
  let r := refs s in
  let ms := measurementState s in
  let w := window s in
  if negb (hasCalibratedRef r) then
    mkEngine r ms (Some "Please calibrate first"%string)
             (permissionGranted s) w
  else
    mkEngine
      (mkRefs (gravityRef r) 0 0 0 0%nat 0%nat (hasCalibratedRef r))
      (mkDisplay (dIsCalibrating ms) true false 0 0 0 0 DebugMeasuring)
      None (permissionGranted s)
      (mkWindow (S (motionListeners w)) (S (orientationListeners w))
                true true).

Section Listener.

(** [Math.sqrt]. *)
Variable sqrt : Qc -> Qc.

(** [dt]: the wall-clock delta, or on the first event the reported
    interval (taken as it is) or 0.02. *)
Definition sampleDt (tsNow : Qc) (e : DeviceMotionEvent) (r : Refs) : Qc :=
  if JS.truthy (lastTimestampRef r)
  then (tsNow - lastTimestampRef r) / Q2Qc 1000
  else JSMore.orElse (interval e) (Q2Qc 0.02).

(** [dt <= 0 || dt > 0.2]: drop weird intervals. *)
Definition weirdDt (dt : Qc) : bool :=
  JSMore.leb dt 0 || JS.gtb dt (Q2Qc 0.2).

Definition gNew (gPrev gMeas : Vec3) : Vec3 :=
  vecAdd (vecScale gPrev (1 - lpf)) (vecScale gMeas lpf).

Definition stationary (e : DeviceMotionEvent) (g gMeas : Vec3) : bool :=
  JS.ltb (JS.abs (aVert sqrt g gMeas)) (Q2Qc 0.05)
  && JS.ltb (rotMag sqrt e) 1
  && JS.ltb (aLinMag sqrt g gMeas) (Q2Qc 0.08).

(** The event leaves its clock reading and nothing else. *)
Definition stamp (tsNow : Qc) (s : Engine) : Engine :=
  let r := refs s in
  mkEngine
    (mkRefs (gravityRef r) tsNow (velocityRef r) (displacementRef r)
            (stationarySamplesRef r) (totalSamplesRef r)
            (hasCalibratedRef r))
    (measurementState s) (error s) (permissionGranted s) (window s).

Definition onMotion (tsNow : Qc) (e : DeviceMotionEvent) (s : Engine)
  : Engine :=
  let r := refs s in
  let ms := measurementState s in
  let dt := sampleDt tsNow e r in
  match accelerationIncludingGravity e with
  | None => stamp tsNow s
  | Some ag =>
      if weirdDt dt then stamp tsNow s
      else
        (* update gravity estimate via LPF *)
        let gPrev := gravityRef r in
        let gMeas := accelVec ag in
        let g := gNew gPrev gMeas in
        let aV := aVert sqrt g gMeas in
        let aVertCm := aV * Q2Qc 100 in
        let still := stationary e g gMeas in
        let stationarySamples :=
          if still then S (stationarySamplesRef r) else 0%nat in
        (* integrate velocity, damp it *)
        let v1 := velocityRef r + aVertCm * dt in
        let v2 := v1 * Q2Qc 0.995 in
        (* zero velocity update if stationary for ~200ms *)
        let v3 :=
          if JS.geb (JS.ofNat stationarySamples * dt) (Q2Qc 0.2)
          then 0 else v2 in
        let d1 := displacementRef r + v3 * dt in
        (* clamp to realistic human range *)
        let d2 := if JS.ltb d1 0 then 0 else d1 in
        let d3 := if JS.gtb d2 (Q2Qc 300) then Q2Qc 300 else d2 in
        let fi := toFeetInches (JS.round (d3 * Q2Qc 10) / Q2Qc 10) in
        let c := conf still (cm fi) in
        mkEngine
          (mkRefs g tsNow v3 d3 stationarySamples
                  (S (totalSamplesRef r)) (hasCalibratedRef r))
          (mkDisplay (dIsCalibrating ms) (dIsMeasuring ms) (dIsComplete ms)
                     (cm fi) (feet fi) (inches fi)
                     (Double.round1 c)
                     (DebugSample aV v3))
          (error s) (permissionGranted s) (window s)
  end.

Definition processAll (es : list (Qc * DeviceMotionEvent)) (s : Engine)
  : Engine :=
  fold_left (fun st te => onMotion (fst te) (snd te) st) es s.

End Listener.

End Plain.

(** *** [useIMUHeight], conservative version: upward segments only

    Gravity stays as calibrated while measuring; the velocity is kept in
    [[0, 80]] cm/s and the height grows only while the device has been
    moving up for more than 0.1 s. *)

Module Conservative.

(** The label at the end of the [debugInfo] of a sample. *)
Inductive MotionLabel := STILL | UP | OTHER.

Inductive DebugInfo :=
| DebugEmpty
| DebugCalibrating
| DebugCalibrated (gLen : Qc)
| DebugMeasuring
| DebugSample (aVert v : Qc) (label : MotionLabel)
| DebugFinal (cm ft inches : Qc).

Record Refs := mkRefs {
  gravityRef : Vec3;
  lastTimestampRef : Qc;
  totalHeightRef : Qc;
  velocityRef : Qc;
  stationaryTimeRef : PrimFloat.float;
  movingUpTimeRef : PrimFloat.float;
  hasCalibratedRef : bool
}.

Record Engine := mkEngine {
  refs : Refs;
  measurementState : Display DebugInfo;
  error : option string;
  permissionGranted : bool;
  window : Window
}.

Definition startMeasurement (s : Engine) : Engine :=
  let r := refs s in
  let ms := measurementState s in
  let w := window s in
  if negb (hasCalibratedRef r) then
    mkEngine r ms (Some "Please calibrate first"%string)
             (permissionGranted s) w
  else
    mkEngine
      (mkRefs (gravityRef r) 0 0 0 (Double.ofZ 0) (Double.ofZ 0)
              (hasCalibratedRef r))
      (mkDisplay (dIsCalibrating ms) true false 0 0 0 0 DebugMeasuring)
      None (permissionGranted s)
      (mkWindow (S (motionListeners w)) (S (orientationListeners w))
                true true).

Section Listener.

(** [Math.sqrt]. *)
Variable sqrt : Qc -> Qc.

(** [dt]: the wall-clock delta capped at 50 ms, or 20 ms on the first
    event. *)
Definition sampleDt (tsNow : Qc) (r : Refs) : Qc :=
  if JS.truthy (lastTimestampRef r)
  then JS.min (Q2Qc 0.05) ((tsNow - lastTimestampRef r) / Q2Qc 1000)
  else Q2Qc 0.02.

Definition isStationary (g gMeas : Vec3) : bool :=
  JS.ltb (JS.abs (aVert sqrt g gMeas)) (Q2Qc 0.02)
  && JS.ltb (vecLen sqrt (vecSub gMeas g)) (Q2Qc 0.05).

Definition isMovingUp (g gMeas : Vec3) : bool :=
  JS.gtb (aVert sqrt g gMeas) (Q2Qc 0.05).

(** The event leaves its clock reading and nothing else. *)
Definition stamp (tsNow : Qc) (s : Engine) : Engine :=
  let r := refs s in
  mkEngine
    (mkRefs (gravityRef r) tsNow (totalHeightRef r) (velocityRef r)
            (stationaryTimeRef r) (movingUpTimeRef r) (hasCalibratedRef r))
    (measurementState s) (error s) (permissionGranted s) (window s).

Definition onMotion (tsNow : Qc) (e : DeviceMotionEvent) (s : Engine)
  : Engine :=
  let r := refs s in
  let ms := measurementState s in
  let dt := sampleDt tsNow r in
  match accelerationIncludingGravity e with
  | None => stamp tsNow s
  | Some ag =>
      if JSMore.leb dt 0 then stamp tsNow s
      else
        let gMeas := accelVec ag in
        let gravity := gravityRef r in
        let aV := aVert sqrt gravity gMeas in
        let aVertCm := aV * Q2Qc 100 in
        (* very conservative motion detection *)
        let still := isStationary gravity gMeas in
        let up := isMovingUp gravity gMeas in
        (* the two time accumulators are binary64, and [dt] enters them
           as the double it is: whether they exceed 0.3 s and 0.1 s
           depends on how their sums are rounded *)
        let dtDouble := Double.ofQc dt in
        let '(stationaryTime, movingUpTime, velocity) :=
          if still then
            let st := Double.add (stationaryTimeRef r) dtDouble in
            (* aggressive velocity reset when stationary *)
            (st, Double.ofZ 0,
             if Double.gtb st (Double.ofQ 0.3) then 0 else velocityRef r)
          else if up then
            (* only integrate when clearly moving up, max 80 cm/s *)
            (Double.ofZ 0, Double.add (movingUpTimeRef r) dtDouble,
             JS.max 0 (JS.min (Q2Qc 80) (velocityRef r + aVertCm * dt)))
          else
            (* strong damping when not clearly moving up *)
            (Double.ofZ 0, Double.ofZ 0, velocityRef r * Q2Qc 0.9) in
        (* integrate only when velocity is positive and reasonable *)
        let h1 :=
          if JS.gtb velocity 1
             && Double.gtb movingUpTime (Double.ofQ 0.1)
          then totalHeightRef r + velocity * dt
          else totalHeightRef r in
        (* clamp to reasonable range *)
        let h2 := JS.max 0 (JS.min (Q2Qc 250) h1) in
        let cm0 := JS.round (h2 * Q2Qc 10) / Q2Qc 10 in
        let fi := toFeetInches cm0 in
        (* simple confidence based on stability *)
        let c := if still && JS.gtb cm0 (Q2Qc 10)
                 then Q2Qc 95 else Q2Qc 75 in
        mkEngine
          (mkRefs gravity tsNow h2 velocity stationaryTime movingUpTime
                  (hasCalibratedRef r))
          (mkDisplay (dIsCalibrating ms) (dIsMeasuring ms) (dIsComplete ms)
                     (cm fi) (feet fi) (inches fi) c
                     (DebugSample aV velocity
                        (if still then STILL else if up then UP else OTHER)))
          (error s) (permissionGranted s) (window s)
  end.

Definition processAll (es : list (Qc * DeviceMotionEvent)) (s : Engine)
  : Engine :=
  fold_left (fun st te => onMotion (fst te) (snd te) st) es s.

End Listener.

End Conservative.

(** *** [useSensorMeasurement], orientation version: height from pitch

    The hook reads [deviceorientation] events and turns the change of the
    pitch angle since calibration into a height. *)

Module Orientation.

(** A [deviceorientation] event; each angle may be null. *)
Record OrientationEvent := mkOrientationEvent {
  alpha : option Qc;
  beta : option Qc;
  gamma : option Qc
}.

Record Angles := mkAngles { aAlpha : Qc; aBeta : Qc; aGamma : Qc }.

Record Sample := mkSample { angles : Angles; timestamp : Qc }.

Inductive DebugInfo :=
| DebugEmpty
| DebugCalibrating
| DebugCalibrated (startBeta : Qc)
| DebugMeasuring
| DebugSample (angleDiff measurementDuration : Qc)
| DebugFinal (cm ft inches : Qc).

(** The listeners on [window]: how many measurement closures are
    registered and whether [_measurementListener] points to one. *)
Record Listeners := mkListeners {
  registered : nat;
  measurementListener : bool
}.

Record Engine := mkEngine {
  startOrientationRef : option Angles;
  endOrientationRef : option Angles;
  measurementStartRef : Qc;
  orientationSamplesRef : list Sample;
  measurementState : Display DebugInfo;
  error : option string;
  permissionGranted : bool;
  listeners : Listeners
}.

(** [startMeasurement], called when [Date.now()] reads [now]. *)
Definition startMeasurement (now : Qc) (s : Engine) : Engine :=
  let ms := measurementState s in
  match startOrientationRef s with
  | None =>
      mkEngine None (endOrientationRef s) (measurementStartRef s)
               (orientationSamplesRef s) ms
               (Some "Please calibrate first"%string)
               (permissionGranted s) (listeners s)
  | Some start =>
      mkEngine (Some start) None now []
        (mkDisplay (dIsCalibrating ms) true false 0 0 0 (dConfidence ms)
                   DebugMeasuring)
        None (permissionGranted s)
        (mkListeners (S (registered (listeners s))) true)
  end.

Section Listener.

(** [Math.tan] and [Math.PI]. *)
Variable tan : Qc -> Qc.
Variable PI : Qc.

(** The pitch change since calibration, normalised for wrap-around. *)
Definition angleDiff (startBeta currentBeta : Qc) : Qc :=
  let d0 := currentBeta - startBeta in
  let d1 := if JS.gtb d0 (Q2Qc 180) then d0 - Q2Qc 360 else d0 in
  if JS.ltb d1 (- Q2Qc 180) then d1 + Q2Qc 360 else d1.

(** Assumed distance of the phone from eye level, in cm. *)
Definition armLength : Qc := Q2Qc 60.

Definition heightOf (diff : Qc) : Qc :=
  let angleRadians := JS.abs diff * (PI / Q2Qc 180) in
  if JS.gtb (JS.abs diff) (Q2Qc 5)
  then armLength * tan angleRadians * Q2Qc 2.5
  else 0.

Definition confidenceOf (diff : Qc) : Qc :=
  JS.min (Q2Qc 85 + JS.abs diff * Q2Qc 0.5) (Q2Qc 99.5).

(** The [deviceorientation] listener of a measurement, entered when
    [Date.now()] reads [now]. *)
Definition handleMeasurementOrientation (now : Qc) (e : OrientationEvent)
  (s : Engine) : Engine :=
  match startOrientationRef s, beta e, alpha e, gamma e with
  | Some start, Some b, Some a, Some g =>
      let ms := measurementState s in
      let diff := angleDiff (aBeta start) b in
      let measurementDuration :=
        (now - measurementStartRef s) / Q2Qc 1000 in
      let fi := toFeetInches (heightOf diff) in
      mkEngine (Some start) (endOrientationRef s) (measurementStartRef s)
        (orientationSamplesRef s ++ [mkSample (mkAngles a b g) now])
        (mkDisplay (dIsCalibrating ms) (dIsMeasuring ms) (dIsComplete ms)
                   (cm fi) (feet fi) (inches fi)
                   (JS.round (confidenceOf diff * Q2Qc 10) / Q2Qc 10)
                   (DebugSample diff measurementDuration))
        (error s) (permissionGranted s) (listeners s)
  | _, _, _, _ => s
  end.

(** A stream of invocations of one listener, each with the event and the
    clock reading. *)
Definition processAll (es : list (Qc * OrientationEvent)) (s : Engine)
  : Engine :=
  fold_left (fun st te => handleMeasurementOrientation (fst te) (snd te) st)
            es s.

(** One [deviceorientation] event reaches every registered measurement
    closure, in the order of registration; [clock i] is what [Date.now()]
    reads in the [i]-th of them.  The closures share the cells. *)
Definition deviceorientation (clock : nat -> Qc) (e : OrientationEvent)
  (s : Engine) : Engine :=
  fold_left (fun st i => handleMeasurementOrientation (clock i) e st)
            (seq 0 (registered (listeners s))) s.

(** A stream of events delivered to the hook. *)
Definition deliverAll (es : list ((nat -> Qc) * OrientationEvent))
  (s : Engine) : Engine :=
  fold_left (fun st ce => deviceorientation (fst ce) (snd ce) st) es s.

End Listener.

(** The sample that a complete event leaves, if it is complete. *)
Definition sampleOf (te : Qc * OrientationEvent) : option Sample :=
  match beta (snd te), alpha (snd te), gamma (snd te) with
  | Some b, Some a, Some g => Some (mkSample (mkAngles a b g) (fst te))
  | _, _, _ => None
  end.

End Orientation.

(** *** [hooks/useSensorMeasurement.ts]: double integration of the
    filtered vertical acceleration *)

Module Accelerometer.

(** The part of a [devicemotion] event the hook reads: [acceleration]
    (without gravity), each component possibly null, and [timeStamp]. *)
Record MotionEvent := mkMotionEvent {
  acceleration : option Acceleration;
  timeStamp : Qc
}.

(** The displayed state of this hook has neither inches nor debug text. *)
Record MeasurementState := mkMeasurementState {
  isCalibrating : bool;
  isMeasuring : bool;
  isComplete : bool;
  heightCm : Qc;
  heightFt : Qc;
  confidence : Qc
}.

(** The cells and the displayed state, as one closure
    [handleMeasurementMotion] sees them: together with its own two
    variables [lastTimestamp] and [filteredAcceleration].
    [sensorDataRef], which is only ever emptied, is left out. *)
Record Engine := mkEngine {
  calibrationDataRef : option Vec3;
  startPositionRef : option Vec3;
  velocityRef : Vec3;
  positionRef : Vec3;
  lastTimestamp : Qc;
  filteredAcceleration : Vec3;
  measurementState : MeasurementState;
  error : option string
}.

Definition NOISE_THRESHOLD : Qc := Q2Qc 0.1.
Definition VERTICAL_THRESHOLD : Qc := Q2Qc 0.8.
Definition FILTER_ALPHA : Qc := Q2Qc 0.8.

(** Low-pass filter for noise reduction. *)
Definition applyLowPassFilter (current previous alpha : Qc) : Qc :=
  alpha * current + (1 - alpha) * previous.

(** [x || 0] on a nullable number. *)
Definition orZero (a : option Qc) : Qc := JSMore.orElse a 0.

(** The two variables of a [handleMeasurementMotion] closure. *)
Record Closure := mkClosure {
  closureLastTimestamp : Qc;
  closureFilteredAcceleration : Vec3
}.

Definition closureOf (s : Engine) : Closure :=
  mkClosure (lastTimestamp s) (filteredAcceleration s).

(** The cells of [s] seen from the closure [c]. *)
Definition enter (c : Closure) (s : Engine) : Engine :=
  mkEngine (calibrationDataRef s) (startPositionRef s) (velocityRef s)
           (positionRef s) (closureLastTimestamp c)
           (closureFilteredAcceleration c) (measurementState s) (error s).

(** The hook with what it has on [window].  [frame] holds the cells and
    the variables of the closure that the last [startMeasurement] created;
    [measurementListener] tells whether [window._measurementListener] is
    set, which is when that closure is registered; [leaked] are the
    closures of earlier starts that were never removed, in the order of
    their registration. *)
Record Hook := mkHook {
  frame : Engine;
  measurementListener : bool;
  leaked : list Closure
}.

(** Every call creates a closure with variables of its own and registers
    it; the closure that [window._measurementListener] pointed to stays
    registered. *)
Definition startMeasurement (h : Hook) : Hook :=
  let s := frame h in
  let ms := measurementState s in
  match calibrationDataRef s with
  | None =>
      mkHook
        (mkEngine None (startPositionRef s) (velocityRef s) (positionRef s)
                  (lastTimestamp s) (filteredAcceleration s) ms
                  (Some "Please calibrate first"%string))
        (measurementListener h) (leaked h)
  | Some c =>
      mkHook
        (mkEngine (Some c) None (mkVec3 0 0 0) (mkVec3 0 0 0) 0
           (mkVec3 0 0 0)
           (mkMeasurementState (isCalibrating ms) true false 0 0
                               (confidence ms))
           None)
        true
        (leaked h ++ if measurementListener h then [closureOf s] else [])
  end.

Definition stopMeasurement (h : Hook) : Hook :=
  let s := frame h in
  let ms := measurementState s in
  mkHook
    (mkEngine (calibrationDataRef s) (startPositionRef s) (velocityRef s)
              (positionRef s) (lastTimestamp s) (filteredAcceleration s)
              (mkMeasurementState (isCalibrating ms) false true
                                  (heightCm ms) (heightFt ms)
                                  (confidence ms))
              (error s))
    false (leaked h).

Definition resetMeasurement (h : Hook) : Hook :=
  let s := frame h in
  mkHook
    (mkEngine None None (mkVec3 0 0 0) (mkVec3 0 0 0) (lastTimestamp s)
              (filteredAcceleration s)
              (mkMeasurementState false false false 0 0 0) None)
    false (leaked h).

Section Listener.

(** [Math.sqrt]. *)
Variable sqrt : Qc -> Qc.

(** [Date.now()] stands in for a zero [timeStamp]. *)
Definition currentTime (now : Qc) (e : MotionEvent) : Qc :=
  if JS.truthy (timeStamp e) then timeStamp e else now.

Definition deltaTime (now : Qc) (e : MotionEvent) (s : Engine) : Qc :=
  if JS.truthy (lastTimestamp s)
  then (currentTime now e - lastTimestamp s) / Q2Qc 1000
  else 0.

(** The event only leaves its time in the closure. *)
Definition stamp (t : Qc) (s : Engine) : Engine :=
  mkEngine (calibrationDataRef s) (startPositionRef s) (velocityRef s)
           (positionRef s) t (filteredAcceleration s) (measurementState s)
           (error s).

Definition handleMeasurementMotion (now : Qc) (e : MotionEvent) (s : Engine)
  : Engine :=
  match acceleration e, calibrationDataRef s with
  | Some acc, Some cal =>
      let t := currentTime now e in
      let dt := deltaTime now e s in
      if JSMore.leb dt 0 || JS.gtb dt (Q2Qc 0.1) then stamp t s
      else
        (* remove gravity and calibration offset *)
        let corrected :=
          mkVec3 (orZero (ax acc) - vx cal) (orZero (ay acc) - vy cal)
                 (orZero (az acc) - vz cal) in
        (* low-pass filter to reduce noise *)
        let prev := filteredAcceleration s in
        let f :=
          mkVec3 (applyLowPassFilter (vx corrected) (vx prev) FILTER_ALPHA)
                 (applyLowPassFilter (vy corrected) (vy prev) FILTER_ALPHA)
                 (applyLowPassFilter (vz corrected) (vz prev) FILTER_ALPHA)
        in
        let totalMagnitude := sqrt (vx f ^ 2 + vy f ^ 2 + vz f ^ 2) in
        (* the filter output and the time are kept in any case *)
        let quiet :=
          mkEngine (Some cal) (startPositionRef s) (velocityRef s)
                   (positionRef s) t f (measurementState s) (error s) in
        (* only process significant vertical movements *)
        if JS.gtb totalMagnitude NOISE_THRESHOLD then
          let verticalComponent := JS.abs (vz f) in
          let horizontalMagnitude := sqrt (vx f ^ 2 + vy f ^ 2) in
          if JS.gtb (verticalComponent
                     / (verticalComponent + horizontalMagnitude))
                    VERTICAL_THRESHOLD
          then
            (* integrate the vertical component only *)
            let v := velocityRef s in
            let v' := mkVec3 (vx v) (vy v) (vz v + vz f * dt) in
            let p := positionRef s in
            let p' := mkVec3 (vx p) (vy p) (vz p + vz v' * dt) in
            let start :=
              match startPositionRef s with
              | Some sp => sp
              | None => p'
              end in
            let heightMeters := JS.abs (vz p' - vz start) in
            let hCm := heightMeters * Q2Qc 100 in
            let hFt := hCm / Q2Qc 30.48 in
            let c :=
              JS.min (Q2Qc 95
                      + (verticalComponent / totalMagnitude) * Q2Qc 5)
                     (Q2Qc 99.9) in
            let ms := measurementState s in
            mkEngine (Some cal) (Some start) v' p' t f
              (mkMeasurementState
                 (isCalibrating ms) (isMeasuring ms) (isComplete ms)
                 (JS.round (hCm * Q2Qc 10) / Q2Qc 10)
                 (JS.round (hFt * Q2Qc 100) / Q2Qc 100)
                 (JS.round (c * Q2Qc 10) / Q2Qc 10))
              (error s)
          else quiet
        else quiet
  | _, _ => s
  end.

(** A stream of invocations of one closure. *)
Definition processAll (es : list (Qc * MotionEvent)) (s : Engine) : Engine :=
  fold_left (fun st te => handleMeasurementMotion (fst te) (snd te) st) es s.

(** The event handled by a leaked closure [c]: it works on the cells with
    its own variables, which it keeps. *)
Definition handleLeaked (now : Qc) (e : MotionEvent)
  (acc : Engine * list Closure) (c : Closure) : Engine * list Closure :=
  let s := fst acc in
  let s' := handleMeasurementMotion now e (enter c s) in
  (enter (closureOf s) s', snd acc ++ [closureOf s']).

Definition runLeaked (now : Qc) (e : MotionEvent) (cs : list Closure)
  (s : Engine) : Engine * list Closure :=
  fold_left (handleLeaked now e) cs (s, []).

(** One [devicemotion] event reaches every registered closure in the
    order of registration: the leaked ones, then the one of [frame]. *)
Definition devicemotion (now : Qc) (e : MotionEvent) (h : Hook) : Hook :=
  let '(s, cs) := runLeaked now e (leaked h) (frame h) in
  mkHook
    (if measurementListener h then handleMeasurementMotion now e s else s)
    (measurementListener h) cs.

End Listener.

End Accelerometer.

(** ** Notions used to state the properties *)

(** The range invariant of the integrator cells. *)
Definition Invariant (r : Refs) : Prop :=
  0 <= displacementRef r /\ displacementRef r <= Q2Qc 300 /\
  0 <= peakDisplacementRef r /\ peakDisplacementRef r <= Q2Qc 300 /\
  displacementRef r <= peakDisplacementRef r.

(** In range, with the peak equal to the displacement. *)
Definition CellsInRange (s : Engine) : Prop :=
  Invariant (refs s) /\
  peakDisplacementRef (refs s) = displacementRef (refs s).

(** Whether [onMotion], entered with cells [r], classifies the event as
    stationary; an event without acceleration is not classified at all. *)
Definition classifiedStationary (sqrt : Qc -> Qc) (e : DeviceMotionEvent)
  (r : Refs) : bool :=
  match accelerationIncludingGravity e with
  | None => false
  | Some ag =>
      let gMeas := accelVec ag in
      stationary sqrt e (gNew sqrt e (gravityRef r) gMeas) gMeas
  end.

(** Stationary time as the specification words it: every stationary
    sample adds its [dt], every other processed sample resets the sum.
    [acc] is the sum before the stream [es], which is handled from [s]. *)
Fixpoint specStationaryAccum (sqrt : Qc -> Qc) (acc : Qc)
  (es : list (Qc * DeviceMotionEvent)) (s : Engine) : Qc :=
  match es with
  | [] => acc
  | (ts, e) :: es' =>
      let acc' :=
        match accelerationIncludingGravity e with
        | None => acc
        | Some _ =>
            if classifiedStationary sqrt e (refs s)
            then acc + sampleDt ts e (refs s)
            else 0
        end in
      specStationaryAccum sqrt acc' es' (onMotion sqrt ts e s)
  end.

(** A stream of events that [onMotion], started from [s], classifies as
    stationary one after the other, each with the same clamped [dt]. *)
Fixpoint stationarySpan (sqrt : Qc -> Qc) (dt : Qc)
  (es : list (Qc * DeviceMotionEvent)) (s : Engine) : Prop :=
  match es with
  | [] => True
  | (ts, e) :: es' =>
      classifiedStationary sqrt e (refs s) = true /\
      sampleDt ts e (refs s) = dt /\
      stationarySpan sqrt dt es' (onMotion sqrt ts e s)
  end.

(** The confidence formula as the specification words it, on the peak
    displacement itself. *)
Definition specConfidence (peakDisplacement : Qc) (isStationary : bool)
  : Qc :=
  let base :=
    JS.min (Q2Qc 95)
           (Q2Qc 60 + JS.min (Q2Qc 35)
                             ((peakDisplacement / Q2Qc 200) * Q2Qc 35)) in
  if isStationary then JS.min (Q2Qc 99.5) (base + Q2Qc 3) else base.

(** Rounding to one decimal, [Math.round(x * 10) / 10]. *)
Definition round1 (x : Qc) : Qc := JS.round (x * Q2Qc 10) / Q2Qc 10.

(** The heights a display can show, in tenths of a cm: 0 to 3000. *)
Definition displayedTenths : list Z := map Z.of_nat (seq 0 3001).

(** What evaluation settles for the displayed height of [k] tenths: the
    confidence shown, moving and stationary, is the exactly computed
    formula rounded to one decimal, except at 194.0 cm, where binary64
    yields 93.94999999999999 (96.94999999999999 when stationary) and the
    display is one tenth lower; and it lies in the ranges given. *)
Definition confidenceCheck (k : Z) : bool :=
  let h := Q2Qc (inject_Z k) / Q2Qc 10 in
  let moving := Double.round1 (conf false h) in
  let still := Double.round1 (conf true h) in
  (if (k =? 1940)%Z
   then Qc_eq_bool moving (Q2Qc 93.9) && Qc_eq_bool still (Q2Qc 96.9)
        && Qc_eq_bool (round1 (specConfidence h false)) (Q2Qc 94)
        && Qc_eq_bool (round1 (specConfidence h true)) (Q2Qc 97)
   else Qc_eq_bool moving (round1 (specConfidence h false))
        && Qc_eq_bool still (round1 (specConfidence h true)))
  && Qle_bool (Q2Qc 60) moving && Qle_bool moving (Q2Qc 95)
  && Qle_bool (Q2Qc 63) still && Qle_bool still (Q2Qc 98).

(** The arithmetic mean of a list of vectors, component by component. *)
Definition sumOf (f : Vec3 -> Qc) (samples : list Vec3) : Qc :=
  fold_right (fun v acc => f v + acc) 0 samples.

Definition specMean (samples : list Vec3) : Vec3 :=
  let n := JS.ofNat (List.length samples) in
  mkVec3 (sumOf vx samples / n) (sumOf vy samples / n)
         (sumOf vz samples / n).

(** The vectors [handler] collects from the events of a window. *)
Definition collected (es : list (Qc * DeviceMotionEvent)) : list Vec3 :=
  fold_left (fun acc te => handler (snd te) acc) es [].

(** The acceleration vectors that the events of a window carry, read off
    the events in their order of arrival: an event without
    [accelerationIncludingGravity] carries none, and a component that is
    null reads as 0. *)
Definition windowAccelerations (es : list (Qc * DeviceMotionEvent))
  : list Vec3 :=
  flat_map
    (fun te =>
       match accelerationIncludingGravity (snd te) with
       | Some ag =>
           [mkVec3 (match ax ag with Some x => x | None => 0 end)
                   (match ay ag with Some y => y | None => 0 end)
                   (match az ag with Some z => z | None => 0 end)]%list
       | None => []%list
       end)
    es.

(** The states a mounted hook can be in: what its callbacks and the
    delivery of events make of the state after the mount. *)
Inductive Reachable (sqrt : Qc -> Qc) : Engine -> Prop :=
| ReachMount hasDeviceMotion : Reachable sqrt (mount hasDeviceMotion)
| ReachPermission o s :
    Reachable sqrt s -> Reachable sqrt (requestSensorPermission o s)
| ReachCalibrate o es s :
    Reachable sqrt s -> Reachable sqrt (calibrate sqrt o es s)
| ReachStart s : Reachable sqrt s -> Reachable sqrt (startMeasurement s)
| ReachEvent ts e s :
    Reachable sqrt s -> Reachable sqrt (devicemotion sqrt ts e s)
| ReachStop s : Reachable sqrt s -> Reachable sqrt (stopMeasurement s)
| ReachReset s : Reachable sqrt s -> Reachable sqrt (resetMeasurement s).

(** [x] lies between [a] and [b], whichever of the two is the larger. *)
Definition between (a x b : Qc) : Prop :=
  (a <= x /\ x <= b) \/ (b <= x /\ x <= a).

(** A stream of events, each delivered to every registered listener. *)
Definition deliverAll (sqrt : Qc -> Qc) (es : list (Qc * DeviceMotionEvent))
  (s : Engine) : Engine :=
  fold_left (fun st te => devicemotion sqrt (fst te) (snd te) st) es s.

(** Whether an event carries an acceleration. *)
Definition hasAcceleration (e : DeviceMotionEvent) : bool :=
  match accelerationIncludingGravity e with Some _ => true | None => false end.

(** How many events of a stream carry an acceleration. *)
Definition countAccelerations (es : list (Qc * DeviceMotionEvent)) : nat :=
  List.length (filter (fun te => hasAcceleration (snd te)) es).

(** The vector [v] lies in the box spanned by the corners [lo] and [hi]. *)
Definition inBox (lo hi v : Vec3) : Prop :=
  (vx lo <= vx v /\ vx v <= vx hi) /\
  (vy lo <= vy v /\ vy v <= vy hi) /\
  (vz lo <= vz v /\ vz v <= vz hi).

(** Every acceleration that the stream carries lies in the box. *)
Definition measuredInBox (lo hi : Vec3) (es : list (Qc * DeviceMotionEvent))
  : Prop :=
  Forall
    (fun te =>
       forall ag, accelerationIncludingGravity (snd te) = Some ag ->
                  inBox lo hi (accelVec ag))
    es.

(** The displacement cell of the plain hook is in range. *)
Definition plainInRange (r : Plain.Refs) : Prop :=
  0 <= Plain.displacementRef r /\ Plain.displacementRef r <= Q2Qc 300.

(** Whether the plain listener integrates the event: it carries an
    acceleration and its [dt] is not weird. *)
Definition plainIntegrates (tsNow : Qc) (e : DeviceMotionEvent)
  (r : Plain.Refs) : bool :=
  hasAcceleration e && negb (Plain.weirdDt (Plain.sampleDt tsNow e r)).

(** The height and velocity cells of the conservative hook are in range. *)
Definition conservativeInRange (r : Conservative.Refs) : Prop :=
  (0 <= Conservative.totalHeightRef r
   /\ Conservative.totalHeightRef r <= Q2Qc 250) /\
  (0 <= Conservative.velocityRef r
   /\ Conservative.velocityRef r <= Q2Qc 80).

(** Whether the conservative listener, entered with cells [r], handles
    the event and classifies it as stationary. *)
Definition conservativeStill (sqrt : Qc -> Qc) (tsNow : Qc)
  (e : DeviceMotionEvent) (r : Conservative.Refs) : bool :=
  match accelerationIncludingGravity e with
  | None => false
  | Some ag =>
      negb (JSMore.leb (Conservative.sampleDt tsNow r) 0)
      && Conservative.isStationary sqrt (Conservative.gravityRef r)
           (accelVec ag)
  end.

(** A stream that the conservative listener, started from [s], classifies
    as stationary event after event. *)
Fixpoint conservativeRest (sqrt : Qc -> Qc)
  (es : list (Qc * DeviceMotionEvent)) (s : Conservative.Engine) : Prop :=
  match es with
  | [] => True
  | (ts, e) :: es' =>
      conservativeStill sqrt ts e (Conservative.refs s) = true /\
      conservativeRest sqrt es' (Conservative.onMotion sqrt ts e s)
  end.

(** The time deltas of a stream handled from [s], in the order of the
    events. *)
Fixpoint conservativeDeltas (sqrt : Qc -> Qc)
  (es : list (Qc * DeviceMotionEvent)) (s : Conservative.Engine)
  : list Qc :=
  match es with
  | [] => []
  | (ts, e) :: es' =>
      Conservative.sampleDt ts (Conservative.refs s)
      :: conservativeDeltas sqrt es' (Conservative.onMotion sqrt ts e s)
  end.

(** The deltas added up one after the other in binary64, from [start]. *)
Definition accumulated (start : PrimFloat.float) (deltas : list Qc)
  : PrimFloat.float :=
  fold_left (fun acc dt => Double.add acc (Double.ofQc dt)) deltas start.

(** The deltas added up exactly. *)
Definition exactSum (deltas : list Qc) : Qc :=
  fold_right Qcplus 0 deltas.

(** The cells and the displayed state of the accelerometer hook, without
    the variables of a closure. *)
Definition accelerometerCells (s : Accelerometer.Engine) :=
  (Accelerometer.calibrationDataRef s, Accelerometer.startPositionRef s,
   Accelerometer.velocityRef s, Accelerometer.positionRef s,
   Accelerometer.measurementState s, Accelerometer.error s).

(** What a stream of events leaves when [n] closures are registered: for
    every event that has its three angles, one sample per closure with the
    clock reading of that closure; for any other event, nothing. *)
Definition deliveredSamples (n : nat)
  (es : list ((nat -> Qc) * Orientation.OrientationEvent))
  : list Orientation.Sample :=
  flat_map
    (fun ce =>
       match Orientation.beta (snd ce), Orientation.alpha (snd ce),
             Orientation.gamma (snd ce) with
       | Some b, Some a, Some g =>
           map (fun i => Orientation.mkSample (Orientation.mkAngles a b g)
                                              (fst ce i))
               (seq 0 n)
       | _, _, _ => []%list
       end)
    es.

(** The complete events of a stream, as the samples they leave. *)
Definition completeSamples (es : list (Qc * Orientation.OrientationEvent))
  : list Orientation.Sample :=
  flat_map
    (fun te => match Orientation.sampleOf te with
               | Some sm => [sm]%list
               | None => []%list
               end)
    es.

(** ** Concrete sessions *)

(** An event whose acceleration is [(0, 0, z)], without rotation rate, with
    the given reported interval in milliseconds. *)
Definition verticalEvent (z : Q) (intervalMs : option Q)
  : DeviceMotionEvent :=
  mkEvent (Some (mkAcc (Some 0) (Some 0) (Some (Q2Qc z)))) None
          (option_map Q2Qc intervalMs).

(** The device at rest, flat: it measures gravity only. *)
Definition restEvent (intervalMs : option Q) : DeviceMotionEvent :=
  verticalEvent 9.81 intervalMs.

(** The device accelerating upwards at 1 m/s^2. *)
Definition riseEvent (intervalMs : option Q) : DeviceMotionEvent :=
  verticalEvent 8.81 intervalMs.

(** A hook with permission, calibrated on two samples at rest. *)
Definition calibratedEngine : Engine :=
  calibrate Qcsqrt Granted
    [(Q2Qc 100, restEvent (Some 20)); (Q2Qc 120, restEvent (Some 20))]
    (requestSensorPermission Granted initialEngine).

Definition measuringEngine : Engine := startMeasurement calibratedEngine.

(** One sample of upward motion: velocity becomes 2.9985 cm/s. *)
Definition risenEngine : Engine :=
  onMotion Qcsqrt (Q2Qc 2000) (riseEvent (Some 30)) measuringEngine.

(** Eleven samples at rest, 0.51 s in all: nine reported 50 ms apart, then
    two reported 30 ms apart. *)
Definition restStream : list (Qc * DeviceMotionEvent) :=
  map (fun k => (Q2Qc (inject_Z (2000 + 50 * Z.of_nat k)),
                 restEvent (Some 50)))
      (seq 1 9)
  ++ [(Q2Qc 2480, restEvent (Some 30)); (Q2Qc 2510, restEvent (Some 30))].

(** Ten samples at rest, each reported 50 ms after the previous one. *)
Definition steadyRestStream : list (Qc * DeviceMotionEvent) :=
  map (fun k => (Q2Qc (inject_Z (2000 + 50 * Z.of_nat k)),
                 restEvent (Some 50)))
      (seq 1 10).

(** A hundred samples at rest, 20 ms apart. *)
Definition flatStream : list (Qc * DeviceMotionEvent) :=
  map (fun k => (Q2Qc (inject_Z (2000 + 20 * Z.of_nat k)),
                 restEvent (Some 20)))
      (seq 1 100).

(** A measurement that has risen to 194 cm and come to rest. *)
Definition restingAt194 : Engine :=
  mkEngine
    (mkRefs (gravityRef (refs measuringEngine)) (Q2Qc 2000) 0 (Q2Qc 194)
            (Q2Qc 194) 0%nat 1%nat true)
    (measurementState measuringEngine) None true (window measuringEngine).

(** The plain hook after a calibration at rest, about to measure. *)
Definition plainMeasuring : Plain.Engine :=
  Plain.startMeasurement
    (Plain.mkEngine
       (Plain.mkRefs defaultGravity 0 0 0 0%nat 0%nat true)
       (mkDisplay false false false 0 0 0 0 (Plain.DebugCalibrated (Q2Qc 9.81)))
       None true (mkWindow 0 0 false false)).

(** The conservative hook after a calibration at rest, about to
    measure. *)
Definition conservativeMeasuring : Conservative.Engine :=
  Conservative.startMeasurement
    (Conservative.mkEngine
       (Conservative.mkRefs defaultGravity 0 0 0 (Double.ofZ 0)
                            (Double.ofZ 0) true)
       (mkDisplay false false false 0 0 0 0
                  (Conservative.DebugCalibrated (Q2Qc 9.81)))
       None true (mkWindow 0 0 false false)).

(** Thirty events, 20 ms apart by the clock, of the device accelerating
    upwards at 1 m/s^2; the first one is at clock reading 1000. *)
Definition climbStream : list (Qc * DeviceMotionEvent) :=
  map (fun k => (Q2Qc (inject_Z (1000 + 20 * Z.of_nat k)), riseEvent None))
      (seq 0 30).

(** Twenty events at rest, 20 ms apart by the clock, after the climb. *)
Definition settleStream : list (Qc * DeviceMotionEvent) :=
  map (fun k => (Q2Qc (inject_Z (1600 + 20 * Z.of_nat k)), restEvent None))
      (seq 0 20).

(** Ten events at rest, 30 ms apart by the clock, after the climb. *)
Definition pauseStream : list (Qc * DeviceMotionEvent) :=
  map (fun k => (Q2Qc (inject_Z (1580 + 30 * Z.of_nat k)), restEvent None))
      (seq 1 10).

(** Ten events of the device accelerating downwards at 1 m/s^2. *)
Definition descentStream : list (Qc * DeviceMotionEvent) :=
  map (fun k => (Q2Qc (inject_Z (2000 + 20 * Z.of_nat k)),
                 verticalEvent 10.81 None))
      (seq 0 10).

(** [Math.PI], the double nearest to pi. *)
Definition MathPI : Qc := Q2Qc (884279719003555 # 281474976710656).

(** A stand-in for [Math.tan] in concrete runs: the small-angle
    approximation. *)
Definition smallAngleTan (x : Qc) : Qc := x.

(** The orientation hook, calibrated at a pitch of 10 degrees and started
    at clock reading 5000. *)
Definition orientationMeasuring : Orientation.Engine :=
  Orientation.startMeasurement (Q2Qc 5000)
    (Orientation.mkEngine
       (Some (Orientation.mkAngles 0 (Q2Qc 10) 0)) None 0 []
       (mkDisplay false false false 0 0 0 0
                  (Orientation.DebugCalibrated (Q2Qc 10)))
       None true (Orientation.mkListeners 0 false)).

(** The orientation hook after a second start, at clock reading 5050,
    without a stop in between: two closures are registered. *)
Definition orientationRestarted : Orientation.Engine :=
  Orientation.startMeasurement (Q2Qc 5050) orientationMeasuring.

(** Three orientation events: pitch 12, an event without pitch, pitch 50. *)
Definition pitchStream : list (Qc * Orientation.OrientationEvent) :=
  [(Q2Qc 5100,
    Orientation.mkOrientationEvent (Some 0) (Some (Q2Qc 12)) (Some 0));
   (Q2Qc 5200, Orientation.mkOrientationEvent (Some 0) None (Some 0));
   (Q2Qc 5300,
    Orientation.mkOrientationEvent (Some 0) (Some (Q2Qc 50)) (Some 0))].

(** The same events as deliveries: every closure reads the same clock. *)
Definition pitchDeliveries
  : list ((nat -> Qc) * Orientation.OrientationEvent) :=
  map (fun te => (fun _ : nat => fst te, snd te)) pitchStream.

(** The accelerometer hook, calibrated with no offset, with nothing
    registered. *)
Definition accelerometerCalibrated : Accelerometer.Hook :=
  Accelerometer.mkHook
    (Accelerometer.mkEngine
       (Some (mkVec3 0 0 0)) None (mkVec3 0 0 0) (mkVec3 0 0 0) 0
       (mkVec3 0 0 0)
       (Accelerometer.mkMeasurementState false false false 0 0 0)
       None)
    false [].

(** The hook after [startMeasurement], and the cells seen from the closure
    that the call registered. *)
Definition accelerometerStarted : Accelerometer.Hook :=
  Accelerometer.startMeasurement accelerometerCalibrated.

Definition accelerometerMeasuring : Accelerometer.Engine :=
  Accelerometer.frame accelerometerStarted.


(** An event of the device accelerating along its z axis at [a] m/s^2. *)
Definition liftEvent (a : Q) (t : Z) : Qc * Accelerometer.MotionEvent :=
  (0, Accelerometer.mkMotionEvent
        (Some (mkAcc (Some 0) (Some 0) (Some (Q2Qc a))))
        (Q2Qc (inject_Z t))).

(** The hook started a second time, without a stop, after the first
    event of a lift: the closure of the first start is still registered
    and has seen an event. *)
Definition accelerometerRestarted : Accelerometer.Hook :=
  Accelerometer.startMeasurement
    (Accelerometer.devicemotion Qcsqrt 0 (snd (liftEvent 5 1000))
       accelerometerStarted).

(** Three events of a lift at 5 m/s^2, 16 ms apart. *)
Definition liftStream : list (Qc * Accelerometer.MotionEvent) :=
  [liftEvent 5 1000; liftEvent 5 1016; liftEvent 5 1032].

(** ** Properties *)

(** *** Arithmetic on canonical rationals, through [Q] *)

Lemma this_Q2Qc (q : Q) : (this (Q2Qc q) == q)%Q.
Proof. apply Qred_correct. Qed.

Lemma this_add (x y : Qc) : (this (x + y) == this x + this y)%Q.
Proof. apply Qred_correct. Qed.

Lemma this_mul (x y : Qc) : (this (x * y) == this x * this y)%Q.
Proof. apply Qred_correct. Qed.

Lemma this_opp (x : Qc) : (this (- x) == - this x)%Q.
Proof. apply Qred_correct. Qed.

Lemma this_sub (x y : Qc) : (this (x - y) == this x - this y)%Q.
Proof. unfold Qcminus. rewrite this_add, this_opp. reflexivity. Qed.

(** Turns orders and equations between canonical rationals into the same
    facts about their underlying fractions, ready for [lra] / [nra]. *)
Ltac qc_to_q :=
  unfold Qcle, Qclt in *;
  repeat match goal with
  | |- @eq Qc _ _ => apply Qc_is_canon
  | H : @eq Qc _ _ |- _ => apply (f_equal this) in H
  end;
  repeat
    (rewrite ?this_add, ?this_mul, ?this_sub, ?this_opp, ?this_Q2Qc in * ).

Lemma ltb_lt (a b : Qc) : JS.ltb a b = true <-> a < b.
Proof.
  unfold JS.ltb, Qclt.
  rewrite negb_true_iff, <- not_true_iff_false, Qle_bool_iff.
  split; intro H; [apply Qnot_le_lt | apply Qlt_not_le]; exact H.
Qed.

Lemma ltb_ge (a b : Qc) : JS.ltb a b = false <-> b <= a.
Proof.
  unfold JS.ltb, Qcle. rewrite negb_false_iff. apply Qle_bool_iff.
Qed.

Lemma geb_ge (a b : Qc) : JS.geb a b = true <-> b <= a.
Proof. apply Qle_bool_iff. Qed.

Lemma geb_lt (a b : Qc) : JS.geb a b = false <-> a < b.
Proof.
  unfold JS.geb, Qclt. rewrite <- not_true_iff_false, Qle_bool_iff.
  split; intro H; [apply Qnot_le_lt | apply Qlt_not_le]; exact H.
Qed.

Lemma gtb_gt (a b : Qc) : JS.gtb a b = true <-> b < a.
Proof. apply ltb_lt. Qed.

Lemma gtb_le (a b : Qc) : JS.gtb a b = false <-> a <= b.
Proof. apply ltb_ge. Qed.

Lemma max_spec (a b : Qc) :
  (a <= b /\ JS.max a b = b) \/ (b < a /\ JS.max a b = a).
Proof.
  unfold JS.max. destruct (Qle_bool a b) eqn:E.
  - left. split; [apply Qle_bool_iff, E | reflexivity].
  - right. split; [apply geb_lt, E | reflexivity].
Qed.

Lemma min_spec (a b : Qc) :
  (a <= b /\ JS.min a b = a) \/ (b < a /\ JS.min a b = b).
Proof.
  unfold JS.min. destruct (Qle_bool a b) eqn:E.
  - left. split; [apply Qle_bool_iff, E | reflexivity].
  - right. split; [apply geb_lt, E | reflexivity].
Qed.

(** Case analysis on the maxima and minima in sight and on the comparisons
    of the goal. *)
Ltac js_cases :=
  repeat match goal with
  | |- context [JS.max ?a ?b] =>
      let H := fresh "Hmax" in let E := fresh "Emax" in
      destruct (max_spec a b) as [[H E] | [H E]]; rewrite E in *; clear E
  | |- context [JS.min ?a ?b] =>
      let H := fresh "Hmin" in let E := fresh "Emin" in
      destruct (min_spec a b) as [[H E] | [H E]]; rewrite E in *; clear E
  | _ : context [JS.max ?a ?b] |- _ =>
      let H := fresh "Hmax" in let E := fresh "Emax" in
      destruct (max_spec a b) as [[H E] | [H E]]; rewrite E in *; clear E
  | _ : context [JS.min ?a ?b] |- _ =>
      let H := fresh "Hmin" in let E := fresh "Emin" in
      destruct (min_spec a b) as [[H E] | [H E]]; rewrite E in *; clear E
  | |- context [JS.ltb ?a ?b] =>
      let E := fresh "Elt" in
      destruct (JS.ltb a b) eqn:E;
      [apply ltb_lt in E | apply ltb_ge in E]
  | |- context [JS.gtb ?a ?b] =>
      let E := fresh "Egt" in
      destruct (JS.gtb a b) eqn:E;
      [apply gtb_gt in E | apply gtb_le in E]
  | |- context [JS.geb ?a ?b] =>
      let E := fresh "Ege" in
      destruct (JS.geb a b) eqn:E;
      [apply geb_ge in E | apply geb_lt in E]
  end.

(** *** The integrator: ranges, peak, monotonicity *)

Section IntegratorFacts.

Variable sqrt : Qc -> Qc.

(** An event that carries an acceleration leaves the integrator cells in
    range, whatever they were before. *)
Lemma onMotion_establishes_invariant ts e s ag :
  accelerationIncludingGravity e = Some ag ->
  Invariant (refs (onMotion sqrt ts e s)).
Proof.
  intros Hag. unfold onMotion, Invariant. rewrite Hag. cbn.
  js_cases; qc_to_q; repeat split; lra.
Qed.

(** An event without acceleration changes no integrator cell. *)
Lemma onMotion_no_acceleration ts e s :
  accelerationIncludingGravity e = None ->
  onMotion sqrt ts e s =
  mkEngine
    (mkRefs (gravityRef (refs s)) ts (velocityRef (refs s))
            (displacementRef (refs s)) (peakDisplacementRef (refs s))
            (stationarySamplesRef (refs s)) (totalSamplesRef (refs s))
            (hasCalibratedRef (refs s)))
    (measurementState s) (error s) (permissionGranted s) (window s).
Proof.
  intros Hag. unfold onMotion. rewrite Hag. reflexivity.
Qed.

Lemma onMotion_preserves_invariant ts e s :
  Invariant (refs s) -> Invariant (refs (onMotion sqrt ts e s)).
Proof.
  intros Hinv. destruct (accelerationIncludingGravity e) as [ag|] eqn:Hag.
  - eapply onMotion_establishes_invariant; eassumption.
  - rewrite onMotion_no_acceleration by assumption. exact Hinv.
Qed.

Lemma processAll_app es1 es2 s :
  processAll sqrt (es1 ++ es2) s = processAll sqrt es2 (processAll sqrt es1 s).
Proof. apply fold_left_app. Qed.

Lemma processAll_cons te es s :
  processAll sqrt (te :: es) s =
  processAll sqrt es (onMotion sqrt (fst te) (snd te) s).
Proof. reflexivity. Qed.

(** C1.  Along every stream of events handled by [onMotion], started from
    cells in range (as [startMeasurement] leaves them), the cells stay in
    range: 0 <= displacement <= 300, 0 <= peak <= 300 and
    displacement <= peak.  Every prefix of a stream is a stream, so this
    is the state after every update. *)
Theorem integrator_invariant es s :
  Invariant (refs s) -> Invariant (refs (processAll sqrt es s)).
Proof.
  revert s. induction es as [|te es IH]; intros s Hinv.
  - exact Hinv.
  - rewrite processAll_cons. apply IH, onMotion_preserves_invariant, Hinv.
Qed.

(** The peak never decreases over one event, from cells in range. *)
Lemma onMotion_peak_monotone ts e s :
  Invariant (refs s) ->
  peakDisplacementRef (refs s)
  <= peakDisplacementRef (refs (onMotion sqrt ts e s)).
Proof.
  intros (_ & _ & _ & Hp & _).
  unfold onMotion. destruct (accelerationIncludingGravity e) as [ag|].
  - cbn. js_cases; qc_to_q; lra.
  - cbn. apply Qcle_refl.
Qed.

(** C8.  For two consecutive events handled by [onMotion], the peak after
    the second is at least the peak after the first. *)
Theorem peak_monotone ts1 e1 ts2 e2 s :
  Invariant (refs s) ->
  let s1 := onMotion sqrt ts1 e1 s in
  let s2 := onMotion sqrt ts2 e2 s1 in
  peakDisplacementRef (refs s1) <= peakDisplacementRef (refs s2).
Proof.
  intros Hinv s1 s2. apply onMotion_peak_monotone.
  apply onMotion_preserves_invariant, Hinv.
Qed.

Lemma clampDt_range dt :
  Q2Qc 0.005 <= clampDt dt /\ clampDt dt <= Q2Qc 0.05.
Proof.
  unfold clampDt. js_cases; qc_to_q; lra.
Qed.

(** What one event does to the displacement when it starts non-negative:
    the non-negative part of the new velocity is added and only the upper
    clamp can apply. *)
Lemma onMotion_displacement ts e s ag :
  accelerationIncludingGravity e = Some ag ->
  0 <= displacementRef (refs s) ->
  let s' := onMotion sqrt ts e s in
  let d1 := displacementRef (refs s)
            + JS.max 0 (velocityRef (refs s')) * sampleDt ts e (refs s) in
  displacementRef (refs s') = if JS.gtb d1 (Q2Qc 300) then Q2Qc 300 else d1.
Proof.
  intros Hag Hd. unfold onMotion, sampleDt. rewrite Hag. cbn.
  destruct (clampDt_range (rawDt ts e (refs s))) as [Hdt _].
  match goal with
  | |- context [JS.max 0 ?x] => generalize x; intro v
  end.
  generalize dependent (clampDt (rawDt ts e (refs s))). intros dt Hdt.
  destruct (max_spec 0 v) as [[Hv E] | [Hv E]]; rewrite E;
    (destruct (JS.ltb _ 0) eqn:Elt; [|reflexivity]);
    apply ltb_lt in Elt; exfalso; qc_to_q; nra.
Qed.

(** One event keeps displacement and peak equal and does not decrease
    them, when they were equal and in range. *)
Lemma onMotion_peak_is_displacement ts e s :
  Invariant (refs s) ->
  peakDisplacementRef (refs s) = displacementRef (refs s) ->
  let s' := onMotion sqrt ts e s in
  displacementRef (refs s) <= displacementRef (refs s') /\
  peakDisplacementRef (refs s') = displacementRef (refs s').
Proof.
  intros (Hd0 & Hd300 & _ & _ & _) Heq.
  unfold onMotion. destruct (accelerationIncludingGravity e) as [ag|].
  - cbn. rewrite Heq.
    destruct (clampDt_range (rawDt ts e (refs s))) as [Hdt _].
    generalize dependent (clampDt (rawDt ts e (refs s))). intros dt Hdt.
    match goal with
    | |- context [JS.max 0 ?x] => generalize x; intro v
    end.
    destruct (max_spec 0 v) as [[Hv E] | [Hv E]]; rewrite E;
      js_cases; split; qc_to_q; nra.
  - cbn. split; [apply Qcle_refl | exact Heq].
Qed.

(** Both facts survive any stream of events. *)
Lemma processAll_peak_is_displacement es s :
  Invariant (refs s) ->
  peakDisplacementRef (refs s) = displacementRef (refs s) ->
  Invariant (refs (processAll sqrt es s)) /\
  peakDisplacementRef (refs (processAll sqrt es s))
  = displacementRef (refs (processAll sqrt es s)).
Proof.
  revert s. induction es as [|te es IH]; intros s Hinv Heq.
  - split; assumption.
  - rewrite processAll_cons. apply IH.
    + apply onMotion_preserves_invariant, Hinv.
    + apply onMotion_peak_is_displacement; assumption.
Qed.

(** C10.  From [displacement = peak] in range (as [startMeasurement] leaves
    the cells), after any stream of events the peak equals the
    displacement, and the next event does not decrease the displacement
    and leaves the two equal again. *)
Theorem displacement_monotone_peak_equal es ts e s :
  Invariant (refs s) ->
  peakDisplacementRef (refs s) = displacementRef (refs s) ->
  let s1 := processAll sqrt es s in
  let s2 := onMotion sqrt ts e s1 in
  peakDisplacementRef (refs s1) = displacementRef (refs s1) /\
  displacementRef (refs s1) <= displacementRef (refs s2) /\
  peakDisplacementRef (refs s2) = displacementRef (refs s2).
Proof.
  intros Hinv Heq s1 s2.
  destruct (processAll_peak_is_displacement es s Hinv Heq) as [Hinv1 Heq1].
  split; [exact Heq1|].
  apply onMotion_peak_is_displacement; assumption.
Qed.

End IntegratorFacts.

(** Closed facts about concrete canonical rationals, by computation. *)
Ltac qc_decide :=
  lazymatch goal with
  | |- @eq Qc _ _ => apply Qc_is_canon; vm_compute; reflexivity
  | |- not (@eq Qc _ _) =>
      let H := fresh in
      intro H; apply (f_equal this) in H; vm_compute in H; discriminate H
  | |- Qcle _ _ =>
      let H := fresh in unfold Qcle, Qle; vm_compute; intro H; discriminate H
  | |- Qclt _ _ => unfold Qclt, Qlt; vm_compute; reflexivity
  | |- _ => vm_compute; reflexivity
  end.

(** *** Gravity tracking *)

Section GravityFacts.

Variable sqrt : Qc -> Qc.

(** C3.  When the candidate linear acceleration is not below 0.2 m/s^2 or
    the rotation rate is not below 3 deg/s, [onMotion] leaves the gravity
    estimate exactly as it was; when both are below, it stores the
    low-pass candidate. *)
Theorem gravity_freeze ts e s ag :
  accelerationIncludingGravity e = Some ag ->
  let gPrev := gravityRef (refs s) in
  let gMeas := accelVec ag in
  let g' := gravityRef (refs (onMotion sqrt ts e s)) in
  (~ aLinMagCandidate sqrt gPrev gMeas < Q2Qc 0.2
   \/ ~ rotMag sqrt e < Q2Qc 3 -> g' = gPrev) /\
  (aLinMagCandidate sqrt gPrev gMeas < Q2Qc 0.2
   /\ rotMag sqrt e < Q2Qc 3 -> g' = gCandidate gPrev gMeas).
Proof.
  intros Hag gPrev gMeas g'. subst g'.
  unfold onMotion. rewrite Hag. cbn [refs gravityRef].
  fold gPrev gMeas. unfold gNew, allowGUpdate.
  destruct (JS.ltb (aLinMagCandidate sqrt gPrev gMeas) (Q2Qc 0.2)) eqn:Ea;
    destruct (JS.ltb (rotMag sqrt e) (Q2Qc 3)) eqn:Er; cbn [andb];
    rewrite ?ltb_lt, ?ltb_ge in *;
    (split; intros H; [|destruct H as [Ha Hr]]; try reflexivity; exfalso).
  - destruct H as [H | H]; contradiction.
  - apply Qclt_not_le in Hr. contradiction.
  - apply Qclt_not_le in Ha. contradiction.
  - apply Qclt_not_le in Ha. contradiction.
Qed.

(** An event without acceleration leaves the estimate untouched too. *)
Lemma gravity_untouched_without_acceleration ts e s :
  accelerationIncludingGravity e = None ->
  gravityRef (refs (onMotion sqrt ts e s)) = gravityRef (refs s).
Proof.
  intros Hag. rewrite onMotion_no_acceleration by assumption. reflexivity.
Qed.

End GravityFacts.

(** *** Time deltas *)

Section DtFacts.

Variable sqrt : Qc -> Qc.



End DtFacts.


(** *** Session control *)

Lemma startMeasurement_calibrated s :
  hasCalibratedRef (refs s) = true ->
  startMeasurement s =
  mkEngine
    (mkRefs (gravityRef (refs s)) 0 0 0 0 0%nat 0%nat true)
    (mkMeasurementState (isCalibrating (measurementState s)) true false
                        0 0 0 0 DebugMeasuring)
    None (permissionGranted s)
    (mkWindow (S (motionListeners (window s)))
              (S (orientationListeners (window s))) true true).
Proof.
  intros H. unfold startMeasurement. rewrite H. reflexivity.
Qed.

(** Handling events never touches the calibration flag. *)
Lemma processAll_hasCalibrated (sqrt : Qc -> Qc) es s :
  hasCalibratedRef (refs (processAll sqrt es s)) = hasCalibratedRef (refs s).
Proof.
  revert s. induction es as [|te es IH]; intros s; [reflexivity|].
  rewrite processAll_cons, IH. unfold onMotion.
  destruct (accelerationIncludingGravity (snd te)); reflexivity.
Qed.

(** C6.  Without a calibration [startMeasurement] only reports the error:
    every cell, the measurement state and the listeners are as before.
    With one it clears the error and zeroes the integrator cells; the
    calibration flag survives events and [stopMeasurement], so a second
    measurement starts, from zero, without recalibrating. *)
Theorem startMeasurement_contract (sqrt : Qc -> Qc) s es :
  (hasCalibratedRef (refs s) = false ->
     startMeasurement s =
     mkEngine (refs s) (measurementState s)
              (Some "Please calibrate first"%string)
              (permissionGranted s) (window s)) /\
  (hasCalibratedRef (refs s) = true ->
     let started := startMeasurement s in
     let again :=
       startMeasurement (stopMeasurement (processAll sqrt es started)) in
     (error started = None /\
      isMeasuring (measurementState started) = true /\
      velocityRef (refs started) = 0 /\
      displacementRef (refs started) = 0 /\
      peakDisplacementRef (refs started) = 0 /\
      stationarySamplesRef (refs started) = 0%nat) /\
     (isComplete (measurementState
                    (stopMeasurement (processAll sqrt es started))) = true /\
      error again = None /\
      isMeasuring (measurementState again) = true /\
      velocityRef (refs again) = 0 /\
      displacementRef (refs again) = 0 /\
      peakDisplacementRef (refs again) = 0 /\
      stationarySamplesRef (refs again) = 0%nat)).
Proof.
  split.
  - intros H. unfold startMeasurement. rewrite H. reflexivity.
  - intros H started again.
    assert (Hp : hasCalibratedRef
                   (refs (stopMeasurement (processAll sqrt es started)))
                 = true).
    { cbn [stopMeasurement refs]. rewrite processAll_hasCalibrated.
      subst started. rewrite (startMeasurement_calibrated s H).
      reflexivity. }
    split.
    + subst started. rewrite (startMeasurement_calibrated s H).
      cbn. repeat split.
    + subst again. rewrite (startMeasurement_calibrated _ Hp).
      cbn. repeat split.
Qed.

(** C9.  [resetMeasurement] is idempotent, and what it leaves is the idle
    state: no phase flag set, no calibration, integrator cells at zero,
    gravity at its default. *)
Theorem resetMeasurement_idempotent s :
  resetMeasurement (resetMeasurement s) = resetMeasurement s /\
  refs (resetMeasurement s) =
    mkRefs (mkVec3 0 0 (Q2Qc 9.81)) 0 0 0 0 0%nat 0%nat false /\
  measurementState (resetMeasurement s) =
    mkMeasurementState false false false 0 0 0 0 DebugEmpty /\
  error (resetMeasurement s) = None.
Proof.
  unfold resetMeasurement, detachListeners. cbn. repeat split.
Qed.

(** *** Zero-velocity update *)

Section ZuptFacts.

Variable sqrt : Qc -> Qc.

(** The rule of one event: the counter of consecutive stationary samples
    advances or restarts, and the velocity is zeroed when the counter times
    the event's [dt] reaches half a second. *)
Lemma zupt_rule ts e s ag :
  accelerationIncludingGravity e = Some ag ->
  let s' := onMotion sqrt ts e s in
  stationarySamplesRef (refs s') =
    (if classifiedStationary sqrt e (refs s)
     then S (stationarySamplesRef (refs s)) else 0%nat) /\
  (Q2Qc 0.5 <= JS.ofNat (stationarySamplesRef (refs s'))
               * sampleDt ts e (refs s) ->
   velocityRef (refs s') = 0).
Proof.
  intros Hag. unfold onMotion, classifiedStationary, sampleDt.
  rewrite Hag. cbn. split; [reflexivity|].
  intros H. apply geb_ge in H. rewrite H. reflexivity.
Qed.

Lemma stationarySpan_app dt es1 es2 s :
  stationarySpan sqrt dt (es1 ++ es2) s <->
  stationarySpan sqrt dt es1 s /\
  stationarySpan sqrt dt es2 (processAll sqrt es1 s).
Proof.
  revert s. induction es1 as [|[ts e] es1 IH]; intros s; cbn.
  - tauto.
  - rewrite IH. tauto.
Qed.

(** Over a stationary span the counter counts the samples. *)
Lemma stationarySpan_count dt es s :
  stationarySpan sqrt dt es s ->
  stationarySamplesRef (refs (processAll sqrt es s)) =
  (List.length es + stationarySamplesRef (refs s))%nat.
Proof.
  revert s. induction es as [|[ts e] es IH]; intros s Hspan.
  - reflexivity.
  - destruct Hspan as (Hst & _ & Hrest).
    rewrite processAll_cons. cbn [fst snd]. rewrite (IH _ Hrest).
    unfold classifiedStationary in Hst.
    destruct (accelerationIncludingGravity e) as [ag|] eqn:Hag;
      [|discriminate].
    destruct (zupt_rule ts e s ag Hag) as [Hc _].
    rewrite Hc. unfold classifiedStationary. rewrite Hag, Hst.
    cbn [List.length]. lia.
Qed.

Lemma ofNat_le n m : (n <= m)%nat -> JS.ofNat n <= JS.ofNat m.
Proof.
  intros H. unfold JS.ofNat. qc_to_q.
  rewrite <- Zle_Qle. lia.
Qed.

(** C2, as the code has it.  The stationary duration is measured as the
    number of consecutive stationary samples times the [dt] of the current
    sample: when that product reaches 0.5 s the velocity is exactly 0 after
    the sample.  In particular a stream that ends with a span of
    stationary samples of one common [dt], lasting 0.5 s or more, leaves
    the velocity at exactly 0. *)
Theorem zupt_by_sample_count :
  (forall ts e s ag,
     accelerationIncludingGravity e = Some ag ->
     let s' := onMotion sqrt ts e s in
     stationarySamplesRef (refs s') =
       (if classifiedStationary sqrt e (refs s)
        then S (stationarySamplesRef (refs s)) else 0%nat) /\
     (Q2Qc 0.5 <= JS.ofNat (stationarySamplesRef (refs s'))
                  * sampleDt ts e (refs s) ->
      velocityRef (refs s') = 0)) /\
  (forall dt before span s,
     span <> [] ->
     stationarySpan sqrt dt span (processAll sqrt before s) ->
     Q2Qc 0.5 <= JS.ofNat (List.length span) * dt ->
     velocityRef (refs (processAll sqrt (before ++ span) s)) = 0).
Proof.
  split; [exact zupt_rule|].
  intros dt before span s Hne Hspan Hdur.
  rewrite processAll_app. generalize dependent (processAll sqrt before s).
  clear before s. intros s Hspan.
  destruct (exists_last Hne) as (front & [ts e] & ->).
  apply stationarySpan_app in Hspan. destruct Hspan as [Hfront Hlast].
  rewrite processAll_app. cbn [processAll fold_left fst snd].
  set (s1 := processAll sqrt front s) in *.
  destruct Hlast as (Hst & Hdt & _).
  pose proof Hst as Hst'. unfold classifiedStationary in Hst'.
  destruct (accelerationIncludingGravity e) as [ag|] eqn:Hag;
    [clear Hst'|discriminate].
  destruct (zupt_rule ts e s1 ag Hag) as [Hc Hz].
  apply Hz. rewrite Hc, Hst, Hdt.
  subst s1. rewrite (stationarySpan_count _ _ _ Hfront).
  assert (Hn : JS.ofNat (List.length (front ++ [(ts, e)]))
               <= JS.ofNat (S (List.length front
                               + stationarySamplesRef (refs s)))).
  { apply ofNat_le. rewrite length_app. cbn. lia. }
  assert (Hpos : Q2Qc 0.005 <= dt).
  { rewrite <- Hdt. apply clampDt_range. }
  revert Hdur Hn Hpos.
  generalize (JS.ofNat (List.length (front ++ [(ts, e)]))).
  generalize (JS.ofNat (S (List.length front
                           + stationarySamplesRef (refs s)))).
  intros a b Hdur Hn Hpos. qc_to_q. nra.
Qed.

End ZuptFacts.

(** C2 as the specification words it fails: after one sample of upward
    motion, eleven
    samples at rest that add up to 0.51 s of stationary time leave the
    velocity at 2.9985 cm/s, because the counter times the last [dt] is
    only 11 * 0.03 = 0.33 s. *)
Lemma zupt_accumulated_time_counterexample :
  let final := processAll Qcsqrt restStream risenEngine in
  specStationaryAccum Qcsqrt 0 restStream risenEngine = Q2Qc 0.51 /\
  Q2Qc 0.5 <= specStationaryAccum Qcsqrt 0 restStream risenEngine /\
  stationarySamplesRef (refs final) = 11%nat /\
  velocityRef (refs final) = Q2Qc 2.9985 /\
  velocityRef (refs final) <> 0.
Proof.
  cbv zeta. repeat split; qc_decide.
Qed.

(** *** Confidence *)

Lemma this_inv (x : Qc) : (this (/ x) == / this x)%Q.
Proof. apply Qred_correct. Qed.

Lemma this_div (x y : Qc) : (this (x / y) == this x / this y)%Q.
Proof. unfold Qcdiv. rewrite this_mul, this_inv. reflexivity. Qed.

Lemma Qfloor_unique (x : Q) (k : Z) :
  (inject_Z k <= x)%Q -> (x < inject_Z (k + 1))%Q -> Qfloor x = k.
Proof.
  intros Hlo Hhi.
  pose proof (Qfloor_le x) as H1. pose proof (Qlt_floor x) as H2.
  assert (Ha : (inject_Z (Qfloor x) < inject_Z (k + 1))%Q)
    by (eapply Qle_lt_trans; eassumption).
  assert (Hb : (inject_Z k < inject_Z (Qfloor x + 1))%Q)
    by (eapply Qle_lt_trans; eassumption).
  rewrite <- Zlt_Qlt in Ha, Hb. lia.
Qed.

(** Rounding to one decimal gives a number of tenths. *)
Lemma round1_tenths (x : Qc) :
  round1 x =
  Q2Qc (inject_Z (Qfloor (this (x * Q2Qc 10 + Q2Qc 0.5)))) / Q2Qc 10.
Proof. reflexivity. Qed.

Lemma round1_of_tenths (k : Z) :
  round1 (Q2Qc (inject_Z k) / Q2Qc 10) = Q2Qc (inject_Z k) / Q2Qc 10.
Proof.
  rewrite round1_tenths at 1. do 2 f_equal. f_equal.
  apply Qfloor_unique.
  - rewrite this_add, this_mul, this_div, !this_Q2Qc. field_simplify. lra.
  - rewrite this_add, this_mul, this_div, !this_Q2Qc, inject_Z_plus.
    field_simplify. lra.
Qed.

(** Rounding twice, as [onMotion] and [toFeetInches] do in a row, is
    rounding once. *)
Lemma round1_idempotent (x : Qc) : round1 (round1 x) = round1 x.
Proof. rewrite (round1_tenths x). apply round1_of_tenths. Qed.

Lemma round1_small (x : Qc) : 0 <= x -> x < Q2Qc 0.05 -> round1 x = 0.
Proof.
  intros H0 H1. rewrite round1_tenths.
  replace (Qfloor (this (x * Q2Qc 10 + Q2Qc 0.5))) with 0%Z.
  - qc_decide.
  - symmetry. apply Qfloor_unique;
      change (inject_Z (0 + 1)) with 1%Q; change (inject_Z 0) with 0%Q;
      qc_to_q; lra.
Qed.

(** A height in [[0, 300]] is displayed as a whole number of tenths from
    0 to 3000. *)
Lemma round1_displayed (x : Qc) :
  0 <= x -> x <= Q2Qc 300 ->
  exists k : Z,
    (0 <= k <= 3000)%Z /\ round1 x = Q2Qc (inject_Z k) / Q2Qc 10.
Proof.
  intros H0 H300.
  exists (Qfloor (this (x * Q2Qc 10 + Q2Qc 0.5))).
  split; [|apply round1_tenths].
  pose proof (Qfloor_le (this (x * Q2Qc 10 + Q2Qc 0.5))) as Hlo.
  pose proof (Qlt_floor (this (x * Q2Qc 10 + Q2Qc 0.5))) as Hhi.
  generalize dependent (Qfloor (this (x * Q2Qc 10 + Q2Qc 0.5))).
  intros k Hlo Hhi.
  rewrite this_add, this_mul, !this_Q2Qc in Hlo, Hhi.
  unfold Qcle in H0, H300. rewrite this_Q2Qc in H300.
  change (this 0) with 0%Q in H0.
  assert (Ha : (inject_Z 0 < inject_Z (k + 1))%Q).
  { change (inject_Z 0) with 0%Q. lra. }
  assert (Hb : (inject_Z k < inject_Z 3001)%Q).
  { change (inject_Z 3001) with 3001%Q. lra. }
  rewrite <- Zlt_Qlt in Ha, Hb. lia.
Qed.

Lemma tenths_injective (k j : Z) :
  Q2Qc (inject_Z k) / Q2Qc 10 = Q2Qc (inject_Z j) / Q2Qc 10 -> k = j.
Proof.
  intros H.
  assert (E0 : (this (Q2Qc (inject_Z k) / Q2Qc 10)
                == this (Q2Qc (inject_Z j) / Q2Qc 10))%Q)
    by (rewrite H; reflexivity).
  rewrite !this_div, !this_Q2Qc in E0.
  unfold Qdiv in E0. apply Qmult_inj_r in E0; [|discriminate].
  unfold Qeq in E0. cbn in E0. lia.
Qed.

(** The check holds of every height a display can show. *)
Lemma confidence_table (k : Z) :
  (0 <= k <= 3000)%Z -> confidenceCheck k = true.
Proof.
  intros Hk.
  assert (Hall : forallb confidenceCheck displayedTenths = true)
    by (vm_compute; reflexivity).
  rewrite forallb_forall in Hall. apply Hall.
  unfold displayedTenths. rewrite <- (Z2Nat.id k) by lia.
  apply in_map, in_seq. lia.
Qed.

(** [toFeetInches] rounds the displayed height to one decimal once more.
    In binary64 as well this changes nothing: the double nearest to [k]
    tenths, times 10, rounds to [k]. *)
Lemma displayed_height_stable (k : Z) :
  (0 <= k <= 3000)%Z ->
  Double.round1 (Double.ofQc (Q2Qc (inject_Z k) / Q2Qc 10))
  = Q2Qc (inject_Z k) / Q2Qc 10.
Proof.
  intros Hk.
  assert (Hall :
    forallb (fun j => Qc_eq_bool
                        (Double.round1
                           (Double.ofQc (Q2Qc (inject_Z j) / Q2Qc 10)))
                        (Q2Qc (inject_Z j) / Q2Qc 10))
            displayedTenths = true)
    by (vm_compute; reflexivity).
  rewrite forallb_forall in Hall. apply Qc_eq_bool_correct, Hall.
  unfold displayedTenths. rewrite <- (Z2Nat.id k) by lia.
  apply in_map, in_seq. lia.
Qed.

(** The table, read for one height and one classification. *)
Lemma confidence_shown (k : Z) (still : bool) :
  (0 <= k <= 3000)%Z ->
  let h := Q2Qc (inject_Z k) / Q2Qc 10 in
  let shown := Double.round1 (conf still h) in
  (k <> 1940%Z -> shown = round1 (specConfidence h still)) /\
  (k = 1940%Z ->
   shown = (if still then Q2Qc 96.9 else Q2Qc 93.9) /\
   round1 (specConfidence h still)
   = (if still then Q2Qc 97 else Q2Qc 94)) /\
  Q2Qc 60 <= shown /\ shown <= Q2Qc 98 /\
  (still = true -> Q2Qc 63 <= shown) /\
  (still = false -> shown <= Q2Qc 95).
Proof.
  intros Hk h shown. pose proof (confidence_table k Hk) as T.
  unfold confidenceCheck in T. fold h in T.
  repeat (apply andb_prop in T; let T' := fresh "B" in destruct T as [T T']).
  apply Qle_bool_iff in B, B0, B1, B2.
  assert (H6398 : Q2Qc 60 <= Q2Qc 63 /\ Q2Qc 95 <= Q2Qc 98)
    by (split; qc_decide).
  destruct H6398 as [H6063 H9598].
  destruct (Z.eqb_spec k 1940) as [E | E].
  - repeat (apply andb_prop in T;
            let T' := fresh "C" in destruct T as [T T']).
    apply Qc_eq_bool_correct in T, C, C0, C1.
    destruct still; subst shown.
    + split; [contradiction|]. split; [intros _; split; assumption|].
      split; [eapply Qcle_trans; [exact H6063 | exact B0]|].
      split; [exact B|]. split; [intros _; exact B0 | discriminate].
    + split; [contradiction|]. split; [intros _; split; assumption|].
      split; [exact B2|].
      split; [eapply Qcle_trans; [exact B1 | exact H9598]|].
      split; [discriminate | intros _; exact B1].
  - apply andb_prop in T. destruct T as [T C].
    apply Qc_eq_bool_correct in T, C.
    destruct still; subst shown.
    + split; [intros _; exact C|]. split; [contradiction|].
      split; [eapply Qcle_trans; [exact H6063 | exact B0]|].
      split; [exact B|]. split; [intros _; exact B0 | discriminate].
    + split; [intros _; exact T|]. split; [contradiction|].
      split; [exact B2|].
      split; [eapply Qcle_trans; [exact B1 | exact H9598]|].
      split; [discriminate | intros _; exact B1].
Qed.

Section ConfidenceFacts.

Variable sqrt : Qc -> Qc.

(** What [onMotion] puts on display: the peak rounded to one decimal, a
    whole number of tenths from 0 to 3000, and the confidence heuristic
    of that number. *)
Lemma onMotion_display ts e s ag :
  accelerationIncludingGravity e = Some ag ->
  let s' := onMotion sqrt ts e s in
  let still := classifiedStationary sqrt e (refs s) in
  exists k : Z,
    (0 <= k <= 3000)%Z /\
    heightCm (measurementState s') = Q2Qc (inject_Z k) / Q2Qc 10 /\
    heightCm (measurementState s') = round1 (peakDisplacementRef (refs s')) /\
    confidence (measurementState s') =
      Double.round1 (conf still (Q2Qc (inject_Z k) / Q2Qc 10)).
Proof.
  intros Hag s' still.
  assert (Hpeak : 0 <= peakDisplacementRef (refs s')
                  /\ peakDisplacementRef (refs s') <= Q2Qc 300).
  { destruct (onMotion_establishes_invariant sqrt ts e s ag Hag)
      as (_ & _ & Hp0 & Hp300 & _).
    split; assumption. }
  assert (Hrep : heightCm (measurementState s')
                 = round1 (peakDisplacementRef (refs s'))).
  { subst s'. unfold onMotion. rewrite Hag. cbn.
    apply round1_idempotent. }
  assert (Hconf : confidence (measurementState s') =
                  Double.round1 (conf still (heightCm (measurementState s')))).
  { subst s' still. unfold onMotion, classifiedStationary.
    rewrite Hag. reflexivity. }
  destruct (round1_displayed _ (proj1 Hpeak) (proj2 Hpeak)) as (k & Hk & Ek).
  exists k. split; [exact Hk|].
  split; [rewrite Hrep; exact Ek|]. split; [exact Hrep|].
  rewrite Hconf, Hrep, Ek. reflexivity.
Qed.

(** C5, as the code has it.  The reported height is the peak rounded to
    one decimal, and the reported confidence is the specification's
    formula applied to that reported height (not to the peak itself),
    evaluated in binary64 and rounded to one decimal.  For every reported
    height but 194.0 cm this is the exactly computed formula rounded to
    one decimal; at 194.0 cm binary64 yields 93.94999999999999, or
    96.94999999999999 when stationary, and the report is 93.9, or 96.9,
    one tenth below the exact 94.0, or 97.0.  When the peak is below
    0.05 cm the reported height is 0 and the confidence is 60, or 63
    when stationary. *)
Theorem confidence_on_reported_height ts e s ag :
  accelerationIncludingGravity e = Some ag ->
  let s' := onMotion sqrt ts e s in
  let still := classifiedStationary sqrt e (refs s) in
  let reported := heightCm (measurementState s') in
  let shown := confidence (measurementState s') in
  reported = round1 (peakDisplacementRef (refs s')) /\
  (reported <> Q2Qc 194 ->
   shown = round1 (specConfidence reported still)) /\
  (reported = Q2Qc 194 ->
   shown = (if still then Q2Qc 96.9 else Q2Qc 93.9) /\
   shown = round1 (specConfidence reported still) - Q2Qc 0.1) /\
  (peakDisplacementRef (refs s') < Q2Qc 0.05 ->
   reported = 0 /\
   shown = (if still then Q2Qc 63 else Q2Qc 60) /\
   shown <= Q2Qc 63).
Proof.
  intros Hag s' still reported shown.
  destruct (onMotion_display ts e s ag Hag) as (k & Hk & Ek & Hrep & Hconf).
  fold s' still in Ek, Hrep, Hconf. fold reported in Ek, Hrep.
  fold shown in Hconf.
  destruct (confidence_shown k still Hk) as (Hother & Htie & _).
  assert (E194 : Q2Qc 194 = Q2Qc (inject_Z 1940) / Q2Qc 10) by qc_decide.
  split; [exact Hrep|]. split; [|split].
  - intros Hne. rewrite Hconf, Ek. apply Hother.
    intros Hk1940. apply Hne. rewrite Ek, Hk1940. symmetry. exact E194.
  - intros H194. rewrite Ek, E194 in H194. apply tenths_injective in H194.
    destruct (Htie H194) as [Hshown Hexact].
    split; [rewrite Hconf; exact Hshown|].
    rewrite Hconf, Ek, Hshown, Hexact. destruct still; qc_decide.
  - intros Hsmall.
    assert (Hpeak : 0 <= peakDisplacementRef (refs s')).
    { apply (onMotion_establishes_invariant sqrt ts e s ag Hag). }
    assert (Hzero : reported = 0).
    { rewrite Hrep. apply (round1_small _ Hpeak Hsmall). }
    split; [exact Hzero|].
    assert (Hk0 : k = 0%Z).
    { apply tenths_injective. rewrite <- Ek, Hzero. qc_decide. }
    rewrite Hconf, Hk0. destruct still; split; qc_decide.
Qed.

End ConfidenceFacts.

(** C5 as the specification words it fails: after one sample of upward
    motion the peak
    is 0.089955 cm, the formula on the peak gives 60.0157..., and the hook
    reports 60. *)
Lemma confidence_formula_counterexample :
  classifiedStationary Qcsqrt (riseEvent (Some 30)) (refs measuringEngine)
    = false /\
  peakDisplacementRef (refs risenEngine) = Q2Qc 0.089955 /\
  specConfidence (peakDisplacementRef (refs risenEngine)) false
    = Q2Qc (480125937 # 8000000) /\
  confidence (measurementState risenEngine) = Q2Qc 60 /\
  confidence (measurementState risenEngine)
    <> specConfidence (peakDisplacementRef (refs risenEngine)) false.
Proof.
  repeat split; qc_decide.
Qed.

(** *** Calibration *)

Lemma handler_app e acc : handler e acc = acc ++ handler e [].
Proof.
  unfold handler. destruct (accelerationIncludingGravity e).
  - reflexivity.
  - symmetry. apply app_nil_r.
Qed.

Lemma handler_fold es acc :
  fold_left (fun a (te : Qc * DeviceMotionEvent) => handler (snd te) a)
            es acc
  = acc ++ collected es.
Proof.
  unfold collected. revert acc.
  induction es as [|[ts e] es IH]; intros acc; cbn [fold_left snd].
  - symmetry. apply app_nil_r.
  - rewrite (IH (handler e acc)), (IH (handler e [])).
    rewrite (handler_app e acc), <- app_assoc. reflexivity.
Qed.

Lemma collected_cons ts e es :
  collected ((ts, e) :: es) = handler e [] ++ collected es.
Proof.
  unfold collected at 1. cbn [fold_left snd]. apply handler_fold.
Qed.

(** An empty collection means that no event of the window carried an
    acceleration. *)
Lemma collected_nil es :
  collected es = [] ->
  Forall (fun te => accelerationIncludingGravity (snd te) = None) es.
Proof.
  induction es as [|[ts e] es IH]; intros H; constructor;
    rewrite collected_cons in H; apply app_eq_nil in H; destruct H as [He H].
  - cbn [snd]. unfold handler in He.
    destruct (accelerationIncludingGravity e); [|reflexivity].
    destruct (app_eq_nil _ _ He) as [_ H']. discriminate H'.
  - apply IH, H.
Qed.

(** The listener of the calibration window collects exactly the
    accelerations that the events carry, in their order. *)
Lemma collected_window es : collected es = windowAccelerations es.
Proof.
  induction es as [|[ts e] es IH]; [reflexivity|].
  rewrite collected_cons, IH. unfold windowAccelerations at 2.
  cbn [flat_map snd]. fold (windowAccelerations es).
  apply (f_equal (fun l => l ++ windowAccelerations es)).
  unfold handler. destruct (accelerationIncludingGravity e) as [ag|];
    reflexivity.
Qed.

Lemma sumSamples_component (f : Vec3 -> Qc) samples acc :
  (forall a b, f (vecAdd a b) = f a + f b) ->
  f (fold_left vecAdd samples acc) = f acc + sumOf f samples.
Proof.
  intros Hf. revert acc.
  induction samples as [|v samples IH]; intros acc.
  - unfold sumOf. cbn [fold_left fold_right]. ring.
  - unfold sumOf. cbn [fold_left fold_right]. fold (sumOf f samples).
    rewrite IH, Hf. ring.
Qed.

(** The value [calibrate] stores is the arithmetic mean. *)
Lemma averageGravity_is_mean samples :
  averageGravity samples = specMean samples.
Proof.
  unfold averageGravity, specMean, sumSamples, vecScale.
  rewrite !sumSamples_component by reflexivity.
  cbn [vx vy vz]. unfold Qcdiv. f_equal; ring.
Qed.

Section CalibrationFacts.

Variable sqrt : Qc -> Qc.

Lemma onMotion_keeps ts e s :
  let s' := onMotion sqrt ts e s in
  hasCalibratedRef (refs s') = hasCalibratedRef (refs s) /\
  error s' = error s /\
  permissionGranted s' = permissionGranted s /\
  (accelerationIncludingGravity e = None ->
   gravityRef (refs s') = gravityRef (refs s)).
Proof.
  unfold onMotion.
  destruct (accelerationIncludingGravity e) as [ag|]; cbn;
    repeat split; discriminate.
Qed.

Lemma devicemotion_keeps ts e s :
  let s' := devicemotion sqrt ts e s in
  hasCalibratedRef (refs s') = hasCalibratedRef (refs s) /\
  error s' = error s /\
  permissionGranted s' = permissionGranted s /\
  (accelerationIncludingGravity e = None ->
   gravityRef (refs s') = gravityRef (refs s)).
Proof.
  unfold devicemotion. generalize (motionListeners (window s)).
  intros n. induction n as [|n IH].
  - repeat split.
  - rewrite Nat.iter_succ. destruct IH as (H1 & H2 & H3 & H4).
    destruct (onMotion_keeps ts e (Nat.iter n (onMotion sqrt ts e) s))
      as (K1 & K2 & K3 & K4).
    rewrite K1, K2, K3, H1, H2, H3. repeat split.
    intros Hnone. rewrite (K4 Hnone). apply H4, Hnone.
Qed.

(** The events of a window, delivered to the measurement listeners only. *)
Lemma collectWindow_split es s acc :
  fold_left
    (fun a (te : Qc * DeviceMotionEvent) =>
       (devicemotion sqrt (fst te) (snd te) (fst a),
        handler (snd te) (snd a)))
    es (s, acc)
  = (fold_left (fun st te => devicemotion sqrt (fst te) (snd te) st) es s,
     fold_left (fun a te => handler (snd te) a) es acc).
Proof.
  revert s acc. induction es as [|te es IH]; intros s acc; cbn.
  - reflexivity.
  - apply IH.
Qed.

Lemma deliveries_keep es s :
  let s' :=
    fold_left (fun st te => devicemotion sqrt (fst te) (snd te) st) es s in
  hasCalibratedRef (refs s') = hasCalibratedRef (refs s) /\
  error s' = error s /\
  permissionGranted s' = permissionGranted s /\
  (Forall (fun te => accelerationIncludingGravity (snd te) = None) es ->
   gravityRef (refs s') = gravityRef (refs s)).
Proof.
  revert s. induction es as [|[ts e] es IH]; intros s; cbn [fold_left].
  - repeat split.
  - destruct (IH (devicemotion sqrt ts e s)) as (H1 & H2 & H3 & H4).
    destruct (devicemotion_keeps ts e s) as (K1 & K2 & K3 & K4).
    cbn [fst snd]. rewrite H1, H2, H3, K1, K2, K3. repeat split.
    intros Hall. inversion Hall as [|x l Hx Hl]; subst.
    rewrite (H4 Hl). apply K4, Hx.
Qed.

(** C7.  With permission, [calibrate] collects the acceleration vectors
    that the events of the window carry.  When there is at least one,
    their arithmetic mean becomes the gravity estimate and the calibration
    flag is set; when there is none, the error is reported and neither the
    gravity estimate nor the calibration flag changes. *)
Theorem calibrate_mean_or_no_data o es s :
  permissionGranted s = true ->
  let s' := calibrate sqrt o es s in
  let samples := windowAccelerations es in
  (samples <> [] ->
     gravityRef (refs s') = specMean samples /\
     hasCalibratedRef (refs s') = true /\
     error s' = None /\
     isCalibrating (measurementState s') = false) /\
  (samples = [] ->
     error s' = Some "No sensor data during calibration"%string /\
     gravityRef (refs s') = gravityRef (refs s) /\
     hasCalibratedRef (refs s') = hasCalibratedRef (refs s) /\
     isCalibrating (measurementState s') = false).
Proof.
  intros Hperm s' samples. subst s' samples.
  rewrite <- collected_window. set (samples := collected es).
  unfold calibrate, collectWindow.
  rewrite Hperm. cbn [negb]. rewrite collectWindow_split.
  fold (collected es). fold samples.
  destruct (deliveries_keep es (beginCalibration s)) as (H1 & H2 & H3 & H4).
  set (s1 := fold_left _ es (beginCalibration s)) in *.
  split.
  - intros Hne. unfold finishCalibration.
    destruct samples as [|v samples'] eqn:Es; [contradiction|].
    cbn. rewrite averageGravity_is_mean, H2. repeat split.
  - intros Hnil. unfold finishCalibration. rewrite Hnil. cbn.
    rewrite H1, H4 by (apply collected_nil, Hnil). repeat split.
Qed.

End CalibrationFacts.

(** *** Where a measurement starts *)

Lemma startMeasurement_establishes_invariant s :
  hasCalibratedRef (refs s) = true ->
  Invariant (refs (startMeasurement s)) /\
  peakDisplacementRef (refs (startMeasurement s))
  = displacementRef (refs (startMeasurement s)).
Proof.
  intros H. rewrite (startMeasurement_calibrated s H). unfold Invariant.
  cbn. repeat split; qc_decide.
Qed.

(** A whole measurement: whatever the events, the cells are in range and
    the peak is the displacement. *)
Corollary measurement_in_range (sqrt : Qc -> Qc) es s :
  hasCalibratedRef (refs s) = true ->
  let final := processAll sqrt es (startMeasurement s) in
  Invariant (refs final) /\
  peakDisplacementRef (refs final) = displacementRef (refs final).
Proof.
  intros H final.
  destruct (startMeasurement_establishes_invariant s H) as [Hinv Heq].
  apply processAll_peak_is_displacement; assumption.
Qed.

(** Without permission [calibrate] only raises the permission prompt. *)
Lemma calibrate_without_permission (sqrt : Qc -> Qc) o es s :
  permissionGranted s = false ->
  calibrate sqrt o es s = requestSensorPermission o s.
Proof.
  intros H. unfold calibrate. rewrite H. reflexivity.
Qed.

(** *** Every observation point *)

Section ReachableFacts.

Variable sqrt : Qc -> Qc.

Lemma devicemotion_in_range ts e s :
  CellsInRange s -> CellsInRange (devicemotion sqrt ts e s).
Proof.
  unfold devicemotion. generalize (motionListeners (window s)).
  intros n Hs. induction n as [|n IH]; [exact Hs|].
  rewrite Nat.iter_succ. destruct IH as [Hinv Heq]. split.
  - apply onMotion_preserves_invariant, Hinv.
  - apply onMotion_peak_is_displacement; assumption.
Qed.

Lemma collectWindow_in_range es s :
  CellsInRange s -> CellsInRange (fst (collectWindow sqrt es s)).
Proof.
  unfold collectWindow. rewrite collectWindow_split. cbn [fst].
  revert s. induction es as [|te es IH]; intros s Hs; [exact Hs|].
  cbn [fold_left]. apply IH, devicemotion_in_range, Hs.
Qed.

(** X12.  The integrator cells are in range, and the peak is the
    displacement, in every state the hook can reach by mounting, asking
    for permission, calibrating, starting, receiving events, stopping and
    resetting, in any order. *)
Lemma reachable_in_range s :
  Reachable sqrt s ->
  Invariant (refs s) /\
  peakDisplacementRef (refs s) = displacementRef (refs s).
Proof.
  change (Reachable sqrt s -> CellsInRange s).
  induction 1 as [b | o s _ IH | o es s _ IH | s _ IH | ts e s _ IH
                 | s _ IH | s _ IH].
  - unfold CellsInRange, Invariant. cbn. repeat split; qc_decide.
  - destruct o; exact IH.
  - unfold calibrate. destruct (permissionGranted s); cbn [negb].
    + assert (Hb : CellsInRange (beginCalibration s)) by exact IH.
      pose proof (collectWindow_in_range es _ Hb) as Hw.
      destruct (collectWindow sqrt es (beginCalibration s))
        as [s' samples]. cbn [fst] in Hw.
      unfold finishCalibration. destruct samples; exact Hw.
    + destruct o; exact IH.
  - unfold startMeasurement. destruct (hasCalibratedRef (refs s));
      cbn [negb]; [|exact IH].
    unfold CellsInRange, Invariant. cbn. repeat split; qc_decide.
  - apply devicemotion_in_range, IH.
  - exact IH.
  - unfold CellsInRange, Invariant. cbn. repeat split; qc_decide.
Qed.

End ReachableFacts.

(** *** The square root of the concrete runs *)

(** [Qcsqrt] is exact on squares. *)
Lemma Qcsqrt_square (q : Qc) : Qcsqrt (q * q) = Qcabs q.
Proof.
  destruct q as [[n d] Hc]. apply Qc_is_canon.
  assert (Hg : Z.gcd n (Zpos d) = 1%Z) by (apply (Qred_iff (n # d)), Hc).
  assert (Hred : Qred ((n # d) * (n # d)) = (n * n # d * d)).
  { apply Qred_iff. cbn [Qnum Qden Qmult].
    change (Zpos (d * d)) with (Zpos d * Zpos d)%Z.
    change (Z.coprime (n * n) (Zpos d * Zpos d)).
    apply Z.coprime_mul_l; apply Z.coprime_mul_r; exact Hg. }
  assert (Hn : Z.sqrt (n * n) = Z.abs n).
  { rewrite <- Z.abs_square. apply Z.sqrt_square, Z.abs_nonneg. }
  assert (Hd : Pos.sqrt (d * d) = d).
  { assert (H : Z.sqrt (Zpos d * Zpos d) = Zpos d)
      by (apply Z.sqrt_square; lia).
    cbn in H. injection H as H. exact H. }
  unfold Qcsqrt, Qcmult, Q2Qc. cbn [this]. rewrite Hred. cbn [Qnum Qden].
  rewrite Qred_correct, Hn, Hd. reflexivity.
Qed.

(** *** The theorems at work on the concrete sessions *)

(** C1 on one sample of upward motion followed by eleven at rest. *)
Lemma integrator_invariant_witness :
  Invariant (refs measuringEngine) /\
  Invariant
    (refs (processAll Qcsqrt
             ((Q2Qc 2000, riseEvent (Some 30)) :: restStream)
             measuringEngine)).
Proof.
  assert (H : Invariant (refs measuringEngine))
    by (unfold Invariant; repeat split; qc_decide).
  split; [exact H|].
  apply (integrator_invariant Qcsqrt
           ((Q2Qc 2000, riseEvent (Some 30)) :: restStream)
           measuringEngine H).
Defined.

(** C8 on two consecutive samples of upward motion. *)
Lemma peak_monotone_witness :
  Invariant (refs measuringEngine) /\
  peakDisplacementRef (refs risenEngine)
  <= peakDisplacementRef
       (refs (onMotion Qcsqrt (Q2Qc 2030) (riseEvent (Some 30))
                risenEngine)).
Proof.
  assert (H : Invariant (refs measuringEngine))
    by (unfold Invariant; repeat split; qc_decide).
  split; [exact H|].
  apply (peak_monotone Qcsqrt (Q2Qc 2000) (riseEvent (Some 30))
           (Q2Qc 2030) (riseEvent (Some 30)) measuringEngine H).
Defined.

(** C10 on the same stream, followed by one more sample at rest. *)
Lemma displacement_monotone_peak_equal_witness :
  let s1 := processAll Qcsqrt restStream risenEngine in
  let s2 := onMotion Qcsqrt (Q2Qc 2540) (restEvent (Some 30)) s1 in
  (Invariant (refs risenEngine) /\
   peakDisplacementRef (refs risenEngine)
   = displacementRef (refs risenEngine)) /\
  peakDisplacementRef (refs s1) = displacementRef (refs s1) /\
  displacementRef (refs s1) <= displacementRef (refs s2) /\
  peakDisplacementRef (refs s2) = displacementRef (refs s2).
Proof.
  assert (H : Invariant (refs risenEngine))
    by (unfold Invariant; repeat split; qc_decide).
  assert (E : peakDisplacementRef (refs risenEngine)
              = displacementRef (refs risenEngine)) by qc_decide.
  split; [split; assumption|].
  apply (displacement_monotone_peak_equal Qcsqrt restStream (Q2Qc 2540)
           (restEvent (Some 30)) risenEngine H E).
Defined.

(** C2 on ten samples at rest, 50 ms each: the velocity of the rise is
    gone. *)
Lemma zupt_by_sample_count_witness :
  velocityRef (refs risenEngine) = Q2Qc 2.9985 /\
  stationarySpan Qcsqrt (Q2Qc 0.05) steadyRestStream risenEngine /\
  Q2Qc 0.5 <= JS.ofNat (List.length steadyRestStream) * Q2Qc 0.05 /\
  velocityRef
    (refs (processAll Qcsqrt
             ([(Q2Qc 2000, riseEvent (Some 30))] ++ steadyRestStream)
             measuringEngine)) = 0.
Proof.
  assert (Hspan : stationarySpan Qcsqrt (Q2Qc 0.05) steadyRestStream
                    (processAll Qcsqrt [(Q2Qc 2000, riseEvent (Some 30))]
                       measuringEngine)).
  { change (processAll Qcsqrt [(Q2Qc 2000, riseEvent (Some 30))]
              measuringEngine) with risenEngine.
    unfold steadyRestStream. cbn [map seq stationarySpan].
    repeat split; qc_decide. }
  assert (Hdur : Q2Qc 0.5
                 <= JS.ofNat (List.length steadyRestStream) * Q2Qc 0.05)
    by qc_decide.
  assert (Hne : steadyRestStream <> []) by discriminate.
  split; [qc_decide|]. split; [exact Hspan|]. split; [exact Hdur|].
  apply (proj2 (zupt_by_sample_count Qcsqrt) (Q2Qc 0.05)
           [(Q2Qc 2000, riseEvent (Some 30))]%list steadyRestStream
           measuringEngine Hne Hspan Hdur).
Defined.

(** C3 on the sample of upward motion: 0.99 m/s^2 of candidate linear
    acceleration freezes the estimate. *)
Lemma gravity_freeze_witness :
  aLinMagCandidate Qcsqrt (gravityRef (refs measuringEngine))
    (mkVec3 0 0 (Q2Qc 8.81)) = Q2Qc 0.99 /\
  gravityRef (refs risenEngine) = gravityRef (refs measuringEngine).
Proof.
  split; [qc_decide|].
  apply (proj1 (gravity_freeze Qcsqrt (Q2Qc 2000) (riseEvent (Some 30))
                  measuringEngine _ eq_refl)).
  left. intros H. unfold Qclt, Qlt in H. vm_compute in H. discriminate H.
Defined.


(** C5 on the sample of upward motion, and on a sample at rest at 194 cm,
    where the exactly computed confidence would be 97. *)
Lemma confidence_on_reported_height_witness :
  (heightCm (measurementState risenEngine)
   = round1 (peakDisplacementRef (refs risenEngine)) /\
   heightCm (measurementState risenEngine) <> Q2Qc 194 /\
   confidence (measurementState risenEngine)
   = round1 (specConfidence (heightCm (measurementState risenEngine))
               (classifiedStationary Qcsqrt (riseEvent (Some 30))
                  (refs measuringEngine)))) /\
  (let s' := onMotion Qcsqrt (Q2Qc 2020) (restEvent (Some 20)) restingAt194 in
   classifiedStationary Qcsqrt (restEvent (Some 20)) (refs restingAt194)
   = true /\
   heightCm (measurementState s') = Q2Qc 194 /\
   confidence (measurementState s') = Q2Qc 96.9 /\
   round1 (specConfidence (Q2Qc 194) true) = Q2Qc 97).
Proof.
  split.
  - destruct (confidence_on_reported_height Qcsqrt (Q2Qc 2000)
                (riseEvent (Some 30)) measuringEngine _ eq_refl)
      as (H1 & H2 & _).
    assert (Hne : heightCm (measurementState risenEngine) <> Q2Qc 194)
      by qc_decide.
    split; [exact H1|]. split; [exact Hne | exact (H2 Hne)].
  - intros s'.
    destruct (confidence_on_reported_height Qcsqrt (Q2Qc 2020)
                (restEvent (Some 20)) restingAt194 _ eq_refl)
      as (_ & _ & H3 & _).
    assert (Hst : classifiedStationary Qcsqrt (restEvent (Some 20))
                    (refs restingAt194) = true)
      by (vm_compute; reflexivity).
    assert (H194 : heightCm (measurementState s') = Q2Qc 194) by qc_decide.
    destruct (H3 H194) as [Hshown _]. rewrite Hst in Hshown.
    split; [exact Hst|]. split; [exact H194|]. split; [exact Hshown|].
    qc_decide.
Defined.

(** A measurement in which the device never moves reports height 0 with
    confidence 63. *)
Lemma flat_line_scenario :
  let final := processAll Qcsqrt flatStream measuringEngine in
  peakDisplacementRef (refs final) = 0 /\
  velocityRef (refs final) = 0 /\
  heightCm (measurementState final) = 0 /\
  confidence (measurementState final) = Q2Qc 63.
Proof.
  cbv zeta. repeat split; qc_decide.
Qed.

(** C6 before and after the calibration. *)
Lemma startMeasurement_contract_witness :
  error (startMeasurement initialEngine)
  = Some "Please calibrate first"%string /\
  refs (startMeasurement initialEngine) = refs initialEngine /\
  velocityRef (refs measuringEngine) = 0 /\
  displacementRef (refs measuringEngine) = 0 /\
  peakDisplacementRef (refs measuringEngine) = 0.
Proof.
  pose proof (proj1 (startMeasurement_contract Qcsqrt initialEngine [])
                eq_refl) as Hidle.
  pose proof (proj2 (startMeasurement_contract Qcsqrt calibratedEngine [])
                eq_refl) as [(_ & _ & Hv & Hd & Hp & _) _].
  rewrite Hidle. cbn [error refs].
  repeat split; assumption.
Defined.

(** C7 on the calibration of the concrete sessions, and on a window in
    which nothing arrives. *)
Lemma calibrate_mean_or_no_data_witness :
  let granted := requestSensorPermission Granted initialEngine in
  let arrivals :=
    [(Q2Qc 100, restEvent (Some 20)); (Q2Qc 120, restEvent (Some 20))] in
  permissionGranted granted = true /\
  windowAccelerations arrivals
  = [mkVec3 0 0 (Q2Qc 9.81); mkVec3 0 0 (Q2Qc 9.81)]%list /\
  gravityRef (refs calibratedEngine)
  = specMean (windowAccelerations arrivals) /\
  vz (gravityRef (refs calibratedEngine)) = Q2Qc 9.81 /\
  hasCalibratedRef (refs calibratedEngine) = true /\
  error (calibrate Qcsqrt Granted [] granted)
  = Some "No sensor data during calibration"%string /\
  hasCalibratedRef (refs (calibrate Qcsqrt Granted [] granted)) = false.
Proof.
  intros granted arrivals.
  assert (Hperm : permissionGranted granted = true) by reflexivity.
  destruct (calibrate_mean_or_no_data Qcsqrt Granted arrivals granted Hperm)
    as [Hsome _].
  destruct (calibrate_mean_or_no_data Qcsqrt Granted [] granted Hperm)
    as [_ Hnone].
  destruct Hsome as (Hg & Hc & _); [discriminate|].
  destruct (Hnone eq_refl) as (He & _ & Hc' & _).
  split; [exact Hperm|]. split; [reflexivity|]. split; [exact Hg|].
  split; [qc_decide|].
  repeat split; assumption.
Defined.

(** ** Further properties of the hook *)

(** As [qc_to_q], with quotients by constants. *)
Ltac qc_to_q_div :=
  unfold Qcle, Qclt in *;
  repeat match goal with
  | |- @eq Qc _ _ => apply Qc_is_canon
  | H : @eq Qc _ _ |- _ => apply (f_equal this) in H
  end;
  repeat
    (rewrite ?this_add, ?this_mul, ?this_sub, ?this_opp, ?this_div,
       ?this_Q2Qc in * );
  unfold Qdiv in *;
  repeat match goal with
  | |- context [Qinv (?n # ?d)] =>
      let c := eval vm_compute in (Qinv (n # d)) in
      change (Qinv (n # d)) with c
  | H : context [Qinv (?n # ?d)] |- _ =>
      let c := eval vm_compute in (Qinv (n # d)) in
      change (Qinv (n # d)) with c in H
  end.

(** *** Rounding and unit conversion *)

Lemma round1_floor_bounds (x : Qc) :
  exists k : Z,
    round1 x = Q2Qc (inject_Z k) / Q2Qc 10 /\
    (inject_Z k <= this x * 10 + 0.5)%Q /\
    (this x * 10 + 0.5 < inject_Z k + 1)%Q.
Proof.
  exists (Qfloor (this (x * Q2Qc 10 + Q2Qc 0.5))).
  split; [apply round1_tenths|].
  pose proof (Qfloor_le (this (x * Q2Qc 10 + Q2Qc 0.5))) as Hlo.
  pose proof (Qlt_floor (this (x * Q2Qc 10 + Q2Qc 0.5))) as Hhi.
  rewrite inject_Z_plus in Hhi.
  generalize dependent (Qfloor (this (x * Q2Qc 10 + Q2Qc 0.5))).
  intros k Hlo Hhi.
  rewrite this_add, this_mul, !this_Q2Qc in Hlo, Hhi.
  change (inject_Z 1) with 1%Q in Hhi. split; assumption.
Qed.

(** Rounding to one decimal moves a number by at most 0.05. *)
Lemma round1_error (x : Qc) :
  x - Q2Qc 0.05 <= round1 x /\ round1 x <= x + Q2Qc 0.05.
Proof.
  destruct (round1_floor_bounds x) as (k & E & Hlo & Hhi). rewrite E.
  split; qc_to_q_div; lra.
Qed.

Lemma round1_monotone (x y : Qc) : x <= y -> round1 x <= round1 y.
Proof.
  intros H. rewrite !round1_tenths.
  assert (Hk : (Qfloor (this (x * Q2Qc 10 + Q2Qc 0.5))
                <= Qfloor (this (y * Q2Qc 10 + Q2Qc 0.5)))%Z).
  { apply Qfloor_resp_le. qc_to_q. lra. }
  rewrite Zle_Qle in Hk.
  generalize dependent (Qfloor (this (x * Q2Qc 10 + Q2Qc 0.5))).
  generalize dependent (Qfloor (this (y * Q2Qc 10 + Q2Qc 0.5))).
  intros ky kx Hk. qc_to_q_div. lra.
Qed.

(** On a non-negative quotient the remainder is the one of [Math.floor]. *)
Lemma rem_floor (a b : Qc) :
  0 <= a / b -> JS.rem a b = a - b * JS.floor (a / b).
Proof.
  intros H. unfold JS.rem, JS.floor. cbv zeta. do 4 f_equal.
  destruct (a / b) as [[n d] Hc]. unfold Qcle, Qle in H. cbn in H.
  cbn [this Qnum Qden Qfloor]. apply Z.quot_div_nonneg; lia.
Qed.

Lemma floor_bounds (x : Qc) :
  exists k : Z,
    JS.floor x = Q2Qc (inject_Z k) /\
    (inject_Z k <= this x)%Q /\ (this x < inject_Z k + 1)%Q.
Proof.
  exists (Qfloor (this x)). split; [reflexivity|].
  pose proof (Qfloor_le (this x)) as Hlo.
  pose proof (Qlt_floor (this x)) as Hhi.
  rewrite inject_Z_plus in Hhi. change (inject_Z 1) with 1%Q in Hhi.
  split; assumption.
Qed.

(** X1.  For a non-negative length in centimetres, [toFeetInches] gives a
    whole, non-negative number of feet, between 0 and 12 inches (12.0 is
    possible: the rounding of the inches is not carried into the feet),
    and the reading [12 * feet + inches] is within 0.05 inch of the length
    in inches; the rounded centimetres are within 0.05 cm of the length. *)
Theorem toFeetInches_accurate (c : Qc) :
  0 <= c ->
  let fi := toFeetInches c in
  let totalInches := c / Q2Qc 2.54 in
  (exists k : Z, (0 <= k)%Z /\ feet fi = Q2Qc (inject_Z k)) /\
  (0 <= inches fi /\ inches fi <= Q2Qc 12) /\
  (totalInches - Q2Qc 0.05 <= Q2Qc 12 * feet fi + inches fi /\
   Q2Qc 12 * feet fi + inches fi <= totalInches + Q2Qc 0.05) /\
  (c - Q2Qc 0.05 <= cm fi /\ cm fi <= c + Q2Qc 0.05).
Proof.
  intros Hc fi t. subst fi. unfold toFeetInches. cbv zeta. fold t.
  cbn [feet inches cm].
  assert (Ht : 0 <= t) by (subst t; qc_to_q_div; lra).
  assert (Hq : 0 <= t / Q2Qc 12) by (qc_to_q_div; lra).
  rewrite (rem_floor t (Q2Qc 12) Hq).
  destruct (floor_bounds (t / Q2Qc 12)) as (k & Ek & Hlo & Hhi).
  rewrite Ek. clearbody t.
  fold (round1 (t - Q2Qc 12 * Q2Qc (inject_Z k))). fold (round1 c).
  set (r := t - Q2Qc 12 * Q2Qc (inject_Z k)).
  assert (Hr : 0 <= r /\ r < Q2Qc 12).
  { subst r. rewrite this_div, this_Q2Qc in Hlo, Hhi. unfold Qdiv in *.
    change (/ 12)%Q with (1 # 12)%Q in *. split; qc_to_q; lra. }
  assert (Hk : (0 <= k)%Z).
  { assert (H : (inject_Z (-1) < inject_Z k)%Q).
    { rewrite this_div, this_Q2Qc in Hhi. unfold Qdiv in Hhi.
      change (/ 12)%Q with (1 # 12)%Q in Hhi.
      change (inject_Z (-1)) with (-1)%Q. qc_to_q. lra. }
    rewrite <- Zlt_Qlt in H. lia. }
  assert (Hin : 0 <= round1 r /\ round1 r <= Q2Qc 12).
  { split.
    - replace 0 with (round1 0) by qc_decide. apply round1_monotone, Hr.
    - replace (Q2Qc 12) with (round1 (Q2Qc 12)) by qc_decide.
      apply round1_monotone, Qclt_le_weak, Hr. }
  pose proof (round1_error r) as [Hr1 Hr2].
  pose proof (round1_error c) as [Hc1 Hc2].
  split; [exists k; split; [exact Hk | reflexivity]|].
  split; [exact Hin|]. split; [|split; assumption].
  subst r. clear Hin Hr Hlo Hhi Ek.
  generalize dependent (round1 (t - Q2Qc 12 * Q2Qc (inject_Z k))).
  intros i Hi1 Hi2. split; qc_to_q; lra.
Qed.

(** X1 on 170 cm, which reads 5 feet 6.9 inches. *)
Lemma toFeetInches_accurate_witness :
  0 <= Q2Qc 170 /\
  0 <= inches (toFeetInches (Q2Qc 170)) /\
  inches (toFeetInches (Q2Qc 170)) <= Q2Qc 12.
Proof.
  assert (H : 0 <= Q2Qc 170) by qc_decide.
  split; [exact H|].
  exact (proj1 (proj2 (toFeetInches_accurate (Q2Qc 170) H))).
Defined.

(** *** What a sample reports *)

Section ReportFacts.

Variable sqrt : Qc -> Qc.

(** X2.  After every processed sample the reported height is the peak to
    within 0.05 cm and lies in [[0, 300]]. *)
Theorem reported_height_range ts e s ag :
  accelerationIncludingGravity e = Some ag ->
  let s' := onMotion sqrt ts e s in
  let h := heightCm (measurementState s') in
  (0 <= h /\ h <= Q2Qc 300) /\
  (peakDisplacementRef (refs s') - Q2Qc 0.05 <= h /\
   h <= peakDisplacementRef (refs s') + Q2Qc 0.05).
Proof.
  intros Hag s' h.
  destruct (onMotion_display sqrt ts e s ag Hag) as (_ & _ & _ & Hh & _).
  fold s' in Hh. subst h. rewrite Hh.
  destruct (onMotion_establishes_invariant sqrt ts e s ag Hag)
    as (_ & _ & Hp0 & Hp300 & _).
  fold s' in Hp0, Hp300. split; [split|apply round1_error].
  - replace 0 with (round1 0) by qc_decide. apply round1_monotone, Hp0.
  - replace (Q2Qc 300) with (round1 (Q2Qc 300)) by qc_decide.
    apply round1_monotone, Hp300.
Qed.

(** X3.  After every processed sample the reported confidence lies in
    [[60, 98]], and in [[63, 98]] when the sample is stationary; the cap at
    99.5 of the source is never reached. *)
Theorem reported_confidence_range ts e s ag :
  accelerationIncludingGravity e = Some ag ->
  let s' := onMotion sqrt ts e s in
  let c := confidence (measurementState s') in
  Q2Qc 60 <= c /\ c <= Q2Qc 98 /\
  (classifiedStationary sqrt e (refs s) = true -> Q2Qc 63 <= c) /\
  (classifiedStationary sqrt e (refs s) = false -> c <= Q2Qc 95).
Proof.
  intros Hag s' c.
  destruct (onMotion_display sqrt ts e s ag Hag) as (k & Hk & _ & _ & Hc).
  fold s' in Hc. subst c. rewrite Hc.
  destruct (confidence_shown k (classifiedStationary sqrt e (refs s)) Hk)
    as (_ & _ & H60 & H98 & H63 & H95).
  repeat split; assumption.
Qed.

End ReportFacts.

(** X2 on one more sample after a climb of thirty. *)
Lemma reported_height_range_witness :
  let s' :=
    onMotion Qcsqrt (Q2Qc 1600) (riseEvent None)
      (processAll Qcsqrt climbStream measuringEngine) in
  let h := heightCm (measurementState s') in
  (0 <= h /\ h <= Q2Qc 300) /\
  (peakDisplacementRef (refs s') - Q2Qc 0.05 <= h /\
   h <= peakDisplacementRef (refs s') + Q2Qc 0.05).
Proof.
  exact (reported_height_range Qcsqrt (Q2Qc 1600) (riseEvent None)
           (processAll Qcsqrt climbStream measuringEngine) _ eq_refl).
Defined.

(** X3 on the same sample, which is not stationary. *)
Lemma reported_confidence_range_witness :
  let s' :=
    onMotion Qcsqrt (Q2Qc 1600) (riseEvent None)
      (processAll Qcsqrt climbStream measuringEngine) in
  let c := confidence (measurementState s') in
  Q2Qc 60 <= c /\ c <= Q2Qc 95.
Proof.
  intros s' c.
  destruct (reported_confidence_range Qcsqrt (Q2Qc 1600) (riseEvent None)
              (processAll Qcsqrt climbStream measuringEngine) _ eq_refl)
    as (Hlo & _ & _ & Hhi).
  split; [exact Hlo|]. apply Hhi. vm_compute. reflexivity.
Defined.

(** *** The gravity estimate *)

Section GravityHullFacts.

Variable sqrt : Qc -> Qc.

(** Frozen or updated, every component of the new estimate lies between
    the previous estimate and the measurement. *)
Lemma gNew_between e gPrev gMeas :
  let g := gNew sqrt e gPrev gMeas in
  between (vx gPrev) (vx g) (vx gMeas) /\
  between (vy gPrev) (vy g) (vy gMeas) /\
  between (vz gPrev) (vz g) (vz gMeas).
Proof.
  assert (H : forall a b : Qc,
             between a (a * (1 - Q2Qc 0.01) + b * Q2Qc 0.01) b /\
             between a a b).
  { intros a b. unfold between.
    destruct (Qclt_le_dec a b) as [Hab | Hab]; split;
      (left; split; qc_to_q; lra) || (right; split; qc_to_q; lra). }
  cbv zeta. unfold gNew. destruct (allowGUpdate sqrt e gPrev gMeas).
  - unfold gCandidate, vecAdd, vecScale, lpf. cbn [vx vy vz].
    repeat split; apply H.
  - repeat split; apply H.
Qed.

(** X4.  The gravity estimate never leaves the range of what was measured:
    if the estimate and every acceleration of a stream lie in a box, the
    estimate after the stream lies in that box. *)
Theorem gravity_stays_in_measured_box lo hi es s :
  inBox lo hi (gravityRef (refs s)) ->
  measuredInBox lo hi es ->
  inBox lo hi (gravityRef (refs (processAll sqrt es s))).
Proof.
  revert s. induction es as [|[ts e] es IH]; intros s Hg Hes.
  - exact Hg.
  - inversion Hes as [|x l He Hrest]; subst. cbn [snd] in He.
    rewrite processAll_cons. cbn [fst snd]. apply IH; [|exact Hrest].
    unfold onMotion. destruct (accelerationIncludingGravity e) as [ag|].
    + cbn [refs gravityRef]. specialize (He ag eq_refl).
      destruct (gNew_between e (gravityRef (refs s)) (accelVec ag))
        as (Bx & By & Bz).
      destruct Hg as ((G1 & G2) & (G3 & G4) & (G5 & G6)).
      destruct He as ((M1 & M2) & (M3 & M4) & (M5 & M6)).
      generalize dependent (gNew sqrt e (gravityRef (refs s)) (accelVec ag)).
      intros g Bx By Bz. unfold between in *. unfold inBox.
      repeat split;
        first [ destruct Bx as [[? ?]|[? ?]]; qc_to_q; lra
              | destruct By as [[? ?]|[? ?]]; qc_to_q; lra
              | destruct Bz as [[? ?]|[? ?]]; qc_to_q; lra ].
    + exact Hg.
Qed.

End GravityHullFacts.

(** X4 on the sample of upward motion followed by the eleven at rest: the
    z component stays between 8.81 and 9.81. *)
Lemma gravity_stays_in_measured_box_witness :
  let lo := mkVec3 0 0 (Q2Qc 8.81) in
  let hi := mkVec3 0 0 (Q2Qc 9.81) in
  let es := (Q2Qc 2000, riseEvent (Some 30)) :: restStream in
  inBox lo hi (gravityRef (refs measuringEngine)) /\
  measuredInBox lo hi es /\
  inBox lo hi (gravityRef (refs (processAll Qcsqrt es measuringEngine))).
Proof.
  intros lo hi es.
  assert (Hg : inBox lo hi (gravityRef (refs measuringEngine)))
    by (unfold inBox; repeat split; qc_decide).
  assert (Hes : measuredInBox lo hi es).
  { unfold measuredInBox, es, restStream. cbn [map seq app].
    apply Forall_forall. intros te Hin. cbn [In] in Hin.
    repeat (destruct Hin as [<- | Hin]; [cbn [snd]; intros ag Hag;
      injection Hag as <-; unfold inBox; repeat split; qc_decide|]).
    contradiction. }
  split; [exact Hg|]. split; [exact Hes|].
  exact (gravity_stays_in_measured_box Qcsqrt lo hi es measuringEngine Hg Hes).
Defined.

(** *** Displacement and counters *)

Section MoreIntegratorFacts.

Variable sqrt : Qc -> Qc.

(** X5.  Only upward velocity moves the height: when the velocity after a
    sample is zero or negative (in particular after a zero-velocity
    update), displacement and peak are exactly what they were. *)
Theorem displacement_moves_only_upwards ts e s ag :
  accelerationIncludingGravity e = Some ag ->
  Invariant (refs s) ->
  let s' := onMotion sqrt ts e s in
  velocityRef (refs s') <= 0 ->
  displacementRef (refs s') = displacementRef (refs s) /\
  peakDisplacementRef (refs s') = peakDisplacementRef (refs s).
Proof.
  intros Hag (Hd0 & Hd300 & Hp0 & Hp300 & Hdp). unfold onMotion.
  rewrite Hag. cbn.
  match goal with
  | |- context [JS.max 0 ?x] => generalize x; intro v
  end.
  generalize (clampDt (rawDt ts e (refs s))). intros dt Hv.
  destruct (max_spec 0 v) as [[Hv0 E] | [Hv0 E]]; rewrite E.
  - assert (v = 0) by (apply Qcle_antisym; assumption). subst v.
    replace (displacementRef (refs s) + 0 * dt)
      with (displacementRef (refs s)) by ring.
    js_cases; split; try reflexivity; qc_to_q; lra.
  - replace (displacementRef (refs s) + 0 * dt)
      with (displacementRef (refs s)) by ring.
    js_cases; split; try reflexivity; qc_to_q; lra.
Qed.

Lemma onMotion_counts ts e s :
  let s' := onMotion sqrt ts e s in
  totalSamplesRef (refs s') =
    ((if hasAcceleration e then 1 else 0) + totalSamplesRef (refs s))%nat /\
  (stationarySamplesRef (refs s) <= totalSamplesRef (refs s) ->
   stationarySamplesRef (refs s') <= totalSamplesRef (refs s'))%nat.
Proof.
  unfold onMotion, hasAcceleration.
  destruct (accelerationIncludingGravity e) as [ag|]; cbn.
  - split; [reflexivity|]. intros H.
    destruct (stationary sqrt e _ (accelVec ag)); lia.
  - split; [reflexivity | trivial].
Qed.

End MoreIntegratorFacts.

(** X5 on a sample at rest that follows the flat measurement, where the
    zero-velocity update holds the velocity at 0. *)
Lemma displacement_moves_only_upwards_witness :
  let s := processAll Qcsqrt flatStream measuringEngine in
  let s' := onMotion Qcsqrt (Q2Qc 4020) (restEvent (Some 20)) s in
  Invariant (refs s) /\ velocityRef (refs s') <= 0 /\
  displacementRef (refs s') = displacementRef (refs s) /\
  peakDisplacementRef (refs s') = peakDisplacementRef (refs s).
Proof.
  intros s s'.
  assert (Hinv : Invariant (refs s))
    by (unfold Invariant; repeat split; qc_decide).
  assert (Hv : velocityRef (refs s') <= 0) by qc_decide.
  split; [exact Hinv|]. split; [exact Hv|].
  exact (displacement_moves_only_upwards Qcsqrt (Q2Qc 4020)
           (restEvent (Some 20)) s _ eq_refl Hinv Hv).
Defined.


(** *** Listeners *)

Section ListenerFacts.

Variable sqrt : Qc -> Qc.

Lemma onMotion_window ts e s : window (onMotion sqrt ts e s) = window s.
Proof.
  unfold onMotion. destruct (accelerationIncludingGravity e); reflexivity.
Qed.

Lemma iter_onMotion_window ts e n s :
  window (Nat.iter n (onMotion sqrt ts e) s) = window s.
Proof.
  induction n as [|n IH]; [reflexivity|].
  rewrite Nat.iter_succ, onMotion_window. exact IH.
Qed.

Lemma devicemotion_window ts e s :
  window (devicemotion sqrt ts e s) = window s.
Proof. apply iter_onMotion_window. Qed.

Lemma deliverAll_window es s : window (deliverAll sqrt es s) = window s.
Proof.
  revert s. induction es as [|te es IH]; intros s; [reflexivity|].
  unfold deliverAll in *. cbn [fold_left].
  rewrite IH. apply devicemotion_window.
Qed.

Lemma deliverAll_hasCalibrated es s :
  hasCalibratedRef (refs (deliverAll sqrt es s)) = hasCalibratedRef (refs s).
Proof. apply (deliveries_keep sqrt es s). Qed.

(** Without a listener an event changes nothing. *)
Lemma deliverAll_unheard es s :
  motionListeners (window s) = 0%nat -> deliverAll sqrt es s = s.
Proof.
  intros H. induction es as [|te es IH]; [reflexivity|].
  unfold deliverAll in *. cbn [fold_left]. unfold devicemotion at 2.
  rewrite H. exact IH.
Qed.

(** X7.  A measurement that is started from a window without listeners
    and then stopped leaves no listener behind: whatever events arrived in
    between, the events that arrive after [stopMeasurement] change
    nothing. *)
Theorem stopMeasurement_detaches es s :
  hasCalibratedRef (refs s) = true ->
  motionListeners (window s) = 0%nat ->
  let stopped :=
    stopMeasurement (deliverAll sqrt es (startMeasurement s)) in
  motionListeners (window stopped) = 0%nat /\
  forall later, deliverAll sqrt later stopped = stopped.
Proof.
  intros Hcal Hw stopped.
  assert (H0 : motionListeners (window stopped) = 0%nat).
  { subst stopped. cbn [stopMeasurement window].
    rewrite deliverAll_window, (startMeasurement_calibrated s Hcal).
    cbn. rewrite Hw. reflexivity. }
  split; [exact H0|]. intros later. apply deliverAll_unheard, H0.
Qed.

Lemma iter_onMotion_counts ts e n s :
  totalSamplesRef (refs (Nat.iter n (onMotion sqrt ts e) s)) =
  ((if hasAcceleration e then n else 0) + totalSamplesRef (refs s))%nat.
Proof.
  induction n as [|n IH].
  - destruct (hasAcceleration e); reflexivity.
  - rewrite Nat.iter_succ.
    rewrite (proj1 (onMotion_counts sqrt ts e _)), IH.
    destruct (hasAcceleration e); lia.
Qed.

Lemma iter_onMotion_stationary ts e n s :
  (stationarySamplesRef (refs s) <= totalSamplesRef (refs s))%nat ->
  (stationarySamplesRef (refs (Nat.iter n (onMotion sqrt ts e) s))
   <= totalSamplesRef (refs (Nat.iter n (onMotion sqrt ts e) s)))%nat.
Proof.
  intros H. induction n as [|n IH]; [exact H|].
  rewrite Nat.iter_succ. apply (onMotion_counts sqrt ts e _), IH.
Qed.

(** X6.  Every registered listener counts every event that carries an
    acceleration: over a stream of events delivered to the hook the sample
    counter grows by the number of such events times the number of
    registered listeners, which is that number of events when one
    listener is registered; and the counter of consecutive stationary
    samples never exceeds it. *)
Theorem sample_counters es s :
  (stationarySamplesRef (refs s) <= totalSamplesRef (refs s))%nat ->
  let s' := deliverAll sqrt es s in
  totalSamplesRef (refs s') =
    (motionListeners (window s) * countAccelerations es
     + totalSamplesRef (refs s))%nat /\
  (stationarySamplesRef (refs s') <= totalSamplesRef (refs s'))%nat.
Proof.
  revert s. induction es as [|[ts e] es IH]; intros s Hle.
  - cbv zeta. unfold countAccelerations. cbn.
    split; [lia | exact Hle].
  - cbv zeta. unfold deliverAll in *. cbn [fold_left fst snd].
    pose proof (iter_onMotion_stationary ts e (motionListeners (window s))
                  s Hle) as Hs.
    fold (devicemotion sqrt ts e s) in Hs.
    destruct (IH (devicemotion sqrt ts e s) Hs) as [IHt IHs].
    split; [|exact IHs]. rewrite IHt, devicemotion_window.
    unfold devicemotion at 1. rewrite iter_onMotion_counts.
    unfold countAccelerations. cbn [filter snd].
    destruct (hasAcceleration e); cbn [List.length]; lia.
Qed.

(** X8.  [startMeasurement] registers a new listener each time but the
    hook remembers only the last one: after two starts, [stopMeasurement]
    removes one listener and neither it nor [resetMeasurement] can remove
    the other, which goes on handling every event. *)
Theorem second_start_leaks_listener s :
  hasCalibratedRef (refs s) = true ->
  let n := motionListeners (window s) in
  let stopped := stopMeasurement (startMeasurement (startMeasurement s)) in
  motionListeners (window stopped) = S n /\
  motionListeners (window (stopMeasurement stopped)) = S n /\
  motionListeners (window (resetMeasurement stopped)) = S n /\
  forall ts e,
    hasAcceleration e = true ->
    totalSamplesRef (refs (devicemotion sqrt ts e stopped)) =
    (S n + totalSamplesRef (refs stopped))%nat.
Proof.
  intros Hcal n stopped.
  assert (Hcal' : hasCalibratedRef (refs (startMeasurement s)) = true).
  { rewrite (startMeasurement_calibrated s Hcal). reflexivity. }
  assert (Hn : motionListeners (window stopped) = S n).
  { subst stopped. rewrite (startMeasurement_calibrated _ Hcal').
    rewrite (startMeasurement_calibrated s Hcal). reflexivity. }
  assert (Hh : imu_onMotion (window stopped) = false) by reflexivity.
  split; [exact Hn|]. split; [|split].
  - cbn [stopMeasurement window detachListeners motionListeners].
    rewrite Hh. exact Hn.
  - cbn [resetMeasurement window detachListeners motionListeners].
    rewrite Hh. exact Hn.
  - intros ts e He. unfold devicemotion.
    rewrite iter_onMotion_counts, He, Hn. reflexivity.
Qed.

End ListenerFacts.

(** X6 on the stream of the concrete session, with one listener and with
    the two listeners that a second start leaves. *)
Lemma sample_counters_witness :
  motionListeners (window risenEngine) = 1%nat /\
  totalSamplesRef (refs (deliverAll Qcsqrt restStream risenEngine))
  = (countAccelerations restStream + 1)%nat /\
  motionListeners (window (startMeasurement measuringEngine)) = 2%nat /\
  totalSamplesRef
    (refs (deliverAll Qcsqrt restStream (startMeasurement measuringEngine)))
  = (2 * countAccelerations restStream)%nat.
Proof.
  assert (H1 : (stationarySamplesRef (refs risenEngine)
                <= totalSamplesRef (refs risenEngine))%nat)
    by (vm_compute; repeat constructor).
  assert (H2 : (stationarySamplesRef
                  (refs (startMeasurement measuringEngine))
                <= totalSamplesRef
                     (refs (startMeasurement measuringEngine)))%nat)
    by (vm_compute; repeat constructor).
  split; [reflexivity|].
  split; [rewrite (proj1 (sample_counters Qcsqrt restStream _ H1));
          reflexivity|].
  split; [reflexivity|].
  rewrite (proj1 (sample_counters Qcsqrt restStream _ H2)). reflexivity.
Defined.

(** X7 on the concrete session. *)
Lemma stopMeasurement_detaches_witness :
  let stopped :=
    stopMeasurement
      (deliverAll Qcsqrt restStream (startMeasurement calibratedEngine)) in
  motionListeners (window stopped) = 0%nat /\
  deliverAll Qcsqrt flatStream stopped = stopped.
Proof.
  destruct (stopMeasurement_detaches Qcsqrt restStream calibratedEngine
              eq_refl eq_refl) as [H0 Hlater].
  split; [exact H0 | apply Hlater].
Defined.

(** X8 on the concrete session. *)
Lemma second_start_leaks_listener_witness :
  motionListeners
    (window (stopMeasurement
               (startMeasurement (startMeasurement calibratedEngine))))
  = 1%nat.
Proof.
  exact (proj1 (second_start_leaks_listener Qcsqrt calibratedEngine
                  eq_refl)).
Defined.

(** *** Calibration, again *)

Section MoreCalibrationFacts.

Variable sqrt : Qc -> Qc.

(** With permission, [calibrate] is the window followed by the mean. *)
Lemma calibrate_granted o es s :
  permissionGranted s = true ->
  calibrate sqrt o es s =
  finishCalibration sqrt (collected es)
    (deliverAll sqrt es (beginCalibration s)).
Proof.
  intros H. unfold calibrate, collectWindow. rewrite H. cbn [negb].
  rewrite collectWindow_split. reflexivity.
Qed.

Lemma calibrate_success o es s :
  permissionGranted s = true ->
  collected es <> [] ->
  hasCalibratedRef (refs (calibrate sqrt o es s)) = true /\
  gravityRef (refs (calibrate sqrt o es s)) = averageGravity (collected es).
Proof.
  intros Hp Hne. rewrite (calibrate_granted o es s Hp).
  unfold finishCalibration. destruct (collected es); [contradiction|].
  split; reflexivity.
Qed.

(** X9.  A call of [calibrate] made before permission was granted never
    calibrates, not even when the prompt it raises is answered with a
    grant: the cells and the displayed state are untouched, and it takes a
    second call, which then sees at least one acceleration, to
    calibrate. *)
Theorem calibrate_needs_permission_first s :
  permissionGranted s = false ->
  (forall o es,
     refs (calibrate sqrt o es s) = refs s /\
     measurementState (calibrate sqrt o es s) = measurementState s /\
     (permissionGranted (calibrate sqrt o es s) = true <-> o = Granted)) /\
  (forall es o' es',
     collected es' <> [] ->
     hasCalibratedRef
       (refs (calibrate sqrt o' es' (calibrate sqrt Granted es s))) = true).
Proof.
  intros Hp. split.
  - intros o es. rewrite (calibrate_without_permission sqrt o es s Hp).
    destruct o; cbn; rewrite ?Hp; repeat split;
      congruence || discriminate.
  - intros es o' es' Hne.
    apply calibrate_success; [|exact Hne].
    rewrite (calibrate_without_permission sqrt Granted es s Hp).
    reflexivity.
Qed.

Lemma sumOf_bounds (f : Vec3 -> Qc) (lo hi : Qc) samples :
  Forall (fun v => lo <= f v /\ f v <= hi) samples ->
  JS.ofNat (List.length samples) * lo <= sumOf f samples /\
  sumOf f samples <= JS.ofNat (List.length samples) * hi.
Proof.
  induction 1 as [|v samples [Hlo Hhi] _ [IHlo IHhi]].
  - split; qc_decide.
  - unfold sumOf. cbn [fold_right List.length]. fold (sumOf f samples).
    assert (E : JS.ofNat (S (List.length samples))
                = JS.ofNat (List.length samples) + 1).
    { unfold JS.ofNat. apply Qc_is_canon.
      rewrite this_add, !this_Q2Qc, Nat2Z.inj_succ, <- Z.add_1_r.
      rewrite inject_Z_plus. reflexivity. }
    rewrite E. generalize dependent (JS.ofNat (List.length samples)).
    generalize dependent (sumOf f samples). intros sm n IHlo IHhi _.
    split; qc_to_q; lra.
Qed.

Lemma ofNat_positive n : (0 < n)%nat -> 0 < JS.ofNat n.
Proof.
  intros H. unfold JS.ofNat, Qclt. rewrite !this_Q2Qc.
  change 0%Q with (inject_Z 0). rewrite <- Zlt_Qlt. lia.
Qed.

Lemma mean_component_bounds (f : Vec3 -> Qc) (lo hi : Qc) samples :
  samples <> [] ->
  Forall (fun v => lo <= f v /\ f v <= hi) samples ->
  lo <= sumOf f samples / JS.ofNat (List.length samples) /\
  sumOf f samples / JS.ofNat (List.length samples) <= hi.
Proof.
  intros Hne Hall. destruct (sumOf_bounds f lo hi samples Hall) as [H1 H2].
  assert (Hn : 0 < JS.ofNat (List.length samples)).
  { apply ofNat_positive. destruct samples; [contradiction|cbn; lia]. }
  generalize dependent (JS.ofNat (List.length samples)).
  generalize dependent (sumOf f samples). intros sm n H1 H2 Hn.
  unfold Qcle, Qclt in *.
  rewrite this_div. rewrite this_mul in H1, H2.
  change (this 0) with 0%Q in Hn. split.
  - apply Qle_shift_div_l; [exact Hn|]. rewrite Qmult_comm. exact H1.
  - apply Qle_shift_div_r; [exact Hn|]. rewrite Qmult_comm. exact H2.
Qed.

Lemma measured_window lo hi es :
  measuredInBox lo hi es -> Forall (inBox lo hi) (collected es).
Proof.
  induction es as [|[ts e] es IH]; intros H; [constructor|].
  inversion H as [|x l Hx Hl]; subst. rewrite collected_cons.
  apply Forall_app. split; [|apply IH, Hl].
  unfold handler. cbn [snd] in Hx.
  destruct (accelerationIncludingGravity e) as [ag|]; [|constructor].
  constructor; [apply Hx; reflexivity | constructor].
Qed.

(** X10.  A successful calibration seeds gravity inside the range of what
    was measured: if every acceleration that the events of the window
    carry lies in a box, and there is at least one, so does the gravity
    estimate that [calibrate] stores.  This is a fact of the exact mean;
    in binary64 the stored mean can leave a box by one unit in the last
    place. *)
Theorem calibration_within_collected_box o es s lo hi :
  permissionGranted s = true ->
  windowAccelerations es <> [] ->
  measuredInBox lo hi es ->
  inBox lo hi (gravityRef (refs (calibrate sqrt o es s))).
Proof.
  intros Hp Hne Hbox. rewrite <- collected_window in Hne.
  pose proof (measured_window lo hi es Hbox) as Hall.
  rewrite (proj2 (calibrate_success o es s Hp Hne)).
  rewrite averageGravity_is_mean. unfold specMean, inBox. cbn [vx vy vz].
  split; [|split]; (apply mean_component_bounds; [exact Hne|]);
    (eapply Forall_impl; [|exact Hall]); intros v Hv; apply Hv.
Qed.

End MoreCalibrationFacts.

(** X9 on the freshly mounted hook: the first call only obtains the
    permission, the second calibrates. *)
Lemma calibrate_needs_permission_first_witness :
  let arrivals :=
    [(Q2Qc 100, restEvent (Some 20)); (Q2Qc 120, restEvent (Some 20))] in
  permissionGranted initialEngine = false /\
  hasCalibratedRef
    (refs (calibrate Qcsqrt Granted arrivals initialEngine)) = false /\
  hasCalibratedRef
    (refs (calibrate Qcsqrt Granted arrivals
             (calibrate Qcsqrt Granted arrivals initialEngine))) = true.
Proof.
  intros arrivals.
  destruct (calibrate_needs_permission_first Qcsqrt initialEngine eq_refl)
    as [Hfirst Hsecond].
  split; [reflexivity|]. split.
  - destruct (Hfirst Granted arrivals) as (Hr & _). rewrite Hr. reflexivity.
  - apply Hsecond. discriminate.
Defined.

(** X10 on the calibration of the concrete session. *)
Lemma calibration_within_collected_box_witness :
  let arrivals :=
    [(Q2Qc 100, restEvent (Some 20)); (Q2Qc 120, restEvent (Some 20))] in
  let g := mkVec3 0 0 (Q2Qc 9.81) in
  measuredInBox g g arrivals /\
  inBox g g (gravityRef (refs calibratedEngine)).
Proof.
  intros arrivals g.
  assert (Hall : measuredInBox g g arrivals).
  { unfold measuredInBox, arrivals. apply Forall_forall.
    intros te Hin. cbn [In] in Hin.
    repeat (destruct Hin as [<- | Hin]; [cbn [snd]; intros ag Hag;
      injection Hag as <-; unfold inBox; repeat split; qc_decide|]).
    contradiction. }
  split; [exact Hall|].
  apply (calibration_within_collected_box Qcsqrt Granted arrivals
           (requestSensorPermission Granted initialEngine) g g eq_refl);
    [discriminate | exact Hall].
Defined.

(** *** Sessions *)

(** X11.  [resetMeasurement] discards the calibration: whatever the state,
    a [startMeasurement] that follows it only reports the error; nothing
    is measured and no listener is added until [calibrate] succeeds
    again. *)
Theorem reset_discards_calibration s :
  let r := resetMeasurement s in
  startMeasurement r =
    mkEngine (refs r) (measurementState r)
             (Some "Please calibrate first"%string)
             (permissionGranted r) (window r) /\
  isMeasuring (measurementState (startMeasurement r)) = false /\
  window (startMeasurement r) = window r.
Proof.
  repeat split.
Qed.

(** X12 on the state after the concrete measurement was stopped. *)
Lemma reachable_in_range_witness :
  let s := stopMeasurement (deliverAll Qcsqrt restStream measuringEngine) in
  Reachable Qcsqrt s /\ Invariant (refs s) /\
  peakDisplacementRef (refs s) = displacementRef (refs s).
Proof.
  intros s.
  assert (Hr : Reachable Qcsqrt s).
  { subst s. apply ReachStop.
    assert (Hm : Reachable Qcsqrt measuringEngine).
    { apply ReachStart, ReachCalibrate, ReachPermission, ReachMount. }
    revert Hm. generalize measuringEngine. unfold deliverAll.
    induction restStream as [|te es IH]; intros s0 H0; [exact H0|].
    cbn [fold_left]. apply IH, ReachEvent, H0. }
  split; [exact Hr|]. exact (reachable_in_range Qcsqrt s Hr).
Defined.

(** ** The plain hook, [hooks/useIMUHeight.ts] *)

Lemma leb_le (a b : Qc) : JSMore.leb a b = true <-> a <= b.
Proof. apply Qle_bool_iff. Qed.

Lemma leb_gt (a b : Qc) : JSMore.leb a b = false <-> b < a.
Proof. apply geb_lt. Qed.

Section PlainFacts.

Variable sqrt : Qc -> Qc.

Lemma plain_onMotion_cases ts e s :
  (plainIntegrates ts e (Plain.refs s) = false /\
   Plain.onMotion sqrt ts e s = Plain.stamp ts s) \/
  (plainIntegrates ts e (Plain.refs s) = true /\
   exists ag, accelerationIncludingGravity e = Some ag /\
   Plain.totalSamplesRef (Plain.refs (Plain.onMotion sqrt ts e s))
   = S (Plain.totalSamplesRef (Plain.refs s))).
Proof.
  unfold plainIntegrates, hasAcceleration, Plain.onMotion.
  destruct (accelerationIncludingGravity e) as [ag|]; cbn [andb].
  - destruct (Plain.weirdDt (Plain.sampleDt ts e (Plain.refs s)));
      cbn [negb].
    + left. split; reflexivity.
    + right. split; [reflexivity|]. exists ag. split; reflexivity.
  - left. split; reflexivity.
Qed.

(** X13.  The plain hook drops an event that has no acceleration, or
    whose time delta is not positive or exceeds 0.2 s: only the clock
    reading is stored.  Every other event is integrated.  On the first
    event after [startMeasurement] the delta is the reported interval
    taken as seconds, so that event is dropped whenever the interval
    exceeds 0.2, as every interval reported in milliseconds does. *)
Theorem plain_drops_weird_intervals ts e s :
  let dt := Plain.sampleDt ts e (Plain.refs s) in
  let s' := Plain.onMotion sqrt ts e s in
  (hasAcceleration e = false \/ dt <= 0 \/ Q2Qc 0.2 < dt ->
   s' = Plain.stamp ts s) /\
  (hasAcceleration e = true -> 0 < dt -> dt <= Q2Qc 0.2 ->
   Plain.totalSamplesRef (Plain.refs s')
   = S (Plain.totalSamplesRef (Plain.refs s))) /\
  (forall i, Plain.lastTimestampRef (Plain.refs s) = 0 ->
             interval e = Some i -> Q2Qc 0.2 < i ->
             s' = Plain.stamp ts s).
Proof.
  intros dt s'.
  assert (Hdrop : hasAcceleration e = false \/ dt <= 0 \/ Q2Qc 0.2 < dt ->
                  s' = Plain.stamp ts s).
  { intros H.
    destruct (plain_onMotion_cases ts e s) as [[_ E] | [Hi _]];
      [exact E|].
    exfalso. unfold plainIntegrates in Hi.
    apply andb_prop in Hi. destruct Hi as [Ha Hw].
    apply negb_true_iff in Hw. unfold Plain.weirdDt in Hw.
    apply orb_false_elim in Hw. destruct Hw as [Hw1 Hw2]. fold dt in Hw1, Hw2.
    apply leb_gt in Hw1. apply gtb_le in Hw2.
    destruct H as [H | [H | H]].
    - congruence.
    - apply Qclt_not_le in Hw1. contradiction.
    - apply Qclt_not_le in H. contradiction. }
  split; [exact Hdrop|]. split.
  - intros Ha H0 H2.
    destruct (plain_onMotion_cases ts e s) as [[Hi _] | [_ (ag & _ & E)]];
      [|exact E].
    exfalso. unfold plainIntegrates in Hi. rewrite Ha in Hi.
    cbn [andb] in Hi. apply negb_false_iff in Hi.
    unfold Plain.weirdDt in Hi. fold dt in Hi.
    apply orb_true_iff in Hi. destruct Hi as [Hi | Hi].
    + apply leb_le in Hi. apply Qclt_not_le in H0. contradiction.
    + apply gtb_gt in Hi. apply Qclt_not_le in Hi. contradiction.
  - intros i Hlast Hint Hi. apply Hdrop. right. right.
    subst dt. unfold Plain.sampleDt, JSMore.orElse. rewrite Hlast, Hint.
    assert (Ht : JS.truthy i = true).
    { unfold JS.truthy. apply negb_true_iff.
      destruct (Qc_eq_bool i 0) eqn:E; [|reflexivity].
      apply Qc_eq_bool_correct in E. subst i. exfalso.
      unfold Qclt, Qlt in Hi. vm_compute in Hi. discriminate Hi. }
    rewrite Ht. exact Hi.
Qed.

Lemma plain_stamp_refs ts s :
  Plain.displacementRef (Plain.refs (Plain.stamp ts s))
  = Plain.displacementRef (Plain.refs s) /\
  Plain.velocityRef (Plain.refs (Plain.stamp ts s))
  = Plain.velocityRef (Plain.refs s) /\
  Plain.gravityRef (Plain.refs (Plain.stamp ts s))
  = Plain.gravityRef (Plain.refs s).
Proof. repeat split. Qed.

Lemma plain_onMotion_in_range ts e s :
  plainInRange (Plain.refs s) ->
  plainInRange (Plain.refs (Plain.onMotion sqrt ts e s)).
Proof.
  intros Hr. unfold Plain.onMotion.
  destruct (accelerationIncludingGravity e) as [ag|]; [|exact Hr].
  destruct (Plain.weirdDt _); [exact Hr|].
  unfold plainInRange. cbn. js_cases; split; qc_to_q; lra.
Qed.

(** X14.  Along every stream of events the displacement of the plain hook
    stays in [[0, 300]] cm. *)
Theorem plain_displacement_in_range es s :
  plainInRange (Plain.refs s) ->
  plainInRange (Plain.refs (Plain.processAll sqrt es s)).
Proof.
  revert s. induction es as [|te es IH]; intros s Hr; [exact Hr|].
  unfold Plain.processAll in *. cbn [fold_left].
  apply IH, plain_onMotion_in_range, Hr.
Qed.

(** X15.  The plain hook integrates the signed velocity: on an integrated
    event the displacement does not fall when the new velocity is zero or
    positive, does not rise when it is negative, and falls strictly when
    it is negative and the displacement was above 0. *)
Theorem plain_displacement_follows_velocity ts e s :
  plainInRange (Plain.refs s) ->
  plainIntegrates ts e (Plain.refs s) = true ->
  let s' := Plain.onMotion sqrt ts e s in
  let d := Plain.displacementRef (Plain.refs s) in
  let d' := Plain.displacementRef (Plain.refs s') in
  (0 <= Plain.velocityRef (Plain.refs s') -> d <= d') /\
  (Plain.velocityRef (Plain.refs s') < 0 ->
   d' <= d /\ (0 < d -> d' < d)).
Proof.
  intros [Hd0 Hd300] Hint. unfold plainIntegrates, hasAcceleration in Hint.
  unfold Plain.onMotion.
  destruct (accelerationIncludingGravity e) as [ag|]; [|discriminate].
  cbn [andb] in Hint. apply negb_true_iff in Hint. rewrite Hint.
  unfold Plain.weirdDt in Hint. apply orb_false_elim in Hint.
  destruct Hint as [Hpos _]. apply leb_gt in Hpos. cbn.
  generalize dependent (Plain.sampleDt ts e (Plain.refs s)). intros dt Hpos.
  match goal with
  | |- context [Plain.displacementRef (Plain.refs s) + ?x * dt] =>
      generalize x; intro v
  end.
  split.
  - intros Hv. js_cases; qc_to_q; nra.
  - intros Hv. js_cases; (split; [|intros Hd]); qc_to_q; nra.
Qed.

End PlainFacts.

(** X13 on the first event of a measurement when the platform reports
    16 ms between events. *)
Lemma plain_drops_weird_intervals_witness :
  Plain.onMotion Qcsqrt (Q2Qc 1000) (riseEvent (Some 16)) plainMeasuring
  = Plain.stamp (Q2Qc 1000) plainMeasuring.
Proof.
  apply (proj2 (proj2 (plain_drops_weird_intervals Qcsqrt (Q2Qc 1000)
                         (riseEvent (Some 16)) plainMeasuring))
           (Q2Qc 16) eq_refl eq_refl).
  qc_decide.
Defined.

(** X14 on a climb followed by a descent. *)
Lemma plain_displacement_in_range_witness :
  plainInRange (Plain.refs plainMeasuring) /\
  plainInRange
    (Plain.refs (Plain.processAll Qcsqrt (climbStream ++ descentStream)
                   plainMeasuring)).
Proof.
  assert (H : plainInRange (Plain.refs plainMeasuring))
    by (split; qc_decide).
  split; [exact H|].
  exact (plain_displacement_in_range Qcsqrt (climbStream ++ descentStream)
           plainMeasuring H).
Defined.

(** X15 on an event of downward acceleration after the climb. *)
Lemma plain_displacement_follows_velocity_witness :
  let s := Plain.processAll Qcsqrt climbStream plainMeasuring in
  let e := verticalEvent 40 None in
  let s' := Plain.onMotion Qcsqrt (Q2Qc 1600) e s in
  plainInRange (Plain.refs s) /\
  plainIntegrates (Q2Qc 1600) e (Plain.refs s) = true /\
  Plain.velocityRef (Plain.refs s') < 0 /\
  Plain.displacementRef (Plain.refs s') < Plain.displacementRef (Plain.refs s).
Proof.
  intros s e s'.
  assert (Hr : plainInRange (Plain.refs s)) by (split; qc_decide).
  assert (Hi : plainIntegrates (Q2Qc 1600) e (Plain.refs s) = true)
    by qc_decide.
  assert (Hv : Plain.velocityRef (Plain.refs s') < 0) by qc_decide.
  split; [exact Hr|]. split; [exact Hi|]. split; [exact Hv|].
  apply (proj2 (plain_displacement_follows_velocity Qcsqrt (Q2Qc 1600) e s
                  Hr Hi) Hv).
  qc_decide.
Defined.

(** ** The conservative hook *)

Section ConservativeFacts.

Variable sqrt : Qc -> Qc.

Lemma conservative_onMotion_step ts e s :
  conservativeInRange (Conservative.refs s) ->
  let s' := Conservative.onMotion sqrt ts e s in
  conservativeInRange (Conservative.refs s') /\
  Conservative.totalHeightRef (Conservative.refs s)
  <= Conservative.totalHeightRef (Conservative.refs s') /\
  Conservative.gravityRef (Conservative.refs s')
  = Conservative.gravityRef (Conservative.refs s) /\
  ((Conservative.velocityRef (Conservative.refs s') <= 1 \/
    Double.gtb (Conservative.movingUpTimeRef (Conservative.refs s'))
               (Double.ofQ 0.1) = false) ->
   Conservative.totalHeightRef (Conservative.refs s')
   = Conservative.totalHeightRef (Conservative.refs s)).
Proof.
  intros [[Hh0 Hh250] [Hv0 Hv80]]. unfold Conservative.onMotion.
  assert (Hsame :
    conservativeInRange (Conservative.refs (Conservative.stamp ts s)) /\
    Conservative.totalHeightRef (Conservative.refs s)
    <= Conservative.totalHeightRef
         (Conservative.refs (Conservative.stamp ts s)) /\
    Conservative.gravityRef (Conservative.refs (Conservative.stamp ts s))
    = Conservative.gravityRef (Conservative.refs s) /\
    ((Conservative.velocityRef
        (Conservative.refs (Conservative.stamp ts s)) <= 1 \/
      Double.gtb
        (Conservative.movingUpTimeRef
           (Conservative.refs (Conservative.stamp ts s)))
        (Double.ofQ 0.1) = false) ->
     Conservative.totalHeightRef
       (Conservative.refs (Conservative.stamp ts s))
     = Conservative.totalHeightRef (Conservative.refs s))).
  { cbn. repeat split; try assumption. apply Qcle_refl. }
  destruct (accelerationIncludingGravity e) as [ag|]; [|exact Hsame].
  destruct (JSMore.leb (Conservative.sampleDt ts (Conservative.refs s)) 0)
    eqn:Edt; [exact Hsame|]. clear Hsame.
  apply leb_gt in Edt.
  generalize dependent (Conservative.sampleDt ts (Conservative.refs s)).
  intros dt Hdt.
  generalize (aVert sqrt (Conservative.gravityRef (Conservative.refs s))
                (accelVec ag) * Q2Qc 100).
  intros a.
  destruct (Conservative.isStationary sqrt _ (accelVec ag));
    [|destruct (Conservative.isMovingUp sqrt _ (accelVec ag))];
    cbv zeta; cbn [Conservative.refs Conservative.totalHeightRef
                   Conservative.velocityRef Conservative.gravityRef
                   Conservative.movingUpTimeRef];
    unfold conservativeInRange;
    cbn [Conservative.totalHeightRef Conservative.velocityRef].
  - destruct (Double.gtb _ (Double.ofQ 0.3));
      (destruct (JS.gtb _ 1) eqn:Ev; cbn [andb];
       [replace (Double.gtb (Double.ofZ 0) (Double.ofQ 0.1)) with false
          by (vm_compute; reflexivity)|]);
      (repeat split; [..|intros _]);
      js_cases; try reflexivity; qc_to_q; try lra; nra.
  - destruct (JS.gtb _ 1) eqn:Ev; [apply gtb_gt in Ev | apply gtb_le in Ev];
      (destruct (Double.gtb _ (Double.ofQ 0.1)) eqn:Em); cbn [andb];
      (repeat split; [..|intros Hor]);
      js_cases; try reflexivity;
      try (destruct Hor as [Hor | Hor]; [|discriminate Hor]);
      qc_to_q; try lra; nra.
  - destruct (JS.gtb _ 1) eqn:Ev; cbn [andb];
      [replace (Double.gtb (Double.ofZ 0) (Double.ofQ 0.1)) with false
         by (vm_compute; reflexivity)|];
      (repeat split; [..|intros _]);
      js_cases; try reflexivity; qc_to_q; try lra; nra.
Qed.

Lemma conservative_processAll_cons te es s :
  Conservative.processAll sqrt (te :: es) s =
  Conservative.processAll sqrt es
    (Conservative.onMotion sqrt (fst te) (snd te) s).
Proof. reflexivity. Qed.

(** X16.  Along every stream of events the conservative hook keeps its
    height in [[0, 250]] cm and its velocity in [[0, 80]] cm/s. *)
Theorem conservative_cells_in_range es s :
  conservativeInRange (Conservative.refs s) ->
  conservativeInRange (Conservative.refs (Conservative.processAll sqrt es s)).
Proof.
  revert s. induction es as [|te es IH]; intros s Hr; [exact Hr|].
  rewrite conservative_processAll_cons.
  apply IH, (conservative_onMotion_step (fst te) (snd te) s Hr).
Qed.

(** X17.  The height of the conservative hook never retracts, and its
    gravity estimate is never touched while measuring: after any stream
    of events the height is at least what it was and gravity is what the
    calibration left. *)
Theorem conservative_height_never_retracts es s :
  conservativeInRange (Conservative.refs s) ->
  let s' := Conservative.processAll sqrt es s in
  Conservative.totalHeightRef (Conservative.refs s)
  <= Conservative.totalHeightRef (Conservative.refs s') /\
  Conservative.gravityRef (Conservative.refs s')
  = Conservative.gravityRef (Conservative.refs s).
Proof.
  revert s. induction es as [|te es IH]; intros s Hr.
  - split; [apply Qcle_refl | reflexivity].
  - cbv zeta. rewrite conservative_processAll_cons.
    destruct (conservative_onMotion_step (fst te) (snd te) s Hr)
      as (Hr' & Hle & Hg & _).
    destruct (IH _ Hr') as [IHle IHg]. split.
    + eapply Qcle_trans; eassumption.
    + rewrite IHg. exact Hg.
Qed.

(** X18.  The height of the conservative hook grows only while the device
    has been moving up for more than 0.1 s at more than 1 cm/s: an event
    that leaves the velocity at 1 cm/s or less, or the upward time at
    0.1 s or less, leaves the height exactly as it was. *)
Theorem conservative_height_gated ts e s :
  conservativeInRange (Conservative.refs s) ->
  let s' := Conservative.onMotion sqrt ts e s in
  Conservative.velocityRef (Conservative.refs s') <= 1 \/
  Double.gtb (Conservative.movingUpTimeRef (Conservative.refs s'))
             (Double.ofQ 0.1) = false ->
  Conservative.totalHeightRef (Conservative.refs s')
  = Conservative.totalHeightRef (Conservative.refs s).
Proof.
  intros Hr. apply (conservative_onMotion_step ts e s Hr).
Qed.

Lemma conservative_still_step ts e s :
  conservativeStill sqrt ts e (Conservative.refs s) = true ->
  let s' := Conservative.onMotion sqrt ts e s in
  Conservative.stationaryTimeRef (Conservative.refs s')
  = Double.add (Conservative.stationaryTimeRef (Conservative.refs s))
               (Double.ofQc (Conservative.sampleDt ts (Conservative.refs s)))
  /\
  (Double.gtb (Conservative.stationaryTimeRef (Conservative.refs s'))
              (Double.ofQ 0.3) = true ->
   Conservative.velocityRef (Conservative.refs s') = 0) /\
  (Double.gtb (Conservative.stationaryTimeRef (Conservative.refs s'))
              (Double.ofQ 0.3) = false ->
   Conservative.velocityRef (Conservative.refs s')
   = Conservative.velocityRef (Conservative.refs s)).
Proof.
  unfold conservativeStill, Conservative.onMotion.
  destruct (accelerationIncludingGravity e) as [ag|]; [|discriminate].
  intros H. apply andb_prop in H. destruct H as [Hdt Hst].
  apply negb_true_iff in Hdt. rewrite Hdt, Hst. cbn.
  split; [reflexivity|]. split; intros H; rewrite H; reflexivity.
Qed.

(** X19.  The conservative hook adds up the time deltas of consecutive
    stationary samples, in binary64: over a stream of them the stationary
    time is the deltas added one after the other to what it was, and
    when it exceeds 0.3 s at the end of the stream the velocity is
    exactly 0; a stationary sample at which it does not exceed 0.3 s
    leaves the velocity as it was.  What is compared with 0.3 is the
    rounded sum: ten deltas of 30 ms add up to 0.30000000000000004 and
    reset the velocity. *)
Theorem conservative_zupt_by_accumulated_time es s :
  conservativeRest sqrt es s ->
  let s' := Conservative.processAll sqrt es s in
  Conservative.stationaryTimeRef (Conservative.refs s')
  = accumulated (Conservative.stationaryTimeRef (Conservative.refs s))
                (conservativeDeltas sqrt es s) /\
  (es <> [] ->
   Double.gtb (Conservative.stationaryTimeRef (Conservative.refs s'))
              (Double.ofQ 0.3) = true ->
   Conservative.velocityRef (Conservative.refs s') = 0) /\
  (forall ts e,
     conservativeStill sqrt ts e (Conservative.refs s') = true ->
     let s'' := Conservative.onMotion sqrt ts e s' in
     Double.gtb (Conservative.stationaryTimeRef (Conservative.refs s''))
                (Double.ofQ 0.3) = false ->
     Conservative.velocityRef (Conservative.refs s'')
     = Conservative.velocityRef (Conservative.refs s')).
Proof.
  intros Hrest s'.
  split; [|split; [|intros ts e Hst;
                     apply (conservative_still_step ts e s' Hst)]];
    subst s'; revert s Hrest;
    induction es as [|[ts e] es IH]; intros s Hrest.
  - reflexivity.
  - destruct Hrest as [Hst Hrest].
    rewrite conservative_processAll_cons. cbn [fst snd].
    destruct (conservative_still_step ts e s Hst) as (Et & _ & _).
    rewrite (IH _ Hrest), Et. reflexivity.
  - intros H. contradiction.
  - destruct Hrest as [Hst Hrest].
    rewrite conservative_processAll_cons. cbn [fst snd].
    destruct (conservative_still_step ts e s Hst) as (_ & Hz & _).
    intros _ Hlong. destruct es as [|te es'].
    + apply Hz. exact Hlong.
    + apply (IH _ Hrest); [discriminate | exact Hlong].
Qed.

End ConservativeFacts.

(** X16 on a climb followed by rest. *)
Lemma conservative_cells_in_range_witness :
  conservativeInRange (Conservative.refs conservativeMeasuring) /\
  conservativeInRange
    (Conservative.refs
       (Conservative.processAll Qcsqrt (climbStream ++ settleStream)
          conservativeMeasuring)).
Proof.
  assert (H : conservativeInRange (Conservative.refs conservativeMeasuring))
    by (repeat split; qc_decide).
  split; [exact H|].
  exact (conservative_cells_in_range Qcsqrt (climbStream ++ settleStream)
           conservativeMeasuring H).
Defined.

(** X17 on the same stream. *)
Lemma conservative_height_never_retracts_witness :
  let s' :=
    Conservative.processAll Qcsqrt (climbStream ++ settleStream)
      conservativeMeasuring in
  conservativeInRange (Conservative.refs conservativeMeasuring) /\
  Conservative.totalHeightRef (Conservative.refs conservativeMeasuring)
  <= Conservative.totalHeightRef (Conservative.refs s').
Proof.
  intros s'.
  assert (H : conservativeInRange (Conservative.refs conservativeMeasuring))
    by (repeat split; qc_decide).
  split; [exact H|].
  exact (proj1 (conservative_height_never_retracts Qcsqrt
                  (climbStream ++ settleStream) conservativeMeasuring H)).
Defined.

(** X18 on the first event of the climb: 20 ms of upward motion do not
    count yet. *)
Lemma conservative_height_gated_witness :
  let s' :=
    Conservative.onMotion Qcsqrt (Q2Qc 1000) (riseEvent None)
      conservativeMeasuring in
  conservativeInRange (Conservative.refs conservativeMeasuring) /\
  Double.gtb (Conservative.movingUpTimeRef (Conservative.refs s'))
             (Double.ofQ 0.1) = false /\
  Conservative.totalHeightRef (Conservative.refs s')
  = Conservative.totalHeightRef (Conservative.refs conservativeMeasuring).
Proof.
  intros s'.
  assert (H : conservativeInRange (Conservative.refs conservativeMeasuring))
    by (repeat split; qc_decide).
  assert (Hm : Double.gtb
                 (Conservative.movingUpTimeRef (Conservative.refs s'))
                 (Double.ofQ 0.1) = false) by (vm_compute; reflexivity).
  split; [exact H|]. split; [exact Hm|].
  exact (conservative_height_gated Qcsqrt (Q2Qc 1000) (riseEvent None)
           conservativeMeasuring H (or_intror Hm)).
Defined.

(** X19 on ten samples at rest, 30 ms apart, after the climb: the deltas
    are 0.3 s in all, their sum in binary64 is above 0.3, and the velocity
    is back to 0 from 60 cm/s. *)
Lemma conservative_zupt_by_accumulated_time_witness :
  let climbed :=
    Conservative.processAll Qcsqrt climbStream conservativeMeasuring in
  let paused := Conservative.processAll Qcsqrt pauseStream climbed in
  Conservative.velocityRef (Conservative.refs climbed) = Q2Qc 60 /\
  conservativeRest Qcsqrt pauseStream climbed /\
  exactSum (conservativeDeltas Qcsqrt pauseStream climbed) = Q2Qc 0.3 /\
  Double.gtb (Conservative.stationaryTimeRef (Conservative.refs paused))
             (Double.ofQ 0.3) = true /\
  Conservative.velocityRef (Conservative.refs paused) = 0.
Proof.
  intros climbed paused.
  assert (Hrest : conservativeRest Qcsqrt pauseStream climbed).
  { unfold pauseStream. cbn [map seq conservativeRest].
    repeat split; vm_compute; reflexivity. }
  assert (Hlong : Double.gtb
                    (Conservative.stationaryTimeRef
                       (Conservative.refs paused))
                    (Double.ofQ 0.3) = true) by (vm_compute; reflexivity).
  destruct (conservative_zupt_by_accumulated_time Qcsqrt pauseStream
              climbed Hrest) as (_ & Hz & _).
  split; [qc_decide|]. split; [exact Hrest|]. split; [qc_decide|].
  split; [exact Hlong|]. apply Hz; [discriminate | exact Hlong].
Defined.

(** ** The orientation hook *)

Lemma abs_cases (x : Qc) :
  (0 <= x /\ JS.abs x = x) \/ (x <= 0 /\ JS.abs x = - x).
Proof.
  unfold JS.abs. destruct (Qclt_le_dec x 0) as [H | H].
  - right. split; [apply Qclt_le_weak, H|]. apply Qcabs_neg, Qclt_le_weak, H.
  - left. split; [exact H | apply Qcabs_pos, H].
Qed.

(** X20.  For pitch angles in [[-180, 180]] the normalised pitch change
    lies in [[-180, 180]] and differs from the plain difference by 0 or
    by a full turn. *)
Theorem orientation_angleDiff_range (startBeta currentBeta : Qc) :
  - Q2Qc 180 <= startBeta -> startBeta <= Q2Qc 180 ->
  - Q2Qc 180 <= currentBeta -> currentBeta <= Q2Qc 180 ->
  let d := Orientation.angleDiff startBeta currentBeta in
  (- Q2Qc 180 <= d /\ d <= Q2Qc 180) /\
  (d = currentBeta - startBeta \/
   d = currentBeta - startBeta - Q2Qc 360 \/
   d = currentBeta - startBeta + Q2Qc 360).
Proof.
  intros H1 H2 H3 H4. unfold Orientation.angleDiff. cbv zeta.
  js_cases; (split; [split; qc_to_q; lra|]);
    first [ left; reflexivity
          | right; left; reflexivity
          | right; right; reflexivity
          | exfalso; qc_to_q; lra ].
Qed.

(** X20 on a pitch that passes from 170 to -170 degrees: a change of 20
    degrees, not of -340. *)
Lemma orientation_angleDiff_range_witness :
  let d := Orientation.angleDiff (Q2Qc 170) (- Q2Qc 170) in
  d = Q2Qc 20 /\ - Q2Qc 180 <= d /\ d <= Q2Qc 180.
Proof.
  intros d.
  assert (H1 : - Q2Qc 180 <= Q2Qc 170) by qc_decide.
  assert (H2 : Q2Qc 170 <= Q2Qc 180) by qc_decide.
  assert (H3 : - Q2Qc 180 <= - Q2Qc 170) by qc_decide.
  assert (H4 : - Q2Qc 170 <= Q2Qc 180) by qc_decide.
  split; [qc_decide|].
  exact (proj1 (orientation_angleDiff_range (Q2Qc 170) (- Q2Qc 170)
                  H1 H2 H3 H4)).
Defined.

Section OrientationFacts.

Variable tan : Qc -> Qc.
Variable PI : Qc.

Lemma orientation_handle_complete now a b g start s :
  Orientation.startOrientationRef s = Some start ->
  Orientation.handleMeasurementOrientation tan PI now
    (Orientation.mkOrientationEvent (Some a) (Some b) (Some g)) s =
  let ms := Orientation.measurementState s in
  let diff := Orientation.angleDiff (Orientation.aBeta start) b in
  let fi := toFeetInches (Orientation.heightOf tan PI diff) in
  Orientation.mkEngine (Some start) (Orientation.endOrientationRef s)
    (Orientation.measurementStartRef s)
    (Orientation.orientationSamplesRef s
     ++ [Orientation.mkSample (Orientation.mkAngles a b g) now])
    (mkDisplay (dIsCalibrating ms) (dIsMeasuring ms) (dIsComplete ms)
               (cm fi) (feet fi) (inches fi)
               (round1 (Orientation.confidenceOf diff))
               (Orientation.DebugSample diff
                  ((now - Orientation.measurementStartRef s) / Q2Qc 1000)))
    (Orientation.error s) (Orientation.permissionGranted s)
    (Orientation.listeners s).
Proof.
  intros H. unfold Orientation.handleMeasurementOrientation.
  rewrite H. reflexivity.
Qed.

(** X21.  For a complete event of a calibrated orientation hook: a pitch
    change of 5 degrees or less reports the height 0 (0 cm, 0 feet,
    0 inches), whatever the tangent; the reported confidence lies in
    [[85, 99.5]] and is 99.5 from 29 degrees on. *)
Theorem orientation_dead_zone_and_confidence now a b g start s :
  Orientation.startOrientationRef s = Some start ->
  let s' :=
    Orientation.handleMeasurementOrientation tan PI now
      (Orientation.mkOrientationEvent (Some a) (Some b) (Some g)) s in
  let diff := Orientation.angleDiff (Orientation.aBeta start) b in
  let ms' := Orientation.measurementState s' in
  (JS.abs diff <= Q2Qc 5 ->
   dHeightCm ms' = 0 /\ dHeightFt ms' = 0 /\ dHeightInches ms' = 0) /\
  (Q2Qc 85 <= dConfidence ms' /\ dConfidence ms' <= Q2Qc 99.5) /\
  (Q2Qc 29 <= JS.abs diff -> dConfidence ms' = Q2Qc 99.5).
Proof.
  intros Hstart s' diff ms'. subst ms' s'.
  rewrite (orientation_handle_complete now a b g start s Hstart).
  cbv zeta. fold diff.
  cbn [Orientation.measurementState dHeightCm dHeightFt dHeightInches
       dConfidence].
  assert (Habs : 0 <= JS.abs diff) by apply Qcabs_nonneg.
  unfold Orientation.heightOf, Orientation.confidenceOf.
  generalize dependent (JS.abs diff). intros m Hm. clearbody diff.
  assert (R85 : round1 (Q2Qc 85) = Q2Qc 85) by qc_decide.
  assert (R995 : round1 (Q2Qc 99.5) = Q2Qc 99.5) by qc_decide.
  split; [|split].
  - intros Hsmall.
    replace (JS.gtb m (Q2Qc 5)) with false
      by (symmetry; apply gtb_le, Hsmall).
    repeat split; qc_decide.
  - assert (H1 : Q2Qc 85 <= JS.min (Q2Qc 85 + m * Q2Qc 0.5) (Q2Qc 99.5))
      by (js_cases; qc_to_q; lra).
    assert (H2 : JS.min (Q2Qc 85 + m * Q2Qc 0.5) (Q2Qc 99.5) <= Q2Qc 99.5)
      by (js_cases; qc_to_q; lra).
    apply round1_monotone in H1, H2. rewrite R85 in H1. rewrite R995 in H2.
    split; assumption.
  - intros Hbig.
    replace (JS.min (Q2Qc 85 + m * Q2Qc 0.5) (Q2Qc 99.5)) with (Q2Qc 99.5).
    + exact R995.
    + js_cases; [|reflexivity]. qc_to_q. lra.
Qed.

Lemma orientation_handle_samples now e s :
  Orientation.orientationSamplesRef
    (Orientation.handleMeasurementOrientation tan PI now e s)
  = Orientation.orientationSamplesRef s
    ++ match Orientation.startOrientationRef s,
             Orientation.sampleOf (now, e) with
       | Some _, Some sm => [sm]%list
       | _, _ => []%list
       end /\
  Orientation.startOrientationRef
    (Orientation.handleMeasurementOrientation tan PI now e s)
  = Orientation.startOrientationRef s.
Proof.
  unfold Orientation.handleMeasurementOrientation, Orientation.sampleOf.
  cbn [fst snd].
  destruct (Orientation.startOrientationRef s) as [start|] eqn:Hs;
    [|rewrite app_nil_r; split; [reflexivity | exact Hs]].
  destruct e as [[a|] [b|] [g|]]; cbn;
    rewrite ?app_nil_r; split; reflexivity || exact Hs.
Qed.

(** Every invocation of the listener with a complete event stores one
    sample. *)
Lemma orientation_invocations_recorded es start s :
  Orientation.startOrientationRef s = Some start ->
  Orientation.orientationSamplesRef (Orientation.processAll tan PI es s)
  = Orientation.orientationSamplesRef s ++ completeSamples es.
Proof.
  revert s. induction es as [|[now e] es IH]; intros s Hs.
  - cbn. symmetry. apply app_nil_r.
  - unfold Orientation.processAll in *. cbn [fold_left fst snd].
    destruct (orientation_handle_samples now e s) as [E Hs'].
    rewrite IH by (rewrite Hs'; exact Hs). rewrite E, Hs.
    unfold completeSamples. cbn [flat_map].
    rewrite <- app_assoc. reflexivity.
Qed.

Lemma orientation_handle_keeps now e s :
  Orientation.startOrientationRef
    (Orientation.handleMeasurementOrientation tan PI now e s)
  = Orientation.startOrientationRef s /\
  Orientation.listeners
    (Orientation.handleMeasurementOrientation tan PI now e s)
  = Orientation.listeners s.
Proof.
  split; [apply orientation_handle_samples|].
  unfold Orientation.handleMeasurementOrientation.
  destruct (Orientation.startOrientationRef s) as [start|]; [|reflexivity].
  destruct e as [[ea|] [eb|] [eg|]]; reflexivity.
Qed.

Lemma orientation_processAll_keeps es s :
  Orientation.startOrientationRef (Orientation.processAll tan PI es s)
  = Orientation.startOrientationRef s /\
  Orientation.listeners (Orientation.processAll tan PI es s)
  = Orientation.listeners s.
Proof.
  revert s. induction es as [|[now e] es IH]; intros s; [split; reflexivity|].
  unfold Orientation.processAll in *. cbn [fold_left fst snd].
  destruct (IH (Orientation.handleMeasurementOrientation tan PI now e s))
    as [I1 I2].
  destruct (orientation_handle_keeps now e s) as [K1 K2].
  rewrite I1, I2, K1, K2. split; reflexivity.
Qed.

(** The delivery of one event is a run of invocations, one per closure. *)
Lemma deviceorientation_invocations clock e s :
  Orientation.deviceorientation tan PI clock e s
  = Orientation.processAll tan PI
      (map (fun i => (clock i, e))
           (seq 0 (Orientation.registered (Orientation.listeners s)))) s.
Proof.
  unfold Orientation.deviceorientation, Orientation.processAll.
  generalize (seq 0 (Orientation.registered (Orientation.listeners s))).
  intros l. revert s. induction l as [|i l IH]; intros s; [reflexivity|].
  cbn [map fold_left fst snd]. apply IH.
Qed.

Lemma completeSamples_one clock e (l : list nat) :
  completeSamples (map (fun i => (clock i, e)) l)
  = match Orientation.beta e, Orientation.alpha e, Orientation.gamma e with
    | Some b, Some a, Some g =>
        map (fun i => Orientation.mkSample (Orientation.mkAngles a b g)
                                           (clock i)) l
    | _, _, _ => []%list
    end.
Proof.
  unfold completeSamples, Orientation.sampleOf.
  induction l as [|i l IH]; cbn [map flat_map fst snd].
  - destruct e as [[ea|] [eb|] [eg|]]; reflexivity.
  - rewrite IH. destruct e as [[ea|] [eb|] [eg|]]; reflexivity.
Qed.

(** X22.  A calibrated orientation hook stores, for every event that has
    its three angles, one sample per registered measurement closure, and
    nothing else: after a stream of events the stored samples are those it
    had, followed by the samples of the complete events in their order of
    arrival, each event as many times as closures are registered.  With a
    closure leaked by a second start, every event is stored twice. *)
Theorem orientation_samples_recorded es start s :
  Orientation.startOrientationRef s = Some start ->
  Orientation.orientationSamplesRef (Orientation.deliverAll tan PI es s)
  = Orientation.orientationSamplesRef s
    ++ deliveredSamples (Orientation.registered (Orientation.listeners s))
                        es.
Proof.
  revert s. induction es as [|[clock e] es IH]; intros s Hs.
  - cbn. symmetry. apply app_nil_r.
  - unfold Orientation.deliverAll in *. cbn [fold_left fst snd].
    rewrite deviceorientation_invocations.
    set (inv := map (fun i => (clock i, e))
                    (seq 0 (Orientation.registered
                              (Orientation.listeners s)))).
    destruct (orientation_processAll_keeps inv s) as [K1 K2].
    rewrite IH by (rewrite K1; exact Hs).
    rewrite K2, (orientation_invocations_recorded inv start s Hs).
    subst inv. rewrite completeSamples_one.
    unfold deliveredSamples. cbn [flat_map fst snd].
    rewrite <- app_assoc. reflexivity.
Qed.

End OrientationFacts.

(** X21 on a pitch of 12 degrees after a calibration at 10: two degrees
    of change report no height. *)
Lemma orientation_dead_zone_and_confidence_witness :
  let s' :=
    Orientation.handleMeasurementOrientation smallAngleTan MathPI
      (Q2Qc 5100)
      (Orientation.mkOrientationEvent (Some 0) (Some (Q2Qc 12)) (Some 0))
      orientationMeasuring in
  JS.abs (Orientation.angleDiff (Q2Qc 10) (Q2Qc 12)) <= Q2Qc 5 /\
  dHeightCm (Orientation.measurementState s') = 0 /\
  Q2Qc 85 <= dConfidence (Orientation.measurementState s').
Proof.
  intros s'.
  assert (H : JS.abs (Orientation.angleDiff (Q2Qc 10) (Q2Qc 12)) <= Q2Qc 5)
    by qc_decide.
  destruct (orientation_dead_zone_and_confidence smallAngleTan MathPI
              (Q2Qc 5100) 0 (Q2Qc 12) 0 _ orientationMeasuring eq_refl)
    as (Hzero & [Hlo _] & _).
  split; [exact H|]. split; [apply (Hzero H) | exact Hlo].
Defined.

(** X22 on three events of which one lacks the pitch: with one closure
    two samples are stored, with the two closures that a second start
    leaves, four. *)
Lemma orientation_samples_recorded_witness :
  Orientation.registered (Orientation.listeners orientationMeasuring)
  = 1%nat /\
  List.length
    (Orientation.orientationSamplesRef
       (Orientation.deliverAll smallAngleTan MathPI pitchDeliveries
          orientationMeasuring)) = 2%nat /\
  Orientation.registered (Orientation.listeners orientationRestarted)
  = 2%nat /\
  List.length
    (Orientation.orientationSamplesRef
       (Orientation.deliverAll smallAngleTan MathPI pitchDeliveries
          orientationRestarted)) = 4%nat.
Proof.
  split; [reflexivity|]. split; [|split; [reflexivity|]].
  - rewrite (orientation_samples_recorded smallAngleTan MathPI
               pitchDeliveries _ orientationMeasuring eq_refl).
    reflexivity.
  - rewrite (orientation_samples_recorded smallAngleTan MathPI
               pitchDeliveries _ orientationRestarted eq_refl).
    reflexivity.
Defined.

(** ** The accelerometer hook, [hooks/useSensorMeasurement.ts] *)

Lemma div_nonneg (a t : Qc) : 0 <= a -> 0 < t -> 0 <= a / t.
Proof.
  intros Ha Ht. unfold Qcdiv.
  replace 0 with (0 * / t) by ring.
  apply Qcmult_le_compat_r; [exact Ha|].
  apply Qclt_le_weak.
  unfold Qclt in *. rewrite this_inv. change (this 0) with 0%Q in *.
  apply Qinv_lt_0_compat, Ht.
Qed.

Section AccelerometerFacts.

Variable sqrt : Qc -> Qc.

(** What an event can do to the cells: nothing, or only leave its time,
    or keep the filter output as well, or integrate. *)
Lemma accelerometer_cases now e s :
  let s' := Accelerometer.handleMeasurementMotion sqrt now e s in
  let dt := Accelerometer.deltaTime now e s in
  (s' = s /\
   (Accelerometer.acceleration e = None \/
    Accelerometer.calibrationDataRef s = None)) \/
  (s' = Accelerometer.stamp (Accelerometer.currentTime now e) s /\
   (dt <= 0 \/ Q2Qc 0.1 < dt)) \/
  (0 < dt /\ dt <= Q2Qc 0.1 /\
   Accelerometer.lastTimestamp s' = Accelerometer.currentTime now e /\
   ((Accelerometer.velocityRef s' = Accelerometer.velocityRef s /\
     Accelerometer.positionRef s' = Accelerometer.positionRef s /\
     Accelerometer.startPositionRef s' = Accelerometer.startPositionRef s /\
     Accelerometer.measurementState s' = Accelerometer.measurementState s)
    \/
    (exists f total,
       Q2Qc 0.1 < total /\
       Accelerometer.velocityRef s' =
         mkVec3 (vx (Accelerometer.velocityRef s))
                (vy (Accelerometer.velocityRef s))
                (vz (Accelerometer.velocityRef s) + f * dt) /\
       Accelerometer.positionRef s' =
         mkVec3 (vx (Accelerometer.positionRef s))
                (vy (Accelerometer.positionRef s))
                (vz (Accelerometer.positionRef s)
                 + vz (Accelerometer.velocityRef s') * dt) /\
       Accelerometer.startPositionRef s' =
         Some (match Accelerometer.startPositionRef s with
               | Some sp => sp
               | None => Accelerometer.positionRef s'
               end) /\
       Accelerometer.heightCm (Accelerometer.measurementState s') =
         round1 (JS.abs
                   (vz (Accelerometer.positionRef s')
                    - vz (match Accelerometer.startPositionRef s with
                          | Some sp => sp
                          | None => Accelerometer.positionRef s'
                          end)) * Q2Qc 100) /\
       Accelerometer.confidence (Accelerometer.measurementState s') =
         round1 (JS.min (Q2Qc 95 + (JS.abs f / total) * Q2Qc 5)
                        (Q2Qc 99.9))))).
Proof.
  cbv zeta. unfold Accelerometer.handleMeasurementMotion.
  destruct (Accelerometer.acceleration e) as [acc|];
    [|left; split; [reflexivity | left; reflexivity]].
  destruct (Accelerometer.calibrationDataRef s) as [cal|];
    [|left; split; [reflexivity | right; reflexivity]].
  right.
  destruct (JSMore.leb (Accelerometer.deltaTime now e s) 0) eqn:E0.
  { left. split; [reflexivity|]. left. apply leb_le, E0. }
  destruct (JS.gtb (Accelerometer.deltaTime now e s) (Q2Qc 0.1)) eqn:E1.
  { left. split; [reflexivity|]. right. apply gtb_gt, E1. }
  right. cbn [orb]. apply leb_gt in E0. apply gtb_le in E1.
  split; [exact E0|]. split; [exact E1|].
  destruct (JS.gtb (sqrt _) Accelerometer.NOISE_THRESHOLD) eqn:En;
    [|split; [reflexivity | left; repeat split]].
  destruct (JS.gtb (_ / _) Accelerometer.VERTICAL_THRESHOLD);
    [|split; [reflexivity | left; repeat split]].
  split; [reflexivity|]. right. apply gtb_gt in En.
  eexists. eexists. split; [exact En|]. repeat split.
Qed.

(** An invocation whose time delta is not positive or exceeds 0.1 s, in
    particular the first one of a closure, changes no cell. *)
Lemma accelerometer_invocation_dropped now e s :
  let s' := Accelerometer.handleMeasurementMotion sqrt now e s in
  let dt := Accelerometer.deltaTime now e s in
  Accelerometer.lastTimestamp s = 0 \/ dt <= 0 \/ Q2Qc 0.1 < dt ->
  accelerometerCells s' = accelerometerCells s /\
  Accelerometer.filteredAcceleration s'
  = Accelerometer.filteredAcceleration s.
Proof.
  cbv zeta. intros H.
  assert (Hdt : Accelerometer.deltaTime now e s <= 0 \/
                Q2Qc 0.1 < Accelerometer.deltaTime now e s).
  { destruct H as [H | H]; [|exact H]. left.
    unfold Accelerometer.deltaTime. rewrite H. qc_decide. }
  destruct (accelerometer_cases now e s) as [[E _] | [[E _] | (H0 & H1 & _)]].
  - rewrite E. split; reflexivity.
  - rewrite E. split; reflexivity.
  - exfalso. destruct Hdt as [Hd | Hd].
    + apply Qclt_not_le in H0. contradiction.
    + apply Qclt_not_le in Hd. contradiction.
Qed.

(** No invocation touches the calibration. *)
Lemma accelerometer_calibration_kept now e s :
  Accelerometer.calibrationDataRef
    (Accelerometer.handleMeasurementMotion sqrt now e s)
  = Accelerometer.calibrationDataRef s.
Proof.
  unfold Accelerometer.handleMeasurementMotion.
  destruct (Accelerometer.acceleration e) as [acc|]; [|reflexivity].
  destruct (Accelerometer.calibrationDataRef s) as [cal|] eqn:Ec;
    [|exact Ec].
  destruct (_ || _); [exact Ec|].
  destruct (JS.gtb _ Accelerometer.NOISE_THRESHOLD); [|reflexivity].
  destruct (JS.gtb _ Accelerometer.VERTICAL_THRESHOLD); reflexivity.
Qed.

(** Without a calibration an invocation does nothing. *)
Lemma accelerometer_uncalibrated now e s :
  Accelerometer.calibrationDataRef s = None ->
  Accelerometer.handleMeasurementMotion sqrt now e s = s.
Proof.
  intros H. unfold Accelerometer.handleMeasurementMotion. rewrite H.
  destruct (Accelerometer.acceleration e); reflexivity.
Qed.

(** The leaked closures leave the variables of the closure of [frame]
    alone, and the calibration. *)
Lemma handleLeaked_frame now e cs acc :
  let s1 := fst (fold_left (Accelerometer.handleLeaked sqrt now e) cs acc) in
  Accelerometer.lastTimestamp s1 = Accelerometer.lastTimestamp (fst acc) /\
  Accelerometer.filteredAcceleration s1
  = Accelerometer.filteredAcceleration (fst acc) /\
  Accelerometer.calibrationDataRef s1
  = Accelerometer.calibrationDataRef (fst acc).
Proof.
  cbv zeta. revert acc.
  induction cs as [|c cs IH]; intros acc; [repeat split|].
  cbn [fold_left].
  destruct (IH (Accelerometer.handleLeaked sqrt now e acc c))
    as (I1 & I2 & I3).
  rewrite I1, I2, I3. unfold Accelerometer.handleLeaked. cbn.
  split; [reflexivity|]. split; [reflexivity|].
  rewrite accelerometer_calibration_kept. reflexivity.
Qed.

Lemma runLeaked_frame now e cs s :
  let s1 := fst (Accelerometer.runLeaked sqrt now e cs s) in
  Accelerometer.lastTimestamp s1 = Accelerometer.lastTimestamp s /\
  Accelerometer.filteredAcceleration s1
  = Accelerometer.filteredAcceleration s /\
  Accelerometer.calibrationDataRef s1 = Accelerometer.calibrationDataRef s.
Proof. apply (handleLeaked_frame now e cs (s, [])). Qed.

(** X23.  An invocation of the accelerometer listener whose time delta is
    not positive or exceeds 0.1 s changes no cell, and the delta of the
    first invocation of a closure counts as 0.  So the closure that
    [startMeasurement] registers does not integrate the first event it
    sees: after that event the cells are what the closures leaked by
    earlier starts made of them, and when none is registered they are as
    [startMeasurement] left them.  A leaked closure has its own variables
    and can integrate that event. *)
Theorem accelerometer_drops_weird_intervals now e :
  (forall s,
     let s' := Accelerometer.handleMeasurementMotion sqrt now e s in
     let dt := Accelerometer.deltaTime now e s in
     Accelerometer.lastTimestamp s = 0 \/ dt <= 0 \/ Q2Qc 0.1 < dt ->
     accelerometerCells s' = accelerometerCells s /\
     Accelerometer.filteredAcceleration s'
     = Accelerometer.filteredAcceleration s) /\
  (forall h,
     let started := Accelerometer.startMeasurement h in
     accelerometerCells
       (Accelerometer.frame (Accelerometer.devicemotion sqrt now e started))
     = accelerometerCells
         (fst (Accelerometer.runLeaked sqrt now e
                 (Accelerometer.leaked started)
                 (Accelerometer.frame started)))) /\
  (forall h,
     Accelerometer.measurementListener h = false ->
     Accelerometer.leaked h = [] ->
     let started := Accelerometer.startMeasurement h in
     accelerometerCells
       (Accelerometer.frame (Accelerometer.devicemotion sqrt now e started))
     = accelerometerCells (Accelerometer.frame started)).
Proof.
  assert (Hsecond : forall h,
    let started := Accelerometer.startMeasurement h in
    accelerometerCells
      (Accelerometer.frame (Accelerometer.devicemotion sqrt now e started))
    = accelerometerCells
        (fst (Accelerometer.runLeaked sqrt now e
                (Accelerometer.leaked started)
                (Accelerometer.frame started)))).
  { intros h started. unfold Accelerometer.devicemotion.
    destruct (runLeaked_frame now e (Accelerometer.leaked started)
                (Accelerometer.frame started)) as (L1 & L2 & L3).
    destruct (Accelerometer.runLeaked sqrt now e
                (Accelerometer.leaked started)
                (Accelerometer.frame started)) as [s1 cs].
    cbn [fst] in *. cbn [Accelerometer.frame].
    destruct (Accelerometer.measurementListener started); [|reflexivity].
    subst started. unfold Accelerometer.startMeasurement in *.
    destruct (Accelerometer.calibrationDataRef (Accelerometer.frame h))
      as [cal|] eqn:Ec; cbn [Accelerometer.frame] in *.
    - apply (accelerometer_invocation_dropped now e s1).
      left. rewrite L1. reflexivity.
    - rewrite (accelerometer_uncalibrated now e s1); [reflexivity|].
      rewrite L3. reflexivity. }
  split; [intros s; apply accelerometer_invocation_dropped|].
  split; [exact Hsecond|].
  intros h Hml Hl started. subst started.
  pose proof (Hsecond h) as H2. cbv zeta in H2. rewrite H2.
  assert (Hnone : Accelerometer.leaked (Accelerometer.startMeasurement h)
                  = []).
  { unfold Accelerometer.startMeasurement.
    destruct (Accelerometer.calibrationDataRef (Accelerometer.frame h));
      cbn [Accelerometer.leaked]; rewrite Hl, ?Hml; reflexivity. }
  rewrite Hnone. reflexivity.
Qed.

Lemma accelerometer_step_horizontal now e s :
  let s' := Accelerometer.handleMeasurementMotion sqrt now e s in
  vx (Accelerometer.velocityRef s') = vx (Accelerometer.velocityRef s) /\
  vy (Accelerometer.velocityRef s') = vy (Accelerometer.velocityRef s) /\
  vx (Accelerometer.positionRef s') = vx (Accelerometer.positionRef s) /\
  vy (Accelerometer.positionRef s') = vy (Accelerometer.positionRef s).
Proof.
  cbv zeta.
  destruct (accelerometer_cases now e s)
    as [[E _] | [[E _] | (_ & _ & _ & [(Ev & Ep & _) | H])]].
  - rewrite E. repeat split.
  - rewrite E. repeat split.
  - rewrite Ev, Ep. repeat split.
  - destruct H as (f & total & _ & Ev & Ep & _).
    rewrite Ep, Ev. repeat split.
Qed.

(** X24.  The accelerometer hook integrates the vertical axis only: after
    any stream of events the x and y components of velocity and position
    are what they were (0 after [startMeasurement]). *)
Theorem accelerometer_only_vertical_moves es s :
  let s' := Accelerometer.processAll sqrt es s in
  vx (Accelerometer.velocityRef s') = vx (Accelerometer.velocityRef s) /\
  vy (Accelerometer.velocityRef s') = vy (Accelerometer.velocityRef s) /\
  vx (Accelerometer.positionRef s') = vx (Accelerometer.positionRef s) /\
  vy (Accelerometer.positionRef s') = vy (Accelerometer.positionRef s).
Proof.
  revert s. induction es as [|[now e] es IH]; intros s.
  - repeat split.
  - cbv zeta. unfold Accelerometer.processAll in *. cbn [fold_left fst snd].
    destruct (IH (Accelerometer.handleMeasurementMotion sqrt now e s))
      as (I1 & I2 & I3 & I4).
    destruct (accelerometer_step_horizontal now e s) as (H1 & H2 & H3 & H4).
    rewrite I1, I2, I3, I4. repeat split; assumption.
Qed.

(** X25.  Whenever the accelerometer hook updates the confidence, the
    value it reports lies in [[95, 99.9]]: after any event the confidence
    is what it was or in that range. *)
Theorem accelerometer_confidence_range now e s :
  let c := Accelerometer.confidence (Accelerometer.measurementState s) in
  let c' :=
    Accelerometer.confidence
      (Accelerometer.measurementState
         (Accelerometer.handleMeasurementMotion sqrt now e s)) in
  c' = c \/ (Q2Qc 95 <= c' /\ c' <= Q2Qc 99.9).
Proof.
  intros c c'. subst c c'.
  destruct (accelerometer_cases now e s)
    as [[E _] | [[E _] | (_ & _ & _ & [(_ & _ & _ & Em) | H])]].
  - left. rewrite E. reflexivity.
  - left. rewrite E. reflexivity.
  - left. rewrite Em. reflexivity.
  - right. destruct H as (f & total & Ht & _ & _ & _ & _ & Ec).
    rewrite Ec.
    assert (Hr : 0 <= JS.abs f / total).
    { apply div_nonneg; [apply Qcabs_nonneg|].
      apply Qclt_trans with (Q2Qc 0.1); [qc_decide | exact Ht]. }
    generalize dependent (JS.abs f / total). intros r _ Hr.
    assert (R95 : round1 (Q2Qc 95) = Q2Qc 95) by qc_decide.
    assert (R999 : round1 (Q2Qc 99.9) = Q2Qc 99.9) by qc_decide.
    assert (H1 : Q2Qc 95 <= JS.min (Q2Qc 95 + r * Q2Qc 5) (Q2Qc 99.9))
      by (js_cases; qc_to_q; lra).
    assert (H2 : JS.min (Q2Qc 95 + r * Q2Qc 5) (Q2Qc 99.9) <= Q2Qc 99.9)
      by (js_cases; qc_to_q; lra).
    apply round1_monotone in H1, H2. rewrite R95 in H1. rewrite R999 in H2.
    split; assumption.
Qed.

(** X26.  The accelerometer hook takes its start position after the first
    integrated step, so that step is never shown: as long as no start
    position is stored, the height after an event is what it was or 0.
    The reported height is never negative. *)
Theorem accelerometer_first_step_not_shown now e s :
  let h := Accelerometer.heightCm (Accelerometer.measurementState s) in
  let h' :=
    Accelerometer.heightCm
      (Accelerometer.measurementState
         (Accelerometer.handleMeasurementMotion sqrt now e s)) in
  (Accelerometer.startPositionRef s = None -> h' = h \/ h' = 0) /\
  (0 <= h -> 0 <= h').
Proof.
  intros h h'. subst h h'.
  destruct (accelerometer_cases now e s)
    as [[E _] | [[E _] | (_ & _ & _ & [(_ & _ & _ & Em) | H])]].
  - rewrite E. split; [left; reflexivity | trivial].
  - rewrite E. split; [left; reflexivity | trivial].
  - rewrite Em. split; [left; reflexivity | trivial].
  - destruct H as (f & total & _ & _ & _ & _ & Eh & _). rewrite Eh. split.
    + intros Hnone. right. rewrite Hnone.
      replace (vz _ - vz _) with 0 by ring. qc_decide.
    + intros _. replace 0 with (round1 0) by qc_decide.
      apply round1_monotone.
      assert (Ha : forall x : Qc, 0 <= JS.abs x) by apply Qcabs_nonneg.
      generalize (Ha (vz (Accelerometer.positionRef
                            (Accelerometer.handleMeasurementMotion sqrt now
                               e s))
                      - vz (match Accelerometer.startPositionRef s with
                            | Some sp => sp
                            | None =>
                                Accelerometer.positionRef
                                  (Accelerometer.handleMeasurementMotion
                                     sqrt now e s)
                            end))).
      generalize (JS.abs
                    (vz (Accelerometer.positionRef
                           (Accelerometer.handleMeasurementMotion sqrt now
                              e s))
                     - vz (match Accelerometer.startPositionRef s with
                           | Some sp => sp
                           | None =>
                               Accelerometer.positionRef
                                 (Accelerometer.handleMeasurementMotion
                                    sqrt now e s)
                           end))).
      intros a Hpos. qc_to_q. lra.
Qed.

End AccelerometerFacts.

(** X23 on a lift.  With nothing else registered, the first event of
    the measurement moves nothing.  After a second start without a stop,
    the first event of the new measurement is integrated by the closure
    of the first start. *)
Lemma accelerometer_drops_weird_intervals_witness :
  let e1 := snd (liftEvent 5 1000) in
  let e2 := snd (liftEvent 5 1016) in
  Accelerometer.velocityRef
    (Accelerometer.frame
       (Accelerometer.devicemotion Qcsqrt 0 e1 accelerometerStarted))
  = mkVec3 0 0 0 /\
  Accelerometer.leaked accelerometerRestarted
  = [Accelerometer.mkClosure (Q2Qc 1000) (mkVec3 0 0 0)]%list /\
  Accelerometer.velocityRef (Accelerometer.frame accelerometerRestarted)
  = mkVec3 0 0 0 /\
  vz (Accelerometer.velocityRef
        (Accelerometer.frame
           (Accelerometer.devicemotion Qcsqrt 0 e2 accelerometerRestarted)))
  = Q2Qc 0.064.
Proof.
  intros e1 e2.
  destruct (accelerometer_drops_weird_intervals Qcsqrt 0 e1)
    as (_ & _ & Hfirst).
  pose proof (Hfirst accelerometerCalibrated eq_refl eq_refl) as H1.
  cbv zeta in H1. fold accelerometerStarted in H1.
  split; [exact (f_equal (fun c => snd (fst (fst (fst c)))) H1)|].
  split; [reflexivity|]. split; [reflexivity|]. qc_decide.
Defined.

(** X24 on a lift of three events: the device has moved along z only. *)
Lemma accelerometer_only_vertical_moves_witness :
  vx (Accelerometer.positionRef
        (Accelerometer.processAll Qcsqrt liftStream accelerometerMeasuring))
  = 0 /\
  vz (Accelerometer.positionRef
        (Accelerometer.processAll Qcsqrt liftStream accelerometerMeasuring))
  <> 0.
Proof.
  split.
  - destruct (accelerometer_only_vertical_moves Qcsqrt liftStream
                accelerometerMeasuring) as (_ & _ & Hx & _).
    exact Hx.
  - qc_decide.
Defined.

(** X26 on the lift: the second event is the first one integrated, it
    moves the device and shows a height of 0; the third shows the distance
    from there. *)
Lemma accelerometer_first_step_not_shown_witness :
  let s1 :=
    Accelerometer.processAll Qcsqrt [liftEvent 5 1000]%list
      accelerometerMeasuring in
  let s2 := Accelerometer.handleMeasurementMotion Qcsqrt 0
              (snd (liftEvent 5 1016)) s1 in
  let s3 := Accelerometer.handleMeasurementMotion Qcsqrt 0
              (snd (liftEvent 5 1032)) s2 in
  vz (Accelerometer.positionRef s2) = Q2Qc 0.001024 /\
  Accelerometer.heightCm (Accelerometer.measurementState s2) = 0 /\
  Accelerometer.heightCm (Accelerometer.measurementState s3) = Q2Qc 0.2.
Proof.
  intros s1 s2 s3.
  destruct (accelerometer_first_step_not_shown Qcsqrt 0
              (snd (liftEvent 5 1016)) s1) as (H & _).
  split; [qc_decide|]. split; [|qc_decide].
  destruct (H eq_refl) as [E | E]; [|exact E].
  fold s2 in E. rewrite E. reflexivity.
Defined.
